(** * AI Personal Research Assistant: the retrieval pipeline, embedded in Rocq

    A shallow embedding of [src/core/document_processor.py],
    [src/core/vector_database.py], [src/core/research_assistant.py] and the
    validators of [src/utils/config.py], followed by the properties of the
    extraction, chunking, indexing and orchestration code.

    Python values are modelled as follows: a [str] is the list of its code
    points, [bytes] is a list of bytes, an [int] is a [Z], a [dict] with
    string keys is a [gmap], an exception is a value of [exn] carried by
    [outcome].  Everything outside the repository (codecs, the two PDF
    readers, python-docx, the sentence embedder, the similarity metric of
    the vector store, the chat completion endpoint, the uuid and clock
    sources) is collected in the record [Libs]. *)

From Stdlib Require Import ZArith NArith QArith Qcanon Lia Ascii String Strings.Byte DecimalString.
From stdpp Require Import gmap list sorting numbers.

Local Open Scope Z_scope.

Global Instance byte_eq_decision : EqDecision byte := Byte.byte_eq_dec.

(** ** Python strings *)

Module Py.

Abbreviation str := (list N).
Abbreviation bytes := (list byte).

(** A source literal, as the list of its code points (ASCII literals only). *)
Definition lit (s : string) : str :=
  List.map N_of_ascii (list_ascii_of_string s).

Definition blit (s : string) : bytes := list_byte_of_string s.

Global Arguments lit : simpl never.
Global Arguments blit : simpl never.

(** The newline character. *)
Definition nl : str := [10%N].

(** [str.isspace] for one code point: the white-space table of CPython. *)
Definition isspace (c : N) : bool :=
  ((9 <=? c) && (c <=? 13) || (28 <=? c) && (c <=? 32) || (c =? 133)
   || (c =? 160) || (c =? 5760) || (8192 <=? c) && (c <=? 8202)
   || (c =? 8232) || (c =? 8233) || (c =? 8239) || (c =? 8287)
   || (c =? 12288))%N.

Fixpoint lstrip (s : str) : str :=
  match s with
  | [] => []
  | c :: s' => if isspace c then lstrip s' else s
  end.

Definition rstrip (s : str) : str := reverse (lstrip (reverse s)).

(** [s.strip()] *)
Definition strip (s : str) : str := rstrip (lstrip s).

(** Truth value of a string: [if s:] holds for non-empty strings. *)
Definition truthy (s : str) : bool :=
  match s with [] => false | _ => true end.

(** [s.split()] with no separator: maximal runs of non-space characters.
    [cur] is the word being read. *)
Fixpoint split_from (cur : str) (s : str) : list str :=
  match s with
  | [] => match cur with [] => [] | _ => [cur] end
  | c :: s' =>
      if isspace c then
        match cur with
        | [] => split_from [] s'
        | _ => cur :: split_from [] s'
        end
      else split_from (cur ++ [c]) s'
  end.

Definition split (s : str) : list str := split_from [] s.

(** [sep.join(parts)] *)
Fixpoint join (sep : str) (parts : list str) : str :=
  match parts with
  | [] => []
  | [p] => p
  | p :: rest => p ++ sep ++ join sep rest
  end.

(** Line boundaries of [str.splitlines]. *)
Definition islinebreak (c : N) : bool :=
  ((10 <=? c) && (c <=? 13) || (28 <=? c) && (c <=? 30) || (c =? 133)
   || (c =? 8232) || (c =? 8233))%N.

Fixpoint splitlines_from (cur : str) (s : str) : list str :=
  match s with
  | [] => match cur with [] => [] | _ => [cur] end
  | c :: s' =>
      if (c =? 13)%N then
        match s' with
        | c' :: s'' =>
            if (c' =? 10)%N then cur :: splitlines_from [] s''
            else cur :: splitlines_from [] s'
        | [] => cur :: splitlines_from [] s'
        end
      else if islinebreak c then cur :: splitlines_from [] s'
      else splitlines_from (cur ++ [c]) s'
  end.

Definition splitlines (s : str) : list str := splitlines_from [] s.

Fixpoint startswith {A} `{EqDecision A} (s p : list A) : bool :=
  match p, s with
  | [], _ => true
  | _ :: _, [] => false
  | a :: p', b :: s' => if decide (a = b) then startswith s' p' else false
  end.

(** [needle in hay] for strings. *)
Fixpoint contains (needle hay : str) : bool :=
  startswith hay needle ||
  match hay with
  | [] => false
  | _ :: hay' => contains needle hay'
  end.

(** [str(n)] for an integer. *)
Definition str_of_int (n : Z) : str := lit (NilZero.string_of_int (Z.to_int n)).

(** [len(x)] *)
Definition len {A} (l : list A) : Z := Z.of_nat (length l).

(** [l[lo:hi]] with Python's treatment of negative and out-of-range
    bounds. *)
Definition clamp_index (n i : Z) : Z :=
  if i <? 0 then Z.max 0 (i + n) else Z.min i n.

Definition slice {A} (l : list A) (lo hi : Z) : list A :=
  let n := len l in
  let lo' := clamp_index n lo in
  let hi' := clamp_index n hi in
  take (Z.to_nat (hi' - lo')) (drop (Z.to_nat lo') l).

End Py.

Import Py.

(** ** Exceptions and results *)

Inductive exn_class :=
  | Exception | ValueError | UnicodeDecodeError | KeyError | IndexError
  | AttributeError | TypeError | OSError.

(** A raised exception: its class and [str(e)]. *)
Record exn := Exn { exn_cls : exn_class; exn_str : str }.

Inductive outcome (A : Type) :=
  | Ok (a : A)
  | Raise (e : exn).
Arguments Ok {A} a.
Arguments Raise {A} e.

Global Instance exn_class_eq_dec : EqDecision exn_class.
Proof. solve_decision. Defined.

(** [range(start, stop, step)] as the finite sequence Python builds; a zero
    step raises [ValueError]. *)
Definition range_len (start stop step : Z) : Z :=
  if 0 <? step then
    (if start <? stop then (stop - start + step - 1) / step else 0)
  else
    (if stop <? start then (start - stop - step - 1) / (- step) else 0).

Definition py_range (start stop step : Z) : outcome (list Z) :=
  if step =? 0 then
    Raise (Exn ValueError (lit "range() arg 3 must not be zero"))
  else
    Ok (List.map (fun k => start + Z.of_nat k * step)
          (seq 0 (Z.to_nat (range_len start stop step)))).

(** ** vector_database.py: chunking *)

(** The body of the [for i in range(...)] loop of [chunk_text], with its
    [break]; [chunks] is the list built so far. *)
Fixpoint chunk_loop (words : list str) (chunk_size : Z) (idxs : list Z)
    (chunks : list str) : list str :=
  match idxs with
  | [] => chunks
  | i :: rest =>
      let chunk_words := slice words i (i + chunk_size) in
      let chunk := join (lit " ") chunk_words in
      let chunks' :=
        if truthy (strip chunk) then chunks ++ [strip chunk] else chunks in
      if len words <=? i + chunk_size then chunks'
      else chunk_loop words chunk_size rest chunks'
  end.

(** [VectorDatabase.chunk_text(text, chunk_size, overlap)] *)
Definition chunk_text (text : str) (chunk_size overlap : Z) : outcome (list str) :=
  if negb (truthy (strip text)) then Ok []
  else
    let words := split text in
    if len words <=? chunk_size then Ok [text]
    else
      match py_range 0 (len words) (chunk_size - overlap) with
      | Raise e => Raise e
      | Ok idxs => Ok (chunk_loop words chunk_size idxs [])
      end.

(** ** The world outside the repository *)

(** Values stored in metadata and payload dictionaries. *)
Inductive pyval :=
  | VStr (s : str)
  | VInt (n : Z).

Global Instance pyval_eq_dec : EqDecision pyval.
Proof. solve_decision. Defined.

(** An embedding vector and a similarity score. *)
Abbreviation vector := (list Qc).
Abbreviation score := Qc.

(** What python-docx exposes of a document: the paragraph texts and, for
    every table, its rows of cell texts. *)
Record DocxDocument := {
  paragraphs : list str;
  tables : list (list (list str))
}.

(** The external collaborators. *)
Record Libs := {
  (** [str.lower], the Unicode case mapping *)
  str_lower : str -> str;
  (** decoding a whole file with a codec other than Latin-1 *)
  codec_decode : str -> bytes -> outcome str;
  (** [open(path, 'r', encoding=...)] on a file that is there but cannot be
      opened for reading (no permission, a directory): the text of the
      [OSError] it raises, if it raises *)
  open_error : str -> option str;
  (** [PyPDF2.PdfReader(file).pages]: every page with the outcome of its
      [extract_text()] *)
  PyPDF2_PdfReader : bytes -> outcome (list (outcome str));
  (** [pypdf.PdfReader(file).pages] *)
  pypdf_PdfReader : bytes -> outcome (list (outcome str));
  (** [docx.Document(path)] *)
  docx_Document : bytes -> outcome DocxDocument;
  (** [SentenceTransformer.encode(texts)]: the model maps every text to its
      vector, one vector per text; the call as a whole may raise *)
  st_embed : str -> vector;
  st_failure : list str -> option exn;
  (** cosine similarity as the vector store computes it *)
  cosine : vector -> vector -> score;
  (** [groq_client.chat.completions.create(model, system, user)]: the message
      contents of the returned choices *)
  chat_completions_create : str -> str -> str -> outcome (list (option str));
  (** the n-th value of [uuid.uuid4()] and of [datetime.now().isoformat()] *)
  uuid4 : nat -> str;
  now_isoformat : nat -> str
}.

(** The files on disk, by path. *)
Abbreviation FileSystem := (gmap str bytes).

(** ** pathlib *)

(** [Path(p).name]: the last component, empty and [.] components dropped. *)
Fixpoint path_parts_from (cur : str) (p : str) : list str :=
  match p with
  | [] => [cur]
  | c :: p' =>
      if (c =? 47)%N then cur :: path_parts_from [] p'
      else path_parts_from (cur ++ [c]) p'
  end.

Definition path_parts (p : str) : list str :=
  List.filter (fun c => negb (bool_decide (c = []) || bool_decide (c = lit ".")))
    (path_parts_from [] p).

Definition path_name (p : str) : str := List.last (path_parts p) [].

(** [name.rfind('.')] *)
Fixpoint rfind_dot (s : str) (pos : nat) : option nat :=
  match s with
  | [] => None
  | c :: s' =>
      match rfind_dot s' (S pos) with
      | Some i => Some i
      | None => if (c =? 46)%N then Some pos else None
      end
  end.

(** [Path(p).suffix] *)
Definition path_suffix (p : str) : str :=
  let name := path_name p in
  match rfind_dot name 0 with
  | Some i =>
      if ((0 <? i) && (i <? length name - 1))%nat then drop i name else []
  | None => []
  end.

(** ** utils/config.py: the validators *)

Definition get_supported_file_types : list (str * str) :=
  [ (lit ".pdf", lit "PDF Documents");
    (lit ".docx", lit "Microsoft Word Documents");
    (lit ".txt", lit "Plain Text Files") ].

Definition os_path_exists (fs : FileSystem) (path : str) : bool :=
  bool_decide (is_Some (fs !! path)).

(** [os.path.getsize]: raises [OSError] for a missing file. *)
Definition os_path_getsize (fs : FileSystem) (path : str) : outcome Z :=
  match fs !! path with
  | Some data => Ok (len data)
  | None => Raise (Exn OSError (lit "[Errno 2] No such file or directory"))
  end.

Definition validate_file_size (fs : FileSystem) (file_path : str)
    (max_size_mb : Z) : bool :=
  match os_path_getsize fs file_path with
  | Ok file_size =>
      let max_size_bytes := max_size_mb * 1024 * 1024 in
      file_size <=? max_size_bytes
  | Raise _ => false
  end.

Definition validate_file_type (lower : str -> str) (filename : str) : bool :=
  let file_extension := lower (path_suffix filename) in
  bool_decide (file_extension ∈ (get_supported_file_types).*1).

(** ** document_processor.py *)

(** The dictionary [extract_text] returns. *)
Record ExtractResult := {
  r_success : bool;
  r_text : str;
  r_filename : str;
  r_file_type : str;
  r_error : option str;
  r_metadata : gmap str pyval
}.

Definition set_error (r : ExtractResult) (msg : str) : ExtractResult :=
  {| r_success := r_success r; r_text := r_text r;
     r_filename := r_filename r; r_file_type := r_file_type r;
     r_error := Some msg; r_metadata := r_metadata r |}.

Definition set_extracted (r : ExtractResult) (text : str)
    (metadata : gmap str pyval) : ExtractResult :=
  {| r_success := true; r_text := text;
     r_filename := r_filename r; r_file_type := r_file_type r;
     r_error := r_error r; r_metadata := metadata |}.

Record DocumentProcessor := {
  max_file_size_mb : Z;
  supported_formats : list str
}.

Definition DocumentProcessor_init (max_file_size_mb : Z) : DocumentProcessor :=
  {| max_file_size_mb := max_file_size_mb;
     supported_formats := [lit ".pdf"; lit ".docx"; lit ".txt"] |}.

(** Text-mode reading turns [\r\n] and a lone [\r] into [\n]. *)
Fixpoint universal_newlines (s : str) : str :=
  match s with
  | [] => []
  | c :: s' =>
      if (c =? 13)%N then
        match s' with
        | c' :: s'' =>
            if (c' =? 10)%N then 10%N :: universal_newlines s''
            else 10%N :: universal_newlines s'
        | [] => [10%N]
        end
      else c :: universal_newlines s'
  end.

(** Latin-1 maps every byte to the code point of the same number. *)
Definition latin_1_decode (data : bytes) : str := List.map Byte.to_N data.

(** The page loop shared by both PDF attempts: [(text, extracted_pages)]. *)
Fixpoint pdf_pages_loop (pages : list (outcome str)) (page_num : Z)
    (text : str) (extracted_pages : Z) : str * Z :=
  match pages with
  | [] => (text, extracted_pages)
  | page :: rest =>
      match page with
      | Ok page_text =>
          if truthy page_text && truthy (strip page_text) then
            pdf_pages_loop rest (page_num + 1)
              (text ++ nl ++ lit "--- Page " ++ str_of_int (page_num + 1) ++ lit " ---" ++ nl ++ page_text ++ nl)
              (extracted_pages + 1)
          else pdf_pages_loop rest (page_num + 1) text extracted_pages
      | Raise page_error =>
          pdf_pages_loop rest (page_num + 1) text extracted_pages
      end
  end.

(** One row of a table: the stripped, non-empty cell texts. *)
Fixpoint docx_row_text (cells : list str) (row_text : list str) : list str :=
  match cells with
  | [] => row_text
  | cell :: rest =>
      let cell_text := strip cell in
      if truthy cell_text then docx_row_text rest (row_text ++ [cell_text])
      else docx_row_text rest row_text
  end.

Fixpoint docx_rows_loop (rows : list (list str)) (text : str) : str :=
  match rows with
  | [] => text
  | row :: rest =>
      let row_text := docx_row_text row [] in
      match row_text with
      | [] => docx_rows_loop rest text
      | _ => docx_rows_loop rest (text ++ join (lit " | ") row_text ++ nl)
      end
  end.

Fixpoint docx_tables_loop (tbls : list (list (list str))) (table_count : Z)
    (text : str) : str * Z :=
  match tbls with
  | [] => (text, table_count)
  | table :: rest =>
      let table_count := table_count + 1 in
      let text := text ++ nl ++ lit "--- Table " ++ str_of_int table_count ++ lit " ---" ++ nl in
      docx_tables_loop rest table_count (docx_rows_loop table text)
  end.

Fixpoint docx_paragraphs_loop (pars : list str) (text : str)
    (paragraph_count : Z) : str * Z :=
  match pars with
  | [] => (text, paragraph_count)
  | paragraph :: rest =>
      if truthy (strip paragraph) then
        docx_paragraphs_loop rest (text ++ paragraph ++ nl) (paragraph_count + 1)
      else docx_paragraphs_loop rest text paragraph_count
  end.

(** The accumulated text and the metadata counters for a parsed document. *)
Definition docx_collect (doc : DocxDocument) : str * Z * Z :=
  let '(text, paragraph_count) := docx_paragraphs_loop (paragraphs doc) [] 0 in
  let '(text, table_count) := docx_tables_loop (tables doc) 0 text in
  (text, paragraph_count, table_count).

Definition txt_encodings : list str :=
  [lit "utf-8"; lit "utf-16"; lit "latin-1"; lit "cp1252"; lit "iso-8859-1"].

(** ** The vector store

    The Qdrant client is outside the repository; the model below follows its
    documented contract: upsert by id, similarity search under [must]
    equality conditions with a score threshold, best score first, at most
    [limit] hits. *)

Record PointStruct := {
  p_id : str;
  p_vector : vector;
  p_payload : gmap str pyval
}.

Record ScoredPoint := {
  sp_id : str;
  sp_score : score;
  sp_payload : gmap str pyval
}.

(** The collections of a client, by name. *)
Abbreviation QdrantClient := (gmap str (list PointStruct)).

Definition collection_not_found {A} (name : str) : outcome A :=
  Raise (Exn ValueError (lit "Collection " ++ name ++ lit " not found")).

Fixpoint upsert_point (p : PointStruct) (points : list PointStruct)
    : list PointStruct :=
  match points with
  | [] => [p]
  | q :: rest =>
      if bool_decide (p_id q = p_id p) then p :: rest
      else q :: upsert_point p rest
  end.

Definition client_upsert (client : QdrantClient) (collection_name : str)
    (points : list PointStruct) : outcome QdrantClient :=
  match client !! collection_name with
  | None => collection_not_found collection_name
  | Some stored =>
      Ok (<[collection_name := foldl (fun acc p => upsert_point p acc) stored points]> client)
  end.

(** The value a filter key selects in a payload.  The store reads the key as
    a path: a name without a dot is the field of that name; a dot leads into
    a nested object, and the payloads of this model hold strings and
    integers only, so a dotted key selects nothing, also when a field has
    that very name. *)
Definition is_path (key : str) : bool := existsb (fun c => (c =? 46)%N) key.

Definition field_value (payload : gmap str pyval) (key : str) : option pyval :=
  if is_path key then None else payload !! key.

(** [Filter(must=conditions)]: every condition matches the payload. *)
Definition filter_matches (must : list (str * pyval)) (payload : gmap str pyval)
    : bool :=
  forallb (fun kv => bool_decide (field_value payload kv.1 = Some kv.2)) must.

(** Best score first. *)
Definition by_score_desc (a b : ScoredPoint) : Prop :=
  (sp_score b <= sp_score a)%Qc.

Global Instance by_score_desc_dec : RelDecision by_score_desc.
Proof. intros a b. unfold by_score_desc. apply _. Defined.

(** [client.search(...)].  The order among hits of equal score is the
    store's own business; the model leaves them as they are stored, and no
    property below depends on it. *)
Definition client_search (similarity : vector -> vector -> score)
    (client : QdrantClient) (collection_name : str) (query_vector : vector)
    (limit : nat) (query_filter : option (list (str * pyval)))
    (score_threshold : score) : outcome (list ScoredPoint) :=
  match client !! collection_name with
  | None => collection_not_found collection_name
  | Some stored =>
      let candidates :=
        List.filter
          (fun p => match query_filter with
                    | Some must => filter_matches must (p_payload p)
                    | None => true
                    end) stored in
      let scored :=
        List.map
          (fun p => {| sp_id := p_id p;
                       sp_score := similarity query_vector (p_vector p);
                       sp_payload := p_payload p |}) candidates in
      let kept :=
        List.filter (fun h => bool_decide (score_threshold <= sp_score h)%Qc) scored in
      Ok (take limit (merge_sort by_score_desc kept))
  end.

(** ** Program state and the effect monad *)

(** One turn of the conversation history. *)
Record Turn := { turn_query : str; turn_answer : str }.

(** Everything the program mutates or consumes: the store behind
    [self.client], the history list, and the calls made so far to the uuid
    source, the clock and the embedder. *)
Record State := {
  client : QdrantClient;
  conversation_history : list Turn;
  uuid_calls : nat;
  clock_calls : nat;
  encode_calls : list (list str)
}.

Definition M (A : Type) : Type := State -> outcome A * State.

Definition ret {A} (a : A) : M A := fun s => (Ok a, s).
Definition raise {A} (e : exn) : M A := fun s => (Raise e, s).
Definition bind {A B} (m : M A) (k : A -> M B) : M B :=
  fun s => match m s with
           | (Ok a, s') => k a s'
           | (Raise e, s') => (Raise e, s')
           end.
(** [try: body except Exception as e: handler(e)] *)
Definition try_except {A} (body : M A) (handler : exn -> M A) : M A :=
  fun s => match body s with
           | (Ok a, s') => (Ok a, s')
           | (Raise e, s') => handler e s'
           end.
Definition lift {A} (o : outcome A) : M A := fun s => (o, s).

Notation "x <- m ;; k" := (bind m (fun x => k))
  (at level 100, m at next level, right associativity).
Notation "m ;;; k" := (bind m (fun _ => k))
  (at level 100, right associativity).

Definition set_client (c : QdrantClient) (s : State) : State :=
  {| client := c; conversation_history := conversation_history s;
     uuid_calls := uuid_calls s; clock_calls := clock_calls s;
     encode_calls := encode_calls s |}.

Definition push_history (t : Turn) (s : State) : State :=
  {| client := client s;
     conversation_history := conversation_history s ++ [t];
     uuid_calls := uuid_calls s; clock_calls := clock_calls s;
     encode_calls := encode_calls s |}.

Section Pipeline.

Context (L : Libs).

(** [open(path, 'r', encoding=...).read()] on the file at [file_path],
    whose bytes are [data]: the open itself may fail, whatever the
    encoding; after it, Latin-1 decodes every byte and the other codecs may
    raise. *)
Definition open_read (encoding : str) (file_path : str) (data : bytes)
    : outcome str :=
  match open_error L file_path with
  | Some msg => Raise (Exn OSError msg)
  | None =>
      if bool_decide (encoding = lit "latin-1")
         || bool_decide (encoding = lit "iso-8859-1")
      then Ok (universal_newlines (latin_1_decode data))
      else
        match codec_decode L encoding data with
        | Ok s => Ok (universal_newlines s)
        | Raise e => Raise e
        end
  end.

(** [DocumentProcessor._extract_pdf_text] *)
Definition _extract_pdf_text (fs : FileSystem) (file_path : str)
    : outcome (str * gmap str pyval) :=
  let text : str := [] in
  let metadata : gmap str pyval :=
    <[lit "method" := VStr (lit "unknown")]> (<[lit "pages" := VInt 0]> ∅) in
  match fs !! file_path with
  | None => Raise (Exn Exception (lit "PDF file not found: " ++ file_path))
  | Some data =>
      if len data =? 0 then
        Raise (Exn Exception (lit "PDF file is empty (0 bytes)"))
      else
        let header := take 5 data in
        if negb (startswith header (blit "%PDF-")) then
          Raise (Exn Exception (lit "File is not a valid PDF (missing PDF header)"))
        else
          (* first attempt: PyPDF2 *)
          let attempt1 : outcome (str * gmap str pyval) * str * gmap str pyval :=
            match PyPDF2_PdfReader L data with
            | Raise e => (Raise e, text, metadata)
            | Ok pages =>
                if len pages =? 0 then
                  (Raise (Exn Exception (lit "PDF has no pages")), text, metadata)
                else
                  let metadata :=
                    <[lit "method" := VStr (lit "PyPDF2")]>
                      (<[lit "pages" := VInt (len pages)]> metadata) in
                  let '(text, extracted_pages) := pdf_pages_loop pages 0 text 0 in
                  (Ok (text, metadata), text, metadata)
            end in
          let '(outcome1, text, metadata) := attempt1 in
          let returned1 :=
            match outcome1 with
            | Ok (t, m) => truthy (strip t)
            | Raise _ => false
            end in
          if returned1 then Ok (strip text, metadata)
          else
            let pypdf2_error : option str :=
              match outcome1 with
              | Raise e => Some (exn_str e)
              | Ok _ => None
              end in
            (* second attempt: pypdf *)
            let attempt2 : option str * bool * str * gmap str pyval :=
              match pypdf_PdfReader L data with
              | Raise e2 => (Some (exn_str e2), false, text, metadata)
              | Ok pages =>
                  if len pages =? 0 then
                    (Some (lit "PDF has no pages"), false, text, metadata)
                  else
                    let metadata :=
                      <[lit "method" := VStr (lit "pypdf")]>
                        (<[lit "pages" := VInt (len pages)]> metadata) in
                    let '(text, extracted_pages) := pdf_pages_loop pages 0 [] 0 in
                    (None, truthy (strip text), text, metadata)
              end in
            let '(pypdf_error, returned2, text, metadata) := attempt2 in
            if returned2 then Ok (strip text, metadata)
            else if negb (truthy (strip text)) then
              let error_msg := lit "Both PDF readers failed to extract text. " in
              let error_msg :=
                match pypdf2_error with
                | Some e => if truthy e then error_msg ++ lit "PyPDF2: " ++ e ++ lit ". "
                            else error_msg
                | None => error_msg
                end in
              let error_msg :=
                match pypdf_error with
                | Some e => error_msg ++ lit "pypdf: " ++ e ++ lit ". "
                | None => error_msg
                end in
              let error_msg := error_msg ++
                lit "This might be a scanned PDF, encrypted PDF, or the text might be embedded as images." in
              Raise (Exn Exception error_msg)
            else Ok (strip text, metadata)
  end.

(** The handler that closes [_extract_docx_text]: the "No text found"
    exception passes through, any other is wrapped. *)
Definition docx_reraise {A} (e : exn) : outcome A :=
  if contains (lit "No text found") (exn_str e) then Raise e
  else Raise (Exn Exception (lit "Failed to extract text from DOCX: " ++ exn_str e)).

(** [DocumentProcessor._extract_docx_text] *)
Definition _extract_docx_text (fs : FileSystem) (file_path : str)
    : outcome (str * gmap str pyval) :=
  let body : outcome (str * gmap str pyval) :=
    match fs !! file_path with
    | None => Raise (Exn Exception (lit "DOCX file not found: " ++ file_path))
    | Some data =>
        if len data =? 0 then
          Raise (Exn Exception (lit "DOCX file is empty (0 bytes)"))
        else
          match docx_Document L data with
          | Raise e => Raise e
          | Ok doc =>
              let '(text, paragraph_count, table_count) := docx_collect doc in
              let metadata : gmap str pyval :=
                <[lit "method" := VStr (lit "python-docx")]>
                  (<[lit "tables" := VInt table_count]>
                     (<[lit "paragraphs" := VInt paragraph_count]> ∅)) in
              if negb (truthy (strip text)) then
                Raise (Exn Exception (lit "No text found in DOCX document"))
              else Ok (strip text, metadata)
          end
    end in
  match body with
  | Ok v => Ok v
  | Raise e => docx_reraise e
  end.

(** The loop of [_extract_txt_text] over the encodings still to try. *)
Fixpoint txt_loop (file_path : str) (data : bytes) (encodings : list str)
    (last : str) : outcome (str * gmap str pyval) :=
  match encodings with
  | [] =>
      Raise (Exn Exception (lit "Failed to decode text file with any supported encoding"))
  | encoding :: rest =>
      match open_read encoding file_path data with
      | Ok text =>
          let metadata : gmap str pyval :=
            <[lit "method" := VStr (lit "plain_text")]>
              (<[lit "lines" := VInt (if truthy text then len (splitlines text) else 0)]>
                 (<[lit "encoding" := VStr encoding]> ∅)) in
          Ok (strip text, metadata)
      | Raise e =>
          if decide (exn_cls e = UnicodeDecodeError) then
            txt_loop file_path data rest last
          else if bool_decide (encoding = last) then
            Raise (Exn Exception (lit "Failed to read text file: " ++ exn_str e))
          else txt_loop file_path data rest last
      end
  end.

(** [DocumentProcessor._extract_txt_text] *)
Definition _extract_txt_text (fs : FileSystem) (file_path : str)
    : outcome (str * gmap str pyval) :=
  match fs !! file_path with
  | None => Raise (Exn Exception (lit "TXT file not found: " ++ file_path))
  | Some data =>
      if len data =? 0 then
        (* Empty file is valid for TXT *)
        Ok ([], <[lit "method" := VStr (lit "plain_text")]>
                  (<[lit "lines" := VInt 0]>
                     (<[lit "encoding" := VStr (lit "utf-8")]> ∅)))
      else
        let encodings := txt_encodings in
        txt_loop file_path data encodings (List.last encodings [])
  end.

(** [DocumentProcessor.extract_text] *)
Definition extract_text (self : DocumentProcessor) (fs : FileSystem)
    (file_path filename : str) : ExtractResult :=
  let result :=
    {| r_success := false; r_text := []; r_filename := filename;
       r_file_type := str_lower L (path_suffix filename);
       r_error := None; r_metadata := ∅ |} in
  if negb (validate_file_type (str_lower L) filename) then
    set_error result (lit "Unsupported file type: " ++ r_file_type result)
  else if negb (validate_file_size fs file_path (max_file_size_mb self)) then
    set_error result
      (lit "File too large (max " ++ str_of_int (max_file_size_mb self) ++ lit "MB)")
  else
    let extracted : option (outcome (str * gmap str pyval)) :=
      if bool_decide (r_file_type result = lit ".pdf") then
        Some (_extract_pdf_text fs file_path)
      else if bool_decide (r_file_type result = lit ".docx") then
        Some (_extract_docx_text fs file_path)
      else if bool_decide (r_file_type result = lit ".txt") then
        Some (_extract_txt_text fs file_path)
      else None in
    match extracted with
    | None => set_error result (lit "Unsupported file type: " ++ r_file_type result)
    | Some (Raise e) => set_error result (exn_str e)
    | Some (Ok (text, metadata)) =>
        if truthy text && truthy (strip text) then
          set_extracted result text metadata
        else
          set_error result
            (lit "No text could be extracted from the document. The file might be scanned, empty, or corrupted.")
    end.

(** ** vector_database.py *)

Record VectorDatabase := {
  db_path : str;
  collection_name : str;
  embedding_model_name : str
}.

(** The [metadata] argument of [add_document]; a missing key is [None]. *)
Record DocMetadata := {
  md_filename : option str;
  md_file_type : option str;
  md_upload_time : option str;
  md_chunk_size : option Z;
  md_chunk_overlap : option Z;
  md_extra_metadata : option (gmap str pyval)
}.

(** The dictionary [add_document] returns. *)
Record AddResult := {
  a_success : bool;
  a_error : option str;
  a_chunks_added : Z;
  a_document_id : option str;
  a_total_characters : option Z
}.

Definition add_failure (msg : str) : AddResult :=
  {| a_success := false; a_error := Some msg; a_chunks_added := 0;
     a_document_id := None; a_total_characters := None |}.

(** One formatted hit of [search_similar]. *)
Record SearchResult := {
  sr_text : pyval;
  sr_score : score;
  sr_document_name : pyval;
  sr_document_id : pyval;
  sr_chunk_id : pyval;
  sr_file_type : pyval;
  sr_upload_time : pyval
}.

Definition st_encode (texts : list str) : outcome (list vector) :=
  match st_failure L texts with
  | Some e => Raise e
  | None => Ok (List.map (st_embed L) texts)
  end.

(** [self.embedding_model.encode(texts)]; the call is recorded. *)
Definition encode (texts : list str) : M (list vector) :=
  fun s =>
    (st_encode texts,
     {| client := client s; conversation_history := conversation_history s;
        uuid_calls := uuid_calls s; clock_calls := clock_calls s;
        encode_calls := encode_calls s ++ [texts] |}).

(** [str(uuid.uuid4())] *)
Definition uuid_uuid4 : M str :=
  fun s =>
    (Ok (uuid4 L (uuid_calls s)),
     {| client := client s; conversation_history := conversation_history s;
        uuid_calls := S (uuid_calls s); clock_calls := clock_calls s;
        encode_calls := encode_calls s |}).

(** [datetime.now().isoformat()] *)
Definition datetime_now_isoformat : M str :=
  fun s =>
    (Ok (now_isoformat L (clock_calls s)),
     {| client := client s; conversation_history := conversation_history s;
        uuid_calls := uuid_calls s; clock_calls := S (clock_calls s);
        encode_calls := encode_calls s |}).

(** The payload literal of [add_document]: the seven fixed keys, then the
    keys of [extra_metadata] written over them. *)
Definition make_payload (chunk : str) (i : Z) (document_id : str)
    (metadata : DocMetadata) (now : str) (chunk_count : Z) : gmap str pyval :=
  default ∅ (md_extra_metadata metadata) ∪
  (<[lit "chunk_count" := VInt chunk_count]>
   (<[lit "upload_time" := VStr (default now (md_upload_time metadata))]>
    (<[lit "file_type" := VStr (default (lit "unknown") (md_file_type metadata))]>
     (<[lit "document_name" := VStr (default (lit "unknown") (md_filename metadata))]>
      (<[lit "document_id" := VStr document_id]>
       (<[lit "chunk_id" := VInt i]>
        (<[lit "text" := VStr chunk]> ∅))))))).

(** The loop [for i, (chunk, embedding) in enumerate(zip(chunks, embeddings))]. *)
Fixpoint points_loop (metadata : DocMetadata) (document_id : str)
    (chunk_count : Z) (items : list (str * vector)) (i : Z)
    (points : list PointStruct) : M (list PointStruct) :=
  match items with
  | [] => ret points
  | (chunk, embedding) :: rest =>
      point_id <- uuid_uuid4 ;;
      now <- datetime_now_isoformat ;;
      let point :=
        {| p_id := point_id; p_vector := embedding;
           p_payload := make_payload chunk i document_id metadata now chunk_count |} in
      points_loop metadata document_id chunk_count rest (i + 1) (points ++ [point])
  end.

(** [self.client.upsert(collection_name, points)] *)
Definition upsert (collection : str) (points : list PointStruct) : M unit :=
  fun s =>
    match client_upsert (client s) collection points with
    | Ok c => (Ok tt, set_client c s)
    | Raise e => (Raise e, s)
    end.

(** [VectorDatabase.add_document] *)
Definition add_document (self : VectorDatabase) (text : str)
    (metadata : DocMetadata) : M AddResult :=
  try_except
    (if negb (truthy (strip text)) then ret (add_failure (lit "Empty text provided"))
     else
       chunks <- lift (chunk_text text
                         (default 500 (md_chunk_size metadata))
                         (default 50 (md_chunk_overlap metadata))) ;;
       match chunks with
       | [] => ret (add_failure (lit "No chunks generated from text"))
       | _ =>
           embeddings <- encode chunks ;;
           document_id <- uuid_uuid4 ;;
           points <- points_loop metadata document_id (len chunks)
                       (zip chunks embeddings) 0 [] ;;
           upsert (collection_name self) points ;;;
           ret {| a_success := true; a_error := None;
                  a_chunks_added := len chunks;
                  a_document_id := Some document_id;
                  a_total_characters := Some (len text) |}
       end)
    (fun e => ret (add_failure (exn_str e))).

(** [result.payload["text"]] *)
Definition payload_item (payload : gmap str pyval) (key : str) : outcome pyval :=
  match payload !! key with
  | Some v => Ok v
  | None => Raise (Exn KeyError (lit "'" ++ key ++ lit "'"))
  end.

(** The loop that formats the hits. *)
Fixpoint format_results (search_result : list ScoredPoint)
    (results : list SearchResult) : outcome (list SearchResult) :=
  match search_result with
  | [] => Ok results
  | result :: rest =>
      match payload_item (sp_payload result) (lit "text") with
      | Raise e => Raise e
      | Ok text =>
          format_results rest
            (results ++
             [{| sr_text := text;
                 sr_score := sp_score result;
                 sr_document_name :=
                   default (VStr (lit "unknown")) (sp_payload result !! lit "document_name");
                 sr_document_id :=
                   default (VStr (lit "unknown")) (sp_payload result !! lit "document_id");
                 sr_chunk_id :=
                   default (VInt 0) (sp_payload result !! lit "chunk_id");
                 sr_file_type :=
                   default (VStr (lit "unknown")) (sp_payload result !! lit "file_type");
                 sr_upload_time :=
                   default (VStr (lit "unknown")) (sp_payload result !! lit "upload_time") |}])
      end
  end.

(** [VectorDatabase.search_similar] *)
Definition search_similar (self : VectorDatabase) (query : str) (limit : nat)
    (score_threshold : score) (filter_conditions : option (gmap str pyval))
    : M (list SearchResult) :=
  try_except
    (if negb (truthy (strip query)) then ret []
     else
       embedded <- encode [query] ;;
       query_embedding <-
         lift (match embedded with
               | v :: _ => Ok v
               | [] => Raise (Exn IndexError (lit "index 0 is out of bounds"))
               end) ;;
       let search_filter : option (list (str * pyval)) :=
         match filter_conditions with
         | Some conds =>
             match map_to_list conds with
             | [] => None
             | conditions => Some conditions
             end
         | None => None
         end in
       search_result <-
         (fun s => (client_search (cosine L) (client s) (collection_name self)
                      query_embedding limit search_filter score_threshold, s)) ;;
       lift (format_results search_result []))
    (fun e => ret []).

(** ** research_assistant.py *)

(** The marks the status lines start with, as the code points of the
    source literals. *)
Definition check_mark : str := [8218; 250; 214]%N.
Definition cross_mark : str := [8218; 249; 229]%N.
Definition chart_mark : str := [63743; 252; 236; 228]%N.
Definition bulb_mark : str := [63743; 252; 237; 176]%N.

Record ResearchAssistant := {
  doc_processor : DocumentProcessor;
  vector_db : VectorDatabase;
  groq_model : str;
  (** [config.get('chunk_size')] and [config.get('chunk_overlap')] *)
  config_chunk_size : option Z;
  config_chunk_overlap : option Z
}.

(** An element of the [files] list: a path string, an object with a [name]
    attribute, or anything else (with its [str()]). *)
Inductive Upload :=
  | UploadPath (path : str)
  | UploadObject (name : str)
  | UploadOther (repr : str).

(** [getattr(file, 'name', str(file))] *)
Definition upload_label (file : Upload) : str :=
  match file with
  | UploadPath path => path
  | UploadObject name => name
  | UploadOther repr => repr
  end.

(** [d[key]] on a dictionary field that may be absent. *)
Definition dict_item {A} (field : option A) (key : str) : outcome A :=
  match field with
  | Some v => Ok v
  | None => Raise (Exn KeyError (lit "'" ++ key ++ lit "'"))
  end.

(** An optional string inside an f-string. *)
Definition format_optional (o : option str) : str :=
  match o with
  | Some v => v
  | None => lit "None"
  end.

(** [ResearchAssistant.process_single_document] *)
Definition process_single_document (self : ResearchAssistant) (fs : FileSystem)
    (file_path filename : str) : M str :=
  try_except
    (let extraction_result := extract_text (doc_processor self) fs file_path filename in
     if negb (r_success extraction_result) then
       ret (cross_mark ++ lit " Failed to process '" ++ filename ++ lit "': "
            ++ format_optional (r_error extraction_result))
     else
       let extracted_text := r_text extraction_result in
       let lines :=
         List.map strip
           (List.filter (fun line => truthy (strip line)) (splitlines extracted_text)) in
       match lines with
       | [] =>
           ret (cross_mark ++ lit " '" ++ filename
                ++ lit "' appears to be empty or contains no meaningful lines to process.")
       | _ =>
           now <- datetime_now_isoformat ;;
           let metadata :=
             {| md_filename := Some filename;
                md_file_type := Some (r_file_type extraction_result);
                md_upload_time := Some now;
                md_chunk_size := Some (default 500 (config_chunk_size self));
                md_chunk_overlap := Some (default 50 (config_chunk_overlap self));
                md_extra_metadata := Some (r_metadata extraction_result) |} in
           db_result <- add_document (vector_db self) extracted_text metadata ;;
           if a_success db_result then
             total_characters <-
               lift (dict_item (a_total_characters db_result) (lit "total_characters")) ;;
             ret (check_mark ++ lit " Successfully processed '" ++ filename ++ lit "': "
                  ++ str_of_int (a_chunks_added db_result) ++ lit " chunks added ("
                  ++ str_of_int total_characters ++ lit " characters)")
           else
             error <- lift (dict_item (a_error db_result) (lit "error")) ;;
             ret (cross_mark ++ lit " Failed to add '" ++ filename
                  ++ lit "' to database: " ++ error)
       end)
    (fun e =>
       ret (cross_mark ++ lit " Error processing '" ++ filename ++ lit "': " ++ exn_str e)).

(** Where the uploaded file is, and under which name. *)
Definition resolve_upload (fs : FileSystem) (file : Upload) : outcome (str * str) :=
  match file with
  | UploadPath path =>
      if os_path_exists fs path then Ok (path, path_name path)
      else Raise (Exn Exception (lit "Cannot read uploaded file: unsupported type"))
  | UploadObject name =>
      if os_path_exists fs name then Ok (name, path_name name)
      else Raise (Exn Exception (lit "Cannot read uploaded file: unsupported type"))
  | UploadOther _ =>
      Raise (Exn Exception (lit "Cannot read uploaded file: unsupported type"))
  end.

(** The loop of [process_documents] over the uploaded files: the status
    lines and the success counter. *)
Fixpoint process_documents_loop (self : ResearchAssistant) (fs : FileSystem)
    (files : list Upload) (results : list str) (successful_uploads : Z)
    : M (list str * Z) :=
  match files with
  | [] => ret (results, successful_uploads)
  | file :: rest =>
      step <-
        try_except
          (located <- lift (resolve_upload fs file) ;;
           let '(file_path, filename) := located in
           file_size <- lift (os_path_getsize fs file_path) ;;
           if file_size =? 0 then
             raise (Exn Exception (lit "Uploaded file is empty."))
           else
             result <- process_single_document self fs file_path filename ;;
             ret (results ++ [result],
                  if contains (lit "successfully processed") (str_lower L result)
                  then successful_uploads + 1 else successful_uploads))
          (fun e =>
             let error_msg :=
               cross_mark ++ lit " Error processing '" ++ upload_label file
               ++ lit "': " ++ exn_str e in
             ret (results ++ [error_msg], successful_uploads)) ;;
      process_documents_loop self fs rest step.1 step.2
  end.

(** The trailing summary. *)
Definition summary_text (successful_uploads total_files : Z) : str :=
  if 0 <? successful_uploads then
    nl ++ nl ++ chart_mark ++ lit " **Summary**: Successfully processed **"
    ++ str_of_int successful_uploads ++ lit "/" ++ str_of_int total_files
    ++ lit "** files."
    ++ nl ++ nl ++ check_mark
    ++ lit " Your documents are now available in the knowledge base."
  else
    nl ++ nl ++ cross_mark
    ++ lit " **Summary**: No files were successfully processed out of "
    ++ str_of_int total_files ++ lit " files."
    ++ nl ++ nl ++ bulb_mark
    ++ lit " **Tips**: Make sure your files are not corrupted, encrypted, or scanned images.".

(** [ResearchAssistant.process_documents] *)
Definition process_documents (self : ResearchAssistant) (fs : FileSystem)
    (files : list Upload) : M str :=
  match files with
  | [] => ret (lit "No files uploaded.")
  | _ =>
      let total_files := len files in
      looped <- process_documents_loop self fs files [] 0 ;;
      let '(results, successful_uploads) := looped in
      ret (join nl results ++ summary_text successful_uploads total_files)
  end.

(** The context block: the hit texts joined by a blank line; [str.join]
    refuses the first item that is not a string, naming its position. *)
Fixpoint context_strings_from (i : Z) (texts : list pyval) : outcome (list str) :=
  match texts with
  | [] => Ok []
  | VStr t :: rest =>
      match context_strings_from (i + 1) rest with
      | Ok ts => Ok (t :: ts)
      | Raise e => Raise e
      end
  | VInt _ :: _ =>
      Raise (Exn TypeError
               (lit "sequence item " ++ str_of_int i
                ++ lit ": expected str instance, int found"))
  end.

Definition context_strings (texts : list pyval) : outcome (list str) :=
  context_strings_from 0 texts.

(** The first half of [generate_response]: retrieval, the context block
    and the two prompts. *)
Definition build_prompts (self : ResearchAssistant) (query : str) : M (str * str) :=
  search_results <- search_similar (vector_db self) query 5 0%Qc None ;;
  let context_texts := List.map sr_text search_results in
  context <-
    match context_texts with
    | [] => ret (lit "No relevant context found.")
    | _ => parts <- lift (context_strings context_texts) ;;
           ret (join (nl ++ nl) parts)
    end ;;
  let system_prompt :=
    lit "You are an AI research assistant. Use the following context to answer the question."
    ++ nl
    ++ lit "If the context is not sufficient, say so clearly instead of guessing."
    ++ nl ++ lit "Context:" ++ nl ++ context in
  let user_prompt := lit "Question: " ++ query in
  ret (system_prompt, user_prompt).

(** [response.choices[0].message.content.strip()] *)
Definition first_answer (choices : list (option str)) : outcome str :=
  match choices with
  | [] => Raise (Exn IndexError (lit "list index out of range"))
  | None :: _ =>
      Raise (Exn AttributeError (lit "'NoneType' object has no attribute 'strip'"))
  | Some content :: _ => Ok (strip content)
  end.

(** [self.conversation_history.append({"query": query, "answer": answer})] *)
Definition history_append (query answer : str) : M unit :=
  fun s => (Ok tt, push_history {| turn_query := query; turn_answer := answer |} s).

(** The answer returned in place of a failed generation. *)
Definition error_answer (e : exn) : str :=
  cross_mark ++ lit " Error generating response: " ++ exn_str e.

(** [ResearchAssistant.generate_response]; the [history] argument is not
    used by the body. *)
Definition generate_response (self : ResearchAssistant) (query : str)
    (history : option (list (gmap str str))) : M str :=
  try_except
    (prompts <- build_prompts self query ;;
     let '(system_prompt, user_prompt) := prompts in
     choices <- lift (chat_completions_create L (groq_model self) system_prompt user_prompt) ;;
     answer <- lift (first_answer choices) ;;
     history_append query answer ;;;
     ret answer)
    (fun e => ret (error_answer e)).

End Pipeline.

(** ** The vector store: maintenance operations

    The remaining calls of the Qdrant client, modelled like the search
    above after their documented contract. *)

(** [client.get_collection(name).points_count]; a missing collection raises. *)
Definition client_get_collection (client : QdrantClient) (name : str) : outcome Z :=
  match client !! name with
  | Some stored => Ok (len stored)
  | None => collection_not_found name
  end.

(** [client.create_collection(name, ...)] *)
Definition client_create_collection (client : QdrantClient) (name : str)
    : outcome QdrantClient :=
  match client !! name with
  | Some _ =>
      Raise (Exn ValueError (lit "Collection " ++ name ++ lit " already exists"))
  | None => Ok (<[name := []]> client)
  end.

(** [client.delete_collection(name)] *)
Definition client_delete_collection (client : QdrantClient) (name : str)
    : QdrantClient :=
  delete name client.

(** [client.scroll(name, limit=..., with_payload=True)[0]]: the first page,
    at most [limit] points.  Which points make up a page that does not hold
    them all, and in which order a page lists them, is the store's business;
    the model takes them as they are stored, and the properties of the
    statistics below are stated for collections that fit into one page
    wherever the choice matters. *)
Definition client_scroll (client : QdrantClient) (name : str) (limit : nat)
    : outcome (list PointStruct) :=
  match client !! name with
  | Some stored => Ok (take limit stored)
  | None => collection_not_found name
  end.

(** [client.delete(name, points_selector=Filter(must=...))] *)
Definition client_delete (client : QdrantClient) (name : str)
    (must : list (str * pyval)) : outcome QdrantClient :=
  match client !! name with
  | Some stored =>
      Ok (<[name := List.filter (fun p => negb (filter_matches must (p_payload p)))
                      stored]> client)
  | None => collection_not_found name
  end.

(** ** vector_database.py: statistics and maintenance *)

(** One entry of the [documents] dictionary of [get_document_stats]. *)
Record DocumentEntry := {
  d_name : pyval;
  d_chunks : Z;
  d_file_type : pyval;
  d_upload_time : pyval
}.

(** The dictionary [get_document_stats] returns. *)
Record Stats := {
  total_documents : Z;
  total_chunks : Z;
  total_vectors : Z;
  documents : list DocumentEntry
}.

(** [documents[doc_id]["chunks"] += 1] on the dictionary kept in insertion
    order. *)
Fixpoint dict_incr_chunks (doc_id : pyval) (docs : list (pyval * DocumentEntry))
    : list (pyval * DocumentEntry) :=
  match docs with
  | [] => []
  | (k, e) :: rest =>
      if bool_decide (k = doc_id) then
        (k, {| d_name := d_name e; d_chunks := d_chunks e + 1;
               d_file_type := d_file_type e; d_upload_time := d_upload_time e |})
        :: rest
      else (k, e) :: dict_incr_chunks doc_id rest
  end.

(** The loop of [get_document_stats] over the scrolled points. *)
Fixpoint stats_loop (points : list PointStruct)
    (docs : list (pyval * DocumentEntry)) (total_chunks : Z)
    : list (pyval * DocumentEntry) * Z :=
  match points with
  | [] => (docs, total_chunks)
  | point :: rest =>
      let doc_id :=
        default (VStr (lit "unknown")) (p_payload point !! lit "document_id") in
      let doc_name :=
        default (VStr (lit "unknown")) (p_payload point !! lit "document_name") in
      let docs :=
        if bool_decide (doc_id ∈ docs.*1) then docs
        else docs ++
             [(doc_id,
               {| d_name := doc_name; d_chunks := 0;
                  d_file_type :=
                    default (VStr (lit "unknown")) (p_payload point !! lit "file_type");
                  d_upload_time :=
                    default (VStr (lit "unknown")) (p_payload point !! lit "upload_time") |})] in
      stats_loop rest (dict_incr_chunks doc_id docs) (total_chunks + 1)
  end.

Definition empty_stats : Stats :=
  {| total_documents := 0; total_chunks := 0; total_vectors := 0; documents := [] |}.

(** [VectorDatabase.get_document_stats] *)
Definition get_document_stats (self : VectorDatabase) : M Stats :=
  try_except
    (points_count <-
       (fun s => (client_get_collection (client s) (collection_name self), s)) ;;
     scrolled <-
       (fun s => (client_scroll (client s) (collection_name self) 1000, s)) ;;
     let '(docs, total_chunks) := stats_loop scrolled [] 0 in
     ret {| total_documents := len docs;
            total_chunks := total_chunks;
            total_vectors := points_count;
            documents := docs.*2 |})
    (fun e => ret empty_stats).

(** [VectorDatabase.get_database_stats], the alias. *)
Definition get_database_stats (self : VectorDatabase) : M Stats :=
  get_document_stats self.

(** [VectorDatabase.delete_document] *)
Definition delete_document (self : VectorDatabase) (document_id : str) : M bool :=
  try_except
    ((fun s =>
        match client_delete (client s) (collection_name self)
                [(lit "document_id", VStr document_id)] with
        | Ok c => (Ok tt, set_client c s)
        | Raise e => (Raise e, s)
        end) ;;;
     ret true)
    (fun e => ret false).

(** [VectorDatabase._initialize_collection] *)
Definition _initialize_collection (self : VectorDatabase) : M unit :=
  try_except
    ((fun s => (client_get_collection (client s) (collection_name self), s)) ;;;
     ret tt)
    (fun _ s =>
       match client_create_collection (client s) (collection_name self) with
       | Ok c => (Ok tt, set_client c s)
       | Raise e => (Raise e, s)
       end).

(** [VectorDatabase.clear_database] *)
Definition clear_database (self : VectorDatabase) : M bool :=
  try_except
    ((fun s =>
        (Ok tt, set_client (client_delete_collection (client s) (collection_name self)) s)) ;;;
     _initialize_collection self ;;;
     ret true)
    (fun e => ret false).

(** ** document_processor.py: the format queries *)

(** [DocumentProcessor.get_supported_formats] *)
Definition get_supported_formats (self : DocumentProcessor) : list str :=
  supported_formats self.

(** [DocumentProcessor.is_supported_format] *)
Definition is_supported_format (lower : str -> str) (self : DocumentProcessor)
    (filename : str) : bool :=
  if negb (truthy filename) then false
  else bool_decide (lower (path_suffix filename) ∈ supported_formats self).

(** ** research_assistant.py: the delegating methods *)

Definition assistant_get_database_stats (self : ResearchAssistant) : M Stats :=
  get_database_stats (vector_db self).

Definition assistant_clear_database (self : ResearchAssistant) : M bool :=
  clear_database (vector_db self).

Definition assistant_delete_document (self : ResearchAssistant)
    (document_id : str) : M bool :=
  delete_document (vector_db self) document_id.

Definition assistant_get_supported_formats (self : ResearchAssistant) : list str :=
  get_supported_formats (doc_processor self).


(** ** A concrete world for running the code

    Simple stand-ins for the external collaborators, used to evaluate the
    definitions above on concrete inputs. *)

Module Demo.

(** Lower-casing of the Basic Latin and Latin-1 letters. *)
Definition lower (s : str) : str :=
  List.map
    (fun c => if ((65 <=? c) && (c <=? 90)
                  || (192 <=? c) && (c <=? 222) && negb (c =? 215))%N
              then (c + 32)%N else c) s.

(** A UTF-8 codec restricted to ASCII; every other codec refuses. *)
Definition decode (encoding : str) (data : bytes) : outcome str :=
  if bool_decide (encoding = lit "utf-8")
     && forallb (fun b => (Byte.to_N b <? 128)%N) data
  then Ok (List.map Byte.to_N data)
  else Raise (Exn UnicodeDecodeError (lit "invalid start byte")).

(** A PDF reader that sees one page: the bytes after the header. *)
Definition pdf_reader (data : bytes) : outcome (list (outcome str)) :=
  Ok [Ok (latin_1_decode (drop 5 data))].

(** A Word reader that sees one paragraph per line and no table. *)
Definition docx_reader (data : bytes) : outcome DocxDocument :=
  Ok {| paragraphs := splitlines (latin_1_decode data); tables := [] |}.

(** A one-dimensional embedding: the length of the text. *)
Definition embed (t : str) : vector := [Q2Qc (inject_Z (len t))].

(** Full score for equal vectors, none otherwise. *)
Definition similarity (a b : vector) : score :=
  if bool_decide (a = b) then Q2Qc 1 else Q2Qc 0.

(** A completion endpoint that answers with the user prompt. *)
Definition complete (model system user : str) : outcome (list (option str)) :=
  Ok [Some (lit " Echo: " ++ user ++ nl)].

Definition libs : Libs :=
  {| str_lower := lower;
     codec_decode := decode;
     open_error := fun _ => None;
     PyPDF2_PdfReader := pdf_reader;
     pypdf_PdfReader := pdf_reader;
     docx_Document := docx_reader;
     st_embed := embed;
     st_failure := fun _ => None;
     cosine := similarity;
     chat_completions_create := complete;
     uuid4 := fun n => lit "uuid-" ++ str_of_int (Z.of_nat n);
     now_isoformat := fun n => lit "2024-01-01T00:00:" ++ str_of_int (Z.of_nat n) |}.

(** The same world with a Word reader that always sees [doc]. *)
Definition libs_with_docx (doc : DocxDocument) : Libs :=
  {| str_lower := lower;
     codec_decode := decode;
     open_error := fun _ => None;
     PyPDF2_PdfReader := pdf_reader;
     pypdf_PdfReader := pdf_reader;
     docx_Document := fun _ => Ok doc;
     st_embed := embed;
     st_failure := fun _ => None;
     cosine := similarity;
     chat_completions_create := complete;
     uuid4 := uuid4 libs;
     now_isoformat := now_isoformat libs |}.

(** The same world with ids that differ in length, so that no two of
    them are equal. *)
Definition libs_with_ids : Libs :=
  {| str_lower := lower;
     codec_decode := decode;
     open_error := fun _ => None;
     PyPDF2_PdfReader := pdf_reader;
     pypdf_PdfReader := pdf_reader;
     docx_Document := docx_reader;
     st_embed := embed;
     st_failure := fun _ => None;
     cosine := similarity;
     chat_completions_create := complete;
     uuid4 := fun n => replicate (S n) 35%N;
     now_isoformat := now_isoformat libs |}.

(** The same world in which one text file is there but cannot be opened. *)
Definition libs_with_locked_file : Libs :=
  {| str_lower := lower;
     codec_decode := decode;
     open_error :=
       fun path =>
         if bool_decide (path = lit "/tmp/locked.txt")
         then Some (lit "[Errno 13] Permission denied: '/tmp/locked.txt'")
         else None;
     PyPDF2_PdfReader := pdf_reader;
     pypdf_PdfReader := pdf_reader;
     docx_Document := docx_reader;
     st_embed := embed;
     st_failure := fun _ => None;
     cosine := similarity;
     chat_completions_create := complete;
     uuid4 := uuid4 libs;
     now_isoformat := now_isoformat libs |}.

(** The same world with a completion endpoint that answers without any
    choice. *)
Definition libs_without_choices : Libs :=
  {| str_lower := lower;
     codec_decode := decode;
     open_error := fun _ => None;
     PyPDF2_PdfReader := pdf_reader;
     pypdf_PdfReader := pdf_reader;
     docx_Document := docx_reader;
     st_embed := embed;
     st_failure := fun _ => None;
     cosine := similarity;
     chat_completions_create := fun _ _ _ => Ok [];
     uuid4 := uuid4 libs;
     now_isoformat := now_isoformat libs |}.

(** Two paragraphs, one of them blank, and a table with an empty row. *)
Definition sample_doc : DocxDocument :=
  {| paragraphs := [lit "Title"; lit "  "];
     tables := [[[lit " a "; lit ""; lit "b"]; [lit " "; lit ""]; [lit "c"]]] |}.

(** Metadata with one extra entry and two-word chunks. *)
Definition sample_metadata : DocMetadata :=
  {| md_filename := Some (lit "notes.txt"); md_file_type := Some (lit ".txt");
     md_upload_time := None; md_chunk_size := Some 2; md_chunk_overlap := Some 0;
     md_extra_metadata := Some {[ lit "encoding" := VStr (lit "utf-8") ]} |}.

Definition assistant : ResearchAssistant :=
  {| doc_processor := DocumentProcessor_init 50;
     vector_db := {| db_path := lit ":memory:";
                     collection_name := lit "documents";
                     embedding_model_name := lit "all-MiniLM-L6-v2" |};
     groq_model := lit "llama3-8b-8192";
     config_chunk_size := Some 500;
     config_chunk_overlap := Some 50 |}.

(** The state after [__init__]: one empty collection, no history. *)
Definition initial_state : State :=
  {| client := {[ lit "documents" := [] ]};
     conversation_history := [];
     uuid_calls := 0; clock_calls := 0; encode_calls := [] |}.

(** The state after the sample text was added, in two chunks, and the two
    points that are then in the collection. *)
Definition loaded_state : State :=
  (add_document libs_with_ids (vector_db assistant) (lit "a b c") sample_metadata
     initial_state).2.

Definition loaded_points : list PointStruct :=
  [ {| p_id := replicate 2 35%N;
       p_vector := embed (lit "a b");
       p_payload := make_payload (lit "a b") 0 (replicate 1 35%N) sample_metadata
                      (now_isoformat libs 0) 2 |};
    {| p_id := replicate 3 35%N;
       p_vector := embed (lit "c");
       p_payload := make_payload (lit "c") 1 (replicate 1 35%N) sample_metadata
                      (now_isoformat libs 1) 2 |} ].

(** A state without any collection. *)
Definition blank_state : State :=
  {| client := ∅; conversation_history := [];
     uuid_calls := 0; clock_calls := 0; encode_calls := [] |}.

(** Files on disk: a short text, a one-page PDF, an empty file and a file
    that is not the PDF its name promises. *)
Definition files : FileSystem :=
  {[ lit "/tmp/notes.txt" := blit "alpha beta gamma";
     lit "/tmp/paper.pdf" := blit "%PDF-hello world";
     lit "/tmp/empty.txt" := [];
     lit "/tmp/broken.pdf" := blit "hello" ]}.

End Demo.

(** ** The vocabulary of the properties *)

(** Best score first, for formatted results. *)
Definition descending (results : list SearchResult) : Prop :=
  StronglySorted (fun a b => (sr_score b <= sr_score a)%Qc) results.

(** The rendering of a Word document as the specification words it: the
    non-blank paragraphs, one per line, then every table as a marker line
    followed by one line per row that has a non-empty cell. *)
Module DocxSpec.

Definition row_cells (row : list str) : list str :=
  List.filter truthy (List.map strip row).

Definition row_line (row : list str) : str :=
  match row_cells row with
  | [] => []
  | cells => join (lit " | ") cells ++ nl
  end.

Definition table_block (n : Z) (table : list (list str)) : str :=
  nl ++ lit "--- Table " ++ str_of_int n ++ lit " ---" ++ nl
  ++ concat (List.map row_line table).

Definition tables_text (first : Z) (tbls : list (list (list str))) : str :=
  concat (imap (fun i table => table_block (first + Z.of_nat i) table) tbls).

Definition kept_paragraphs (pars : list str) : list str :=
  List.filter (fun p => truthy (strip p)) pars.

Definition paragraphs_text (pars : list str) : str :=
  concat (List.map (fun p => p ++ nl) (kept_paragraphs pars)).

Definition render (doc : DocxDocument) : str :=
  paragraphs_text (paragraphs doc) ++ tables_text 1 (tables doc).

End DocxSpec.

(** The seven keys every payload is built with. *)
Definition payload_keys : list str :=
  [lit "text"; lit "chunk_id"; lit "document_id"; lit "document_name";
   lit "file_type"; lit "upload_time"; lit "chunk_count"].

(** The points the loop of [add_document] builds from the zipped chunks
    and embeddings, given the counters of the uuid source and the clock. *)
Definition new_points (L : Libs) (metadata : DocMetadata) (document_id : str)
    (chunk_count : Z) (items : list (str * vector)) (i : Z) (u c : nat)
    : list PointStruct :=
  imap (fun j item =>
          {| p_id := uuid4 L (u + j);
             p_vector := item.2;
             p_payload :=
               make_payload item.1 (i + Z.of_nat j) document_id metadata
                 (now_isoformat L (c + j)) chunk_count |}) items.

(** A word: non-empty and free of white space. *)
Definition is_word (w : str) : Prop :=
  w <> [] /\ forallb (fun c => negb (isspace c)) w = true.

(** The [k]-th window of [size] words when windows advance by [stride]. *)
Definition window (words : list str) (size stride : nat) (k : nat) : list str :=
  take size (drop (k * stride) words).

(** The chunks' words put together again, the first [overlap] words of
    every chunk but the first left out. *)
Definition reconstruct (overlap : nat) (chunks : list str) : list str :=
  match chunks with
  | [] => []
  | c :: cs => split c ++ flat_map (fun c' => drop overlap (split c')) cs
  end.

(** The two ways of enforcing a valid overlap: the call is refused with an
    exception, or it answers as it would for some valid overlap. *)
Definition rejects (o : outcome (list str)) : Prop := exists e, o = Raise e.

Definition clamps (text : str) (chunk_size : Z) (o : outcome (list str)) : Prop :=
  exists overlap', 0 <= overlap' < chunk_size /\ o = chunk_text text chunk_size overlap'.

(** The text one PDF reader yields, as the page loop is meant to build it:
    every page whose text is not blank, under a marker with its position
    in the document (from 1); pages that raise or are blank leave nothing. *)
Module PdfSpec.

Definition page_block (n : Z) (page : outcome str) : str :=
  match page with
  | Ok page_text =>
      if truthy (strip page_text) then
        nl ++ lit "--- Page " ++ str_of_int n ++ lit " ---" ++ nl ++ page_text ++ nl
      else []
  | Raise _ => []
  end.

Definition pages_text (first : Z) (pages : list (outcome str)) : str :=
  concat (imap (fun i page => page_block (first + Z.of_nat i) page) pages).

Definition render (pages : list (outcome str)) : str := pages_text 1 pages.

(** The pages that contribute a block. *)
Definition readable (page : outcome str) : bool :=
  match page with
  | Ok page_text => truthy (strip page_text)
  | Raise _ => false
  end.

(** The text of a whole attempt with one reader: nothing when the reader
    raises or finds no page. *)
Definition attempt (read : outcome (list (outcome str))) : str :=
  match read with
  | Ok pages => render pages
  | Raise _ => []
  end.

End PdfSpec.

(** The points of a collection carry ids issued by the uuid source, all
    different, and the document ids in their payloads were issued by it
    too. *)
Definition store_ok (L : Libs) (name : str) (s : State) : Prop :=
  forall stored,
    client s !! name = Some stored ->
    NoDup (p_id <$> stored)
    /\ forall p, p ∈ stored ->
         (exists k, (k < uuid_calls s)%nat /\ p_id p = uuid4 L k)
         /\ forall d, p_payload p !! lit "document_id" = Some (VStr d) ->
              exists k, (k < uuid_calls s)%nat /\ d = uuid4 L k.

(** The points of a collection that belong to a document. *)
Definition of_document (document_id : str) (p : PointStruct) : bool :=
  bool_decide (p_payload p !! lit "document_id" = Some (VStr document_id)).

(** The document a point is counted under by [get_document_stats]. *)
Definition stats_key (p : PointStruct) : pyval :=
  default (VStr (lit "unknown")) (p_payload p !! lit "document_id").

(** A search result shows a stored point: its payload fields, with the
    defaults of [search_similar], and its similarity to the query vector. *)
Definition result_of_point (similarity : vector -> vector -> score)
    (query_vector : vector) (p : PointStruct) (r : SearchResult) : Prop :=
  p_payload p !! lit "text" = Some (sr_text r)
  /\ sr_score r = similarity query_vector (p_vector p)
  /\ sr_document_name r
     = default (VStr (lit "unknown")) (p_payload p !! lit "document_name")
  /\ sr_document_id r
     = default (VStr (lit "unknown")) (p_payload p !! lit "document_id")
  /\ sr_chunk_id r = default (VInt 0) (p_payload p !! lit "chunk_id")
  /\ sr_file_type r
     = default (VStr (lit "unknown")) (p_payload p !! lit "file_type")
  /\ sr_upload_time r
     = default (VStr (lit "unknown")) (p_payload p !! lit "upload_time").

(** The points counted under a key, the entry stored under a key in the
    dictionary of [get_document_stats], and the chunks of all entries. *)
Definition points_of_key (k : pyval) (points : list PointStruct) : list PointStruct :=
  List.filter (fun p => bool_decide (stats_key p = k)) points.

Fixpoint dict_get (k : pyval) (docs : list (pyval * DocumentEntry))
    : option DocumentEntry :=
  match docs with
  | [] => None
  | (k', e) :: rest => if bool_decide (k' = k) then Some e else dict_get k rest
  end.

Definition sum_chunks (entries : list DocumentEntry) : Z :=
  foldr (fun e acc => d_chunks e + acc) 0 entries.

(** The entry [get_document_stats] creates for a document at its first
    point. *)
Definition first_entry (p : PointStruct) : DocumentEntry :=
  {| d_name := default (VStr (lit "unknown")) (p_payload p !! lit "document_name");
     d_chunks := 0;
     d_file_type := default (VStr (lit "unknown")) (p_payload p !! lit "file_type");
     d_upload_time := default (VStr (lit "unknown")) (p_payload p !! lit "upload_time") |}.

(** An entry after [n] more of its points were counted, and the first
    point of a key among the points. *)
Definition add_chunks (n : Z) (e : DocumentEntry) : DocumentEntry :=
  {| d_name := d_name e; d_chunks := d_chunks e + n;
     d_file_type := d_file_type e; d_upload_time := d_upload_time e |}.

Definition first_point (k : pyval) (points : list PointStruct) : option PointStruct :=
  List.find (fun p => bool_decide (stats_key p = k)) points.

(** What every chunk looks like: it is not blank, its words are a run of
    consecutive words of the text, and there are at most [chunk_size] of
    them when that size is not negative. *)
Definition chunk_of (words : list str) (chunk_size : Z) (c : str) : Prop :=
  strip c <> []
  /\ (exists before after, words = before ++ split c ++ after)
  /\ (0 <= chunk_size -> len (split c) <= chunk_size).

(** The metadata of a PDF extraction. *)
Definition pdf_metadata (method : str) (pages : Z) : gmap str pyval :=
  <[lit "method" := VStr method]> (<[lit "pages" := VInt pages]> ∅).

(** The metadata of an extraction: it names the method, and none of its
    keys is a payload key of [add_document]. *)
Definition extraction_metadata (metadata : gmap str pyval) : Prop :=
  (exists method,
     metadata !! lit "method" = Some (VStr method)
     /\ method ∈ [lit "PyPDF2"; lit "pypdf"; lit "python-docx"; lit "plain_text"])
  /\ forall k, k ∈ payload_keys -> metadata !! k = None.

(** The metadata [process_single_document] hands to [add_document], and
    the state after its reading of the clock. *)
Definition upload_metadata (self : ResearchAssistant) (filename : str)
    (r : ExtractResult) (now : str) : DocMetadata :=
  {| md_filename := Some filename;
     md_file_type := Some (r_file_type r);
     md_upload_time := Some now;
     md_chunk_size := Some (default 500 (config_chunk_size self));
     md_chunk_overlap := Some (default 50 (config_chunk_overlap self));
     md_extra_metadata := Some (r_metadata r) |}.

Definition tick (s : State) : State :=
  {| client := client s; conversation_history := conversation_history s;
     uuid_calls := uuid_calls s; clock_calls := S (clock_calls s);
     encode_calls := encode_calls s |}.

(** A filter key that is a plain field name: ASCII letters, digits, [_] and
    [-] only, and at least one of them.  The store may read any other key
    (dots, brackets, quotes, the empty key) as a path expression. *)
Definition plain_char (c : N) : bool :=
  ((48 <=? c) && (c <=? 57) || (65 <=? c) && (c <=? 90)
   || (97 <=? c) && (c <=? 122) || (c =? 95) || (c =? 45))%N.

Definition plain_key (key : str) : bool := truthy key && forallb plain_char key.

(** A stored point qualifies for a search when it satisfies every filter
    condition and scores at least the threshold against the query. *)
Definition qualifies (L : Libs) (query : str) (score_threshold : score)
    (filter_conditions : option (gmap str pyval)) (p : PointStruct) : bool :=
  filter_matches (map_to_list (default ∅ filter_conditions)) (p_payload p)
  && bool_decide (score_threshold <= cosine L (st_embed L query) (p_vector p))%Qc.

(** The path an upload names, if it names one, and the status line of an
    upload that is missing or empty. *)
Definition upload_path (file : Upload) : option str :=
  match file with
  | UploadPath path => Some path
  | UploadObject name => Some name
  | UploadOther _ => None
  end.

Definition unreadable_line (fs : FileSystem) (file : Upload) : str :=
  cross_mark ++ lit " Error processing '" ++ upload_label file ++ lit "': "
  ++ match upload_path file ≫= (fun path => fs !! path) with
     | Some _ => lit "Uploaded file is empty."
     | None => lit "Cannot read uploaded file: unsupported type"
     end.

(** Tactics for literals and payload lookups. *)
Ltac lit_neq := vm_compute; discriminate.

Ltac payload_lookup :=
  repeat (rewrite lookup_insert_ne by lit_neq); apply lookup_insert_eq.

Ltac payload_key_free :=
  let k := fresh "k" in let Hk := fresh "Hk" in
  intros k Hk; apply list_elem_of_In in Hk; simpl in Hk;
  repeat (destruct Hk as [<-|Hk];
          [repeat (rewrite lookup_insert_ne by lit_neq); apply lookup_empty|]);
  destruct Hk.

(** * Properties *)

(** ** The string functions and the chunker on examples *)

Example split_demo :
  Py.split (Py.lit "  alpha beta  gamma ") = [Py.lit "alpha"; Py.lit "beta"; Py.lit "gamma"].
Proof. reflexivity. Qed.

Example chunk_demo :
  chunk_text (lit "a b c d e f g") 3 1
  = Ok [lit "a b c"; lit "c d e"; lit "e f g"].
Proof. reflexivity. Qed.

(** ** Stripping *)

Lemma lstrip_nil_iff (s : str) : lstrip s = [] <-> forallb isspace s = true.
Proof.
  induction s as [|c s IH]; simpl; [tauto|].
  destruct (isspace c); simpl; [exact IH|].
  split; discriminate.
Qed.

Lemma lstrip_head (s : str) c s' : lstrip s = c :: s' -> isspace c = false.
Proof.
  induction s as [|d s IH]; simpl; [discriminate|].
  destruct (isspace d) eqn:E; [exact IH|].
  intros [= -> ->]. exact E.
Qed.

Lemma forallb_isspace_reverse (s : str) :
  forallb isspace (reverse s) = forallb isspace s.
Proof.
  induction s as [|c s IH]; [reflexivity|].
  rewrite reverse_cons, forallb_app, IH. simpl. rewrite andb_true_r.
  apply andb_comm.
Qed.

(** A string strips to nothing exactly when it is all white space. *)
Lemma strip_nil_iff (s : str) : strip s = [] <-> forallb isspace s = true.
Proof.
  unfold strip, rstrip. split.
  - intros H. apply (f_equal reverse) in H. rewrite reverse_involutive in H.
    change (reverse []) with (@nil N) in H.
    apply lstrip_nil_iff in H. rewrite forallb_isspace_reverse in H.
    destruct (lstrip s) as [|c t] eqn:E.
    + apply lstrip_nil_iff. exact E.
    + apply lstrip_head in E. simpl in H. rewrite E in H. discriminate.
  - intros H. apply lstrip_nil_iff in H. rewrite H. reflexivity.
Qed.

Lemma truthy_true (s : str) : truthy s = true <-> s <> [].
Proof. destruct s; simpl; split; congruence. Qed.

Lemma truthy_false (s : str) : truthy s = false <-> s = [].
Proof. destruct s; simpl; split; congruence. Qed.

Lemma strip_nil : strip [] = [].
Proof. reflexivity. Qed.

(** ** The result of [extract_text] *)

(** C9: a failed extraction carries no text and an error message; a
    successful one carries text that is non-empty after stripping and no
    error. *)
Theorem extract_text_result_shape (L : Libs) (self : DocumentProcessor)
    (fs : FileSystem) (file_path filename : str) :
  let r := extract_text L self fs file_path filename in
  if r_success r
  then strip (r_text r) <> [] /\ r_error r = None
  else r_text r = [] /\ exists msg, r_error r = Some msg.
Proof.
  unfold extract_text.
  destruct (negb (validate_file_type _ _)); [simpl; eauto|].
  destruct (negb (validate_file_size _ _ _)); [simpl; eauto|].
  set (extracted := if bool_decide _ then _ else _).
  destruct extracted as [[[text metadata]|e]|]; simpl; eauto.
  destruct (truthy text && truthy (strip text)) eqn:E; simpl; eauto.
  apply andb_true_iff in E as [_ E]. apply truthy_true in E. auto.
Qed.

(** ** The encoding fallback of plain-text files *)

Lemma open_read_latin_1 (L : Libs) (file_path : str) (data : bytes) :
  open_error L file_path = None ->
  open_read L (lit "latin-1") file_path data
  = Ok (universal_newlines (latin_1_decode data)).
Proof. intros H. unfold open_read. by rewrite H. Qed.

(** A file that cannot be opened fails under every encoding, and the loop
    gives up at the last one. *)
Lemma open_read_error (L : Libs) (encoding file_path : str) (data : bytes) (msg : str) :
  open_error L file_path = Some msg ->
  open_read L encoding file_path data = Raise (Exn OSError msg).
Proof. intros H. unfold open_read. by rewrite H. Qed.

Lemma txt_metadata_encoding (encoding : str) (lines : pyval) :
  (<[lit "method" := VStr (lit "plain_text")]>
     (<[lit "lines" := lines]>
        (<[lit "encoding" := VStr encoding]> (∅ : gmap str pyval))))
    !! lit "encoding" = Some (VStr encoding).
Proof.
  rewrite lookup_insert_ne by lit_neq.
  rewrite lookup_insert_ne by lit_neq.
  apply lookup_insert_eq.
Qed.

(** C10 (as amended): for a non-empty text file that can be opened, the
    loop over the encodings returns at [latin-1] at the latest, so the
    reported encoding is one of the first three; for one that cannot be
    opened the loop fails under every encoding and gives up at the last
    with "Failed to read text file".  Either way the final "failed to
    decode" exception is never raised. *)
Theorem txt_fallback_stops_by_latin_1 (L : Libs) (fs : FileSystem)
    (file_path : str) (data : bytes) :
  fs !! file_path = Some data ->
  data <> [] ->
  match open_error L file_path with
  | None =>
      exists text metadata encoding,
        _extract_txt_text L fs file_path = Ok (text, metadata)
        /\ metadata !! lit "encoding" = Some (VStr encoding)
        /\ encoding ∈ [lit "utf-8"; lit "utf-16"; lit "latin-1"]
        /\ encoding <> lit "cp1252" /\ encoding <> lit "iso-8859-1"
  | Some msg =>
      _extract_txt_text L fs file_path
      = Raise (Exn Exception (lit "Failed to read text file: " ++ msg))
  end
  /\ _extract_txt_text L fs file_path
     <> Raise (Exn Exception
                 (lit "Failed to decode text file with any supported encoding")).
Proof.
  intros Hfile Hdata. unfold _extract_txt_text. rewrite Hfile.
  assert ((len data =? 0) = false) as ->.
  { apply Z.eqb_neq. unfold len. destruct data; [congruence|simpl; lia]. }
  unfold txt_encodings.
  assert (Hlast : List.last [lit "utf-8"; lit "utf-16"; lit "latin-1"; lit "cp1252"; lit "iso-8859-1"] []
                  = lit "iso-8859-1") by reflexivity.
  rewrite Hlast.
  destruct (open_error L file_path) as [msg|] eqn:Hopen.
  { assert (Hrun : txt_loop L file_path data
                     [lit "utf-8"; lit "utf-16"; lit "latin-1"; lit "cp1252";
                      lit "iso-8859-1"] (lit "iso-8859-1")
                   = Raise (Exn Exception (lit "Failed to read text file: " ++ msg))).
    { cbn [txt_loop]. rewrite !(open_read_error L _ _ _ msg Hopen). cbn [exn_cls exn_str].
      destruct (decide (OSError = UnicodeDecodeError)) as [Hcls|_]; [discriminate|].
      rewrite (bool_decide_eq_false_2 (lit "utf-8" = lit "iso-8859-1")) by lit_neq.
      rewrite (bool_decide_eq_false_2 (lit "utf-16" = lit "iso-8859-1")) by lit_neq.
      rewrite (bool_decide_eq_false_2 (lit "latin-1" = lit "iso-8859-1")) by lit_neq.
      rewrite (bool_decide_eq_false_2 (lit "cp1252" = lit "iso-8859-1")) by lit_neq.
      by rewrite bool_decide_eq_true_2. }
    rewrite Hrun. split; [reflexivity|].
    intros [= H]. }
  assert (Hthird : exists text metadata,
            txt_loop L file_path data [lit "latin-1"; lit "cp1252"; lit "iso-8859-1"]
              (lit "iso-8859-1")
            = Ok (text, metadata)
            /\ metadata !! lit "encoding" = Some (VStr (lit "latin-1"))).
  { cbn [txt_loop]. rewrite open_read_latin_1 by exact Hopen.
    do 2 eexists. split; [reflexivity|]. apply txt_metadata_encoding. }
  assert (Hsecond : exists text metadata encoding,
            txt_loop L file_path data
              [lit "utf-16"; lit "latin-1"; lit "cp1252"; lit "iso-8859-1"]
              (lit "iso-8859-1") = Ok (text, metadata)
            /\ metadata !! lit "encoding" = Some (VStr encoding)
            /\ encoding ∈ [lit "utf-16"; lit "latin-1"]).
  { destruct Hthird as (t & m & Ht & Hm).
    cbn [txt_loop]. destruct (open_read L (lit "utf-16") file_path data) as [text|e].
    - do 3 eexists. split; [reflexivity|]. split; [apply txt_metadata_encoding|].
      apply list_elem_of_here.
    - rewrite (bool_decide_eq_false_2 (lit "utf-16" = lit "iso-8859-1")) by lit_neq.
      exists t, m, (lit "latin-1").
      destruct (decide _); (split; [exact Ht|split; [exact Hm|apply list_elem_of_further, list_elem_of_here]]). }
  destruct Hsecond as (t & m & enc & Ht & Hm & Henc).
  assert (Hfirst : exists text metadata encoding,
            txt_loop L file_path data
              [lit "utf-8"; lit "utf-16"; lit "latin-1"; lit "cp1252"; lit "iso-8859-1"]
              (lit "iso-8859-1") = Ok (text, metadata)
            /\ metadata !! lit "encoding" = Some (VStr encoding)
            /\ encoding ∈ [lit "utf-8"; lit "utf-16"; lit "latin-1"]
            /\ encoding <> lit "cp1252" /\ encoding <> lit "iso-8859-1").
  { cbn [txt_loop]. destruct (open_read L (lit "utf-8") file_path data) as [text|e].
    - do 3 eexists. split; [reflexivity|]. split; [apply txt_metadata_encoding|].
      split; [apply list_elem_of_here|]. split; lit_neq.
    - rewrite (bool_decide_eq_false_2 (lit "utf-8" = lit "iso-8859-1")) by lit_neq.
      exists t, m, enc.
      assert (Hin : enc ∈ [lit "utf-8"; lit "utf-16"; lit "latin-1"]) by (apply list_elem_of_further; exact Henc).
      assert (Hne : enc <> lit "cp1252" /\ enc <> lit "iso-8859-1").
      { apply elem_of_cons in Henc as [->|Henc]; [split; lit_neq|].
        apply elem_of_cons in Henc as [->|Henc]; [split; lit_neq|].
        apply elem_of_nil in Henc. contradiction. }
      destruct (decide _); (split; [exact Ht|split; [exact Hm|split; [exact Hin|exact Hne]]]). }
  split; [exact Hfirst|].
  destruct Hfirst as (text & metadata & encoding & -> & _). discriminate.
Qed.

(** C10, counterexample: a text file that is there and not empty but
    cannot be opened.  Every encoding fails at the open, and the loop ends
    with an exception instead of a text. *)
Theorem txt_file_that_cannot_be_opened :
  let fs : FileSystem := {[ lit "/tmp/locked.txt" := blit "secret" ]} in
  fs !! lit "/tmp/locked.txt" = Some (blit "secret")
  /\ blit "secret" <> []
  /\ _extract_txt_text Demo.libs_with_locked_file fs (lit "/tmp/locked.txt")
     = Raise (Exn Exception
                (lit "Failed to read text file: [Errno 13] Permission denied: '/tmp/locked.txt'")).
Proof. vm_compute. repeat split; reflexivity || discriminate. Qed.

(** ** Similarity search *)

Global Instance by_score_desc_total : Total by_score_desc.
Proof. intros a b. unfold by_score_desc. destruct (total Qcle (sp_score a) (sp_score b)); auto. Qed.

Global Instance by_score_desc_trans : Transitive by_score_desc.
Proof. intros a b c Hab Hbc. unfold by_score_desc in *. by etrans. Qed.

Lemma StronglySorted_take {A} (R : relation A) (n : nat) (l : list A) :
  StronglySorted R l -> StronglySorted R (take n l).
Proof.
  intros H. rewrite <- (take_drop n l) in H.
  apply StronglySorted_app in H. tauto.
Qed.

(** What a search of the store returns: at most [limit] hits, none below
    the threshold, best first. *)
Lemma client_search_contract (similarity : vector -> vector -> score)
    (c : QdrantClient) (name : str) (query_vector : vector) (limit : nat)
    (query_filter : option (list (str * pyval))) (score_threshold : score)
    (hits : list ScoredPoint) :
  client_search similarity c name query_vector limit query_filter score_threshold
    = Ok hits ->
  (length hits <= limit)%nat
  /\ Forall (fun h => (score_threshold <= sp_score h)%Qc) hits
  /\ StronglySorted by_score_desc hits.
Proof.
  unfold client_search. destruct (c !! name) as [stored|]; [|discriminate].
  intros [= <-]. split; [|split].
  - rewrite length_take. lia.
  - apply Forall_take. rewrite merge_sort_Permutation.
    apply List.Forall_forall. intros h Hin.
    apply List.filter_In in Hin as [_ Hin]. by apply bool_decide_eq_true in Hin.
  - apply StronglySorted_take, StronglySorted_merge_sort; apply _.
Qed.

(** Formatting keeps the hits in order, with their scores. *)
Lemma format_results_scores (hits : list ScoredPoint) (acc res : list SearchResult) :
  format_results hits acc = Ok res ->
  sr_score <$> res = (sr_score <$> acc) ++ (sp_score <$> hits).
Proof.
  revert acc. induction hits as [|h hits IH]; intros acc; simpl.
  - intros [= <-]. by rewrite app_nil_r.
  - destruct (payload_item _ _) as [text|e]; [|discriminate].
    intros H. apply IH in H. rewrite H, fmap_app. simpl.
    by rewrite <- app_assoc.
Qed.

Lemma StronglySorted_of_fmap {A B} (f : A -> B) (R : relation B) (l : list A) :
  StronglySorted R (f <$> l) -> StronglySorted (fun x y => R (f x) (f y)) l.
Proof.
  induction l as [|x l IH]; intros H; [constructor|].
  rewrite fmap_cons in H.
  apply StronglySorted_inv in H as [Hl Hx]. constructor; [auto|].
  rewrite Forall_fmap in Hx. exact Hx.
Qed.

(** C1: a blank query returns no result and leaves the state, hence the
    record of embedder calls, untouched; every search returns at most
    [limit] results, none scored below [score_threshold], in descending
    order of score. *)
Theorem search_similar_contract (L : Libs) (self : VectorDatabase) (query : str)
    (limit : nat) (score_threshold : score)
    (filter_conditions : option (gmap str pyval)) (s : State) :
  (strip query = [] ->
   search_similar L self query limit score_threshold filter_conditions s = (Ok [], s))
  /\ exists results s',
       search_similar L self query limit score_threshold filter_conditions s
         = (Ok results, s')
       /\ (length results <= limit)%nat
       /\ Forall (fun r => (score_threshold <= sr_score r)%Qc) results
       /\ descending results.
Proof.
  assert (Hempty : (0 <= limit)%nat /\ Forall (fun r => (score_threshold <= sr_score r)%Qc) []
                   /\ descending []).
  { split; [lia|]. split; constructor. }
  unfold search_similar, try_except. split.
  - intros Hq. rewrite Hq. reflexivity.
  - assert (Hnone : forall s' : State, exists results (s'' : State),
              (Ok ([] : list SearchResult), s') = (Ok results, s'')
              /\ (length results <= limit)%nat
              /\ Forall (fun r => (score_threshold <= sr_score r)%Qc) results
              /\ descending results).
    { intros s'. exists [], s'. split; [reflexivity|exact Hempty]. }
    destruct (negb (truthy (strip query))); [apply Hnone|].
    unfold bind, encode, lift.
    destruct (st_encode L [query]) as [[|v vs]|e]; simpl;
      [apply Hnone| |apply Hnone].
    destruct (client_search _ _ _ _ _ _ _) as [hits|e] eqn:Hsearch;
      [|apply Hnone].
    destruct (format_results hits []) as [res|e] eqn:Hfmt; [|apply Hnone].
    exists res. eexists. split; [reflexivity|].
    apply client_search_contract in Hsearch as (Hlen & Hthr & Hsorted).
    apply format_results_scores in Hfmt. simpl in Hfmt.
    split; [|split].
    + rewrite <- (length_fmap sr_score), Hfmt, length_fmap. exact Hlen.
    + apply (Forall_fmap sr_score (fun x => (score_threshold <= x)%Qc)).
      rewrite Hfmt. rewrite Forall_fmap. exact Hthr.
    + apply StronglySorted_of_fmap with (R := fun x y => (y <= x)%Qc).
      rewrite Hfmt. eapply StronglySorted_fmap; [|exact Hsorted]. auto.
Qed.

(** ** Answer generation and the conversation history *)

(** A search never raises and touches neither the history nor the store. *)
Lemma search_similar_frame (L : Libs) (self : VectorDatabase) (query : str)
    (limit : nat) (score_threshold : score)
    (filter_conditions : option (gmap str pyval)) (s : State) :
  exists results s',
    search_similar L self query limit score_threshold filter_conditions s
      = (Ok results, s')
    /\ conversation_history s' = conversation_history s
    /\ client s' = client s.
Proof.
  unfold search_similar, try_except.
  destruct (negb (truthy (strip query))); [by exists [], s|].
  unfold bind, encode, lift.
  destruct (st_encode L [query]) as [[|v vs]|e]; simpl; [by eexists [], _| |by eexists [], _].
  destruct (client_search _ _ _ _ _ _ _) as [hits|e]; [|by eexists [], _].
  destruct (format_results hits []) as [res|e]; by eexists _, _.
Qed.

Lemma build_prompts_frame (L : Libs) (self : ResearchAssistant) (query : str)
    (s : State) :
  exists o s1,
    build_prompts L self query s = (o, s1)
    /\ conversation_history s1 = conversation_history s
    /\ forall system_prompt user_prompt,
         o = Ok (system_prompt, user_prompt) ->
         user_prompt = lit "Question: " ++ query.
Proof.
  unfold build_prompts.
  destruct (search_similar_frame L (vector_db self) query 5 0%Qc None s)
    as (results & s' & Hs & Hh & _).
  unfold bind, lift, ret. rewrite Hs.
  destruct (List.map sr_text results) as [|t ts].
  - eexists _, _. split; [reflexivity|]. split; [exact Hh|].
    intros ?? H. by injection H as _ <-.
  - destruct (context_strings (t :: ts)) as [parts|e].
    + eexists _, _. split; [reflexivity|]. split; [exact Hh|].
      intros ?? H. by injection H as _ <-.
    + eexists _, _. split; [reflexivity|]. split; [exact Hh|]. discriminate.
Qed.

(** C7 (as amended): [generate_response] never raises.  When building the
    prompts raises, when the completion call raises, when the completion has
    no choice, or when its first choice has no content, the answer is the
    cross mark followed by " Error generating response: " and the text of
    the exception ("list index out of range" for a completion without
    choices, "'NoneType' object has no attribute 'strip'" for a first choice
    without content), and the history is unchanged.  When the completion
    has a first choice with content, exactly the turn (query, answer), with
    answer the stripped content, is appended to the history, and that
    answer is returned. *)
Theorem generate_response_history (L : Libs) (self : ResearchAssistant)
    (query : str) (history : option (list (gmap str str))) (s : State) :
  match build_prompts L self query s with
  | (Raise e, s1) =>
      generate_response L self query history s
      = (Ok (cross_mark ++ lit " Error generating response: " ++ exn_str e), s1)
      /\ conversation_history s1 = conversation_history s
  | (Ok (system_prompt, user_prompt), s1) =>
      user_prompt = lit "Question: " ++ query
      /\ match chat_completions_create L (groq_model self) system_prompt user_prompt with
         | Raise e =>
             generate_response L self query history s
             = (Ok (cross_mark ++ lit " Error generating response: " ++ exn_str e), s1)
             /\ conversation_history s1 = conversation_history s
         | Ok [] =>
             generate_response L self query history s
             = (Ok (cross_mark ++ lit " Error generating response: "
                    ++ lit "list index out of range"), s1)
             /\ conversation_history s1 = conversation_history s
         | Ok (None :: _) =>
             generate_response L self query history s
             = (Ok (cross_mark ++ lit " Error generating response: "
                    ++ lit "'NoneType' object has no attribute 'strip'"), s1)
             /\ conversation_history s1 = conversation_history s
         | Ok (Some content :: _) =>
             exists s2,
               generate_response L self query history s = (Ok (strip content), s2)
               /\ conversation_history s2
                  = conversation_history s
                    ++ [{| turn_query := query; turn_answer := strip content |}]
         end
  end.
Proof.
  destruct (build_prompts_frame L self query s) as (o & s1 & Hb & Hh & Hu).
  unfold generate_response, try_except, bind, lift, history_append, ret, error_answer.
  rewrite Hb.
  destruct o as [[system_prompt user_prompt]|e]; [|split; [reflexivity|exact Hh]].
  split; [by eapply Hu|].
  destruct (chat_completions_create L _ _ _) as [[|[content|] choices]|e];
    try (split; [reflexivity|exact Hh]).
  eexists. split; [reflexivity|]. simpl. by rewrite Hh.
Qed.

(** Counterexample to C7 as stated: the completion call succeeds, returning
    a response without any choice; the answer is the error text and no turn
    is appended to the history. *)
Lemma completion_without_choices_appends_nothing :
  let L := Demo.libs_without_choices in
  let s := Demo.loaded_state in
  (forall model system_prompt user_prompt,
     chat_completions_create L model system_prompt user_prompt = Ok [])
  /\ exists s',
       generate_response L Demo.assistant (lit "what is b") None s
       = (Ok (cross_mark ++ lit " Error generating response: list index out of range"), s')
       /\ conversation_history s' = conversation_history s
       /\ conversation_history s' = [].
Proof.
  split; [reflexivity|]. eexists. split; [vm_compute; reflexivity|].
  split; vm_compute; reflexivity.
Qed.

(** ** Word documents *)

Lemma docx_row_text_spec (cells acc : list str) :
  docx_row_text cells acc = acc ++ DocxSpec.row_cells cells.
Proof.
  revert acc. induction cells as [|c cells IH]; intros acc; simpl.
  - by rewrite app_nil_r.
  - unfold DocxSpec.row_cells in *. simpl. destruct (truthy (strip c)).
    + rewrite IH, <- app_assoc. reflexivity.
    + apply IH.
Qed.

Lemma docx_rows_loop_spec (rows : list (list str)) (text : str) :
  docx_rows_loop rows text = text ++ concat (List.map DocxSpec.row_line rows).
Proof.
  revert text. induction rows as [|row rows IH]; intros text; simpl.
  - by rewrite app_nil_r.
  - rewrite (docx_row_text_spec row []). simpl. unfold DocxSpec.row_line at 1.
    destruct (DocxSpec.row_cells row) as [|c cs].
    + apply IH.
    + rewrite IH, <- !app_assoc. reflexivity.
Qed.

Lemma docx_tables_loop_spec (tbls : list (list (list str))) (n : Z) (text : str) :
  docx_tables_loop tbls n text
  = (text ++ DocxSpec.tables_text (n + 1) tbls, n + len tbls).
Proof.
  revert n text. induction tbls as [|t tbls IH]; intros n text.
  - simpl. unfold len. simpl. rewrite app_nil_r. f_equal. lia.
  - cbn [docx_tables_loop]. rewrite IH, docx_rows_loop_spec. f_equal.
    + unfold DocxSpec.tables_text. rewrite imap_cons. cbn [concat].
      rewrite (imap_ext ((fun i table => DocxSpec.table_block (n + 1 + Z.of_nat i) table) ∘ S)
                 (fun i table => DocxSpec.table_block (n + 1 + 1 + Z.of_nat i) table) tbls).
      * unfold DocxSpec.table_block at 2. rewrite Z.add_0_r, <- !app_assoc.
        reflexivity.
      * intros i x _. simpl. f_equal. lia.
    + unfold len. simpl length. lia.
Qed.

Lemma docx_paragraphs_loop_spec (pars : list str) (text : str) (count : Z) :
  docx_paragraphs_loop pars text count
  = (text ++ DocxSpec.paragraphs_text pars,
     count + len (DocxSpec.kept_paragraphs pars)).
Proof.
  revert text count. induction pars as [|p pars IH]; intros text count.
  - simpl. unfold len. simpl. rewrite app_nil_r. f_equal. lia.
  - cbn [docx_paragraphs_loop]. unfold DocxSpec.paragraphs_text, DocxSpec.kept_paragraphs in *.
    cbn [List.filter]. destruct (truthy (strip p)).
    + rewrite IH. cbn [List.map concat]. rewrite <- !app_assoc. f_equal.
      unfold len. simpl length. lia.
    + apply IH.
Qed.

(** The loops of [_extract_docx_text] build exactly the specified text. *)
Lemma docx_collect_spec (doc : DocxDocument) :
  docx_collect doc
  = (DocxSpec.render doc,
     len (DocxSpec.kept_paragraphs (paragraphs doc)),
     len (tables doc)).
Proof.
  unfold docx_collect, DocxSpec.render.
  rewrite docx_paragraphs_loop_spec, docx_tables_loop_spec. reflexivity.
Qed.

Lemma strip_app_nil_iff (a b : str) :
  strip (a ++ b) = [] <-> strip a = [] /\ strip b = [].
Proof.
  rewrite !strip_nil_iff, forallb_app. apply andb_true_iff.
Qed.

Lemma strip_not_nil_app_l (a b : str) : strip a <> [] -> strip (a ++ b) <> [].
Proof. intros Ha H. apply strip_app_nil_iff in H. tauto. Qed.

Lemma strip_not_nil_app_r (a b : str) : strip b <> [] -> strip (a ++ b) <> [].
Proof. intros Hb H. apply strip_app_nil_iff in H. tauto. Qed.

(** Nothing is collected exactly when the document has no table and no
    paragraph with visible text. *)
Lemma docx_render_blank_iff (doc : DocxDocument) :
  strip (DocxSpec.render doc) = []
  <-> tables doc = [] /\ DocxSpec.kept_paragraphs (paragraphs doc) = [].
Proof.
  unfold DocxSpec.render. rewrite strip_app_nil_iff. split.
  - intros [Hp Ht]. split.
    + destruct (tables doc) as [|t ts]; [reflexivity|]. exfalso. revert Ht.
      unfold DocxSpec.tables_text. rewrite imap_cons. cbn [concat].
      unfold DocxSpec.table_block at 1.
      apply strip_not_nil_app_l, strip_not_nil_app_r, strip_not_nil_app_l.
      intros H. apply strip_nil_iff in H. vm_compute in H. discriminate.
    + unfold DocxSpec.paragraphs_text in Hp.
      destruct (DocxSpec.kept_paragraphs (paragraphs doc)) as [|p ps] eqn:E;
        [reflexivity|].
      exfalso. revert Hp. cbn [List.map concat].
      apply strip_not_nil_app_l, strip_not_nil_app_l.
      assert (Hin : List.In p (DocxSpec.kept_paragraphs (paragraphs doc)))
        by (rewrite E; left; reflexivity).
      apply List.filter_In in Hin as [_ Hin]. by apply truthy_true.
  - intros [Ht Hp]. unfold DocxSpec.paragraphs_text. rewrite Ht, Hp.
    split; reflexivity.
Qed.

(** C8: for a Word file that exists, is not empty and parses, the text
    collected by [_extract_docx_text] is the specified rendering (table
    markers, one line per row with a non-empty cell, cells joined by
    [" | "]); the extraction raises exactly when that text is blank and
    otherwise returns it stripped. *)
Theorem docx_extraction (L : Libs) (fs : FileSystem) (file_path : str)
    (data : bytes) (doc : DocxDocument) :
  fs !! file_path = Some data ->
  data <> [] ->
  docx_Document L data = Ok doc ->
  let text := DocxSpec.render doc in
  let metadata : gmap str pyval :=
    <[lit "method" := VStr (lit "python-docx")]>
      (<[lit "tables" := VInt (len (tables doc))]>
         (<[lit "paragraphs" :=
              VInt (len (DocxSpec.kept_paragraphs (paragraphs doc)))]> ∅)) in
  (docx_collect doc).1.1 = text
  /\ (strip text = [] ->
      _extract_docx_text L fs file_path
      = Raise (Exn Exception (lit "No text found in DOCX document")))
  /\ (strip text <> [] ->
      _extract_docx_text L fs file_path = Ok (strip text, metadata)).
Proof.
  intros Hfile Hdata Hdoc text metadata.
  split; [by rewrite docx_collect_spec|].
  unfold _extract_docx_text. rewrite Hfile.
  assert ((len data =? 0) = false) as ->.
  { apply Z.eqb_neq. unfold len. destruct data; [congruence|simpl; lia]. }
  rewrite Hdoc, docx_collect_spec. fold text.
  split; intros Htext.
  - rewrite Htext. reflexivity.
  - apply truthy_true in Htext. rewrite Htext. reflexivity.
Qed.

(** ** Adding a document *)

Lemma points_loop_spec (L : Libs) (metadata : DocMetadata) (document_id : str)
    (chunk_count : Z) (items : list (str * vector)) (i : Z)
    (points : list PointStruct) (s : State) :
  points_loop L metadata document_id chunk_count items i points s
  = (Ok (points ++ new_points L metadata document_id chunk_count items i
                     (uuid_calls s) (clock_calls s)),
     {| client := client s; conversation_history := conversation_history s;
        uuid_calls := uuid_calls s + length items;
        clock_calls := clock_calls s + length items;
        encode_calls := encode_calls s |}).
Proof.
  revert i points s. induction items as [|[chunk embedding] items IH];
    intros i points s.
  - simpl. unfold ret. rewrite app_nil_r, !Nat.add_0_r. by destruct s.
  - cbn [points_loop]. unfold bind, uuid_uuid4, datetime_now_isoformat.
    rewrite IH. cbn [client conversation_history uuid_calls clock_calls encode_calls].
    unfold new_points. rewrite imap_cons. cbn [fst snd length].
    rewrite <- app_assoc, !Nat.add_0_r, Z.add_0_r. f_equal.
    + f_equal. f_equal. simpl. f_equal. apply imap_ext. intros j item _. simpl.
      rewrite !Nat.add_succ_r. f_equal. f_equal. lia.
    + f_equal; lia.
Qed.

Lemma make_payload_extra (chunk : str) (i : Z) (document_id : str)
    (metadata : DocMetadata) (now : str) (chunk_count : Z) :
  default ∅ (md_extra_metadata metadata)
  ⊆ make_payload chunk i document_id metadata now chunk_count.
Proof. unfold make_payload. apply map_union_subseteq_l. Qed.

(** Without a clash of keys, the seven fixed entries are in the payload. *)
Lemma make_payload_fixed (chunk : str) (i : Z) (document_id : str)
    (metadata : DocMetadata) (now : str) (chunk_count : Z) :
  (forall k, k ∈ payload_keys -> default ∅ (md_extra_metadata metadata) !! k = None) ->
  let payload := make_payload chunk i document_id metadata now chunk_count in
  payload !! lit "text" = Some (VStr chunk)
  /\ payload !! lit "chunk_id" = Some (VInt i)
  /\ payload !! lit "document_id" = Some (VStr document_id)
  /\ payload !! lit "document_name"
     = Some (VStr (default (lit "unknown") (md_filename metadata)))
  /\ payload !! lit "file_type"
     = Some (VStr (default (lit "unknown") (md_file_type metadata)))
  /\ payload !! lit "upload_time"
     = Some (VStr (default now (md_upload_time metadata)))
  /\ payload !! lit "chunk_count" = Some (VInt chunk_count).
Proof.
  intros Hfree. unfold make_payload.
  repeat split;
    (rewrite lookup_union_r;
     [payload_lookup | apply Hfree, list_elem_of_In; simpl; auto 10]).
Qed.

(** Upserting points whose ids are new and pairwise different appends
    them to the collection: nothing stored is replaced. *)
Lemma upsert_point_fresh (p : PointStruct) (stored : list PointStruct) :
  p_id p ∉ p_id <$> stored -> upsert_point p stored = stored ++ [p].
Proof.
  induction stored as [|q stored IH]; intros Hfresh; [reflexivity|].
  rewrite fmap_cons in Hfresh. apply not_elem_of_cons in Hfresh as [Hne Hfresh].
  simpl. rewrite bool_decide_eq_false_2 by congruence. by rewrite IH.
Qed.

Lemma foldl_upsert_fresh (points stored : list PointStruct) :
  NoDup (p_id <$> points) ->
  (forall p, p ∈ points -> p_id p ∉ p_id <$> stored) ->
  foldl (fun acc p => upsert_point p acc) stored points = stored ++ points.
Proof.
  revert stored. induction points as [|p points IH]; intros stored Hnodup Hfresh.
  - by rewrite app_nil_r.
  - rewrite fmap_cons in Hnodup.
    inversion Hnodup as [|? ? Hp Hnodup']; subst.
    cbn [foldl]. rewrite upsert_point_fresh by (apply Hfresh; left).
    rewrite IH; [by rewrite <- app_assoc|exact Hnodup'|].
    intros q Hq. rewrite fmap_app, elem_of_app. intros [Hin|Hin].
    + by apply (Hfresh q); [right|].
    + apply list_elem_of_singleton in Hin. apply Hp. rewrite <- Hin.
      by apply list_elem_of_fmap_2.
Qed.

(** C5 (as amended): when [add_document] succeeds and no key of the extra
    metadata is one of the seven payload keys, then one point per chunk is
    upserted into the collection, the i-th point carrying the embedding of
    the i-th chunk and, in its payload, the chunk's text, the ordinal i,
    the document id and name, the file type, the upload time, the number
    of chunks and every entry of the extra metadata; the ordinals are
    therefore 0 .. chunk_count - 1. *)
Theorem add_document_records (L : Libs) (self : VectorDatabase) (text : str)
    (metadata : DocMetadata) (s s' : State) (r : AddResult) :
  add_document L self text metadata s = (Ok r, s') ->
  a_success r = true ->
  (forall k, k ∈ payload_keys -> default ∅ (md_extra_metadata metadata) !! k = None) ->
  exists chunks document_id stored points,
    chunk_text text (default 500 (md_chunk_size metadata))
      (default 50 (md_chunk_overlap metadata)) = Ok chunks
    /\ a_chunks_added r = len chunks
    /\ a_document_id r = Some document_id
    /\ client s !! collection_name self = Some stored
    /\ client s'
       = <[collection_name self :=
             foldl (fun acc p => upsert_point p acc) stored points]> (client s)
    /\ length points = length chunks
    /\ forall (i : nat) (chunk : str),
         chunks !! i = Some chunk ->
         exists p upload_time,
           points !! i = Some p
           /\ p_vector p = st_embed L chunk
           /\ p_payload p !! lit "text" = Some (VStr chunk)
           /\ p_payload p !! lit "chunk_id" = Some (VInt (Z.of_nat i))
           /\ p_payload p !! lit "document_id" = Some (VStr document_id)
           /\ p_payload p !! lit "document_name"
              = Some (VStr (default (lit "unknown") (md_filename metadata)))
           /\ p_payload p !! lit "file_type"
              = Some (VStr (default (lit "unknown") (md_file_type metadata)))
           /\ p_payload p !! lit "upload_time" = Some (VStr upload_time)
           /\ (forall t, md_upload_time metadata = Some t -> upload_time = t)
           /\ p_payload p !! lit "chunk_count" = Some (VInt (len chunks))
           /\ default ∅ (md_extra_metadata metadata) ⊆ p_payload p.
Proof.
  intros Hrun Hsucc Hfree.
  unfold add_document, try_except, bind, lift, ret, encode, uuid_uuid4, upsert in Hrun.
  destruct (negb (truthy (strip text))).
  { injection Hrun as <- _. discriminate. }
  destruct (chunk_text text _ _) as [chunks|e] eqn:Hchunks.
  2:{ injection Hrun as <- _. discriminate. }
  destruct chunks as [|c0 chunks0] eqn:Hcs.
  { injection Hrun as <- _. discriminate. }
  rewrite <- Hcs in *. clear c0 chunks0 Hcs.
  destruct (st_encode L chunks) as [vectors|e] eqn:Hvec.
  2:{ injection Hrun as <- _. discriminate. }
  rewrite points_loop_spec in Hrun.
  cbn [client conversation_history uuid_calls clock_calls encode_calls] in Hrun.
  unfold client_upsert in Hrun.
  destruct (client s !! collection_name self) as [stored|] eqn:Hstored.
  2:{ injection Hrun as <- _. discriminate. }
  injection Hrun as <- <-.
  unfold st_encode in Hvec.
  destruct (st_failure L chunks); [discriminate|]. injection Hvec as <-.
  eexists chunks, _, stored, _.
  split; [reflexivity|]. split; [reflexivity|]. split; [reflexivity|].
  split; [reflexivity|]. split; [reflexivity|].
  split.
  { cbn [app]. unfold new_points.
    rewrite length_imap, length_zip, length_map. lia. }
  intros i chunk Hi.
  cbn [app]. unfold new_points.
  eexists _, _. split.
  { rewrite list_lookup_imap.
    assert (zip chunks (List.map (st_embed L) chunks) !! i
            = Some (chunk, st_embed L chunk)) as ->.
    { apply lookup_zip_with_Some. exists chunk, (st_embed L chunk).
      split; [reflexivity|]. split; [exact Hi|].
      change (List.map (st_embed L) chunks) with (st_embed L <$> chunks).
      by rewrite list_lookup_fmap, Hi. }
    reflexivity. }
  split; [reflexivity|].
  cbn [p_payload fst snd].
  pose proof (make_payload_fixed chunk (0 + Z.of_nat i)
                (uuid4 L (uuid_calls s)) metadata
                (now_isoformat L (clock_calls s + i)) (len chunks) Hfree)
    as (H1 & H2 & H3 & H4 & H5 & H6 & H7).
  rewrite Z.add_0_l in *.
  repeat (split; [eassumption|]).
  split; [|split; [assumption|apply make_payload_extra]].
  intros t Ht. rewrite Ht. reflexivity.
Qed.

(** Counterexample to C5 as stated: a key of the extra metadata that equals
    a payload key replaces the fixed entry, here the chunk ordinal of both
    chunks of a successfully added document. *)
Lemma add_document_extra_overrides_ordinal :
  let metadata :=
    {| md_filename := Some (lit "notes.txt"); md_file_type := Some (lit ".txt");
       md_upload_time := None; md_chunk_size := Some 2; md_chunk_overlap := Some 0;
       md_extra_metadata := Some {[ lit "chunk_id" := VInt 7 ]} |} in
  let run :=
    add_document Demo.libs (vector_db Demo.assistant) (lit "a b c") metadata
      Demo.initial_state in
  (match run.1 with
   | Ok r => a_success r && (a_chunks_added r =? 2)
   | Raise _ => false
   end) = true
  /\ (fun p => p_payload p !! lit "chunk_id")
       <$> default [] (client run.2 !! lit "documents")
     = [Some (VInt 7); Some (VInt 7)]
  /\ (fun p => p_payload p !! lit "text")
       <$> default [] (client run.2 !! lit "documents")
     = [Some (VStr (lit "a b")); Some (VStr (lit "c"))].
Proof. vm_compute. repeat split; reflexivity. Qed.

(** ** Batches of uploads *)

(** A handler that returns a value turns every outcome into a result. *)
Lemma try_except_total {A} (body : M A) (h : exn -> A) (s : State) :
  exists a s', try_except body (fun e => ret (h e)) s = (Ok a, s').
Proof.
  unfold try_except, ret. destruct (body s) as [[a|e] s']; eauto.
Qed.

Lemma process_single_document_total (L : Libs) (self : ResearchAssistant)
    (fs : FileSystem) (file_path filename : str) (s : State) :
  exists line s', process_single_document L self fs file_path filename s = (Ok line, s').
Proof. apply try_except_total. Qed.

(** One file's failure never stops the loop: every file adds exactly one
    status line, and the counter grows by at most one per file. *)
Lemma process_documents_loop_lines (L : Libs) (self : ResearchAssistant)
    (fs : FileSystem) (files : list Upload) (results : list str)
    (successful_uploads : Z) (s : State) :
  exists lines count s',
    process_documents_loop L self fs files results successful_uploads s
      = (Ok (results ++ lines, count), s')
    /\ length lines = length files
    /\ successful_uploads <= count <= successful_uploads + len files.
Proof.
  revert results successful_uploads s.
  induction files as [|file files IH]; intros results n s.
  - exists [], n, s. rewrite app_nil_r. unfold len. simpl. repeat split; lia.
  - cbn [process_documents_loop]. unfold bind at 1.
    assert (Hstep : exists line n' s1,
              try_except
                (located <- lift (resolve_upload fs file) ;;
                 let '(file_path, filename) := located in
                 file_size <- lift (os_path_getsize fs file_path) ;;
                 if file_size =? 0 then
                   raise (Exn Exception (lit "Uploaded file is empty."))
                 else
                   result <- process_single_document L self fs file_path filename ;;
                   ret (results ++ [result],
                        if contains (lit "successfully processed") (str_lower L result)
                        then n + 1 else n))
                (fun e =>
                   ret (results ++ [cross_mark ++ lit " Error processing '"
                                    ++ upload_label file ++ lit "': " ++ exn_str e], n)) s
              = (Ok (results ++ [line], n'), s1) /\ n <= n' <= n + 1).
    { unfold try_except, bind, lift, raise, ret.
      destruct (resolve_upload fs file) as [[file_path filename]|e];
        [|eexists _, _, _; split; [reflexivity|lia]].
      destruct (os_path_getsize fs file_path) as [file_size|e];
        [|eexists _, _, _; split; [reflexivity|lia]].
      destruct (file_size =? 0); [eexists _, _, _; split; [reflexivity|lia]|].
      destruct (process_single_document_total L self fs file_path filename s)
        as (line & s1 & ->).
      eexists _, _, _; split; [reflexivity|].
      destruct (contains _ _); lia. }
    destruct Hstep as (line & n' & s1 & -> & Hn).
    cbn [fst snd].
    destruct (IH (results ++ [line]) n' s1) as (lines & count & s' & -> & Hlen & Hcount).
    exists (line :: lines), count, s'. rewrite <- app_assoc.
    split; [reflexivity|]. split; [simpl; lia|].
    unfold len in *. simpl length. lia.
Qed.

(** The scenario of the specification: three uploads, the second a PDF
    with a wrong header. *)
Example batch_with_corrupted_pdf :
  let fs : FileSystem :=
    {[ lit "/tmp/a.txt" := blit "alpha beta";
       lit "/tmp/b.pdf" := blit "hello";
       lit "/tmp/c.txt" := blit "gamma" ]} in
  (process_documents Demo.libs Demo.assistant fs
     [UploadPath (lit "/tmp/a.txt"); UploadPath (lit "/tmp/b.pdf");
      UploadPath (lit "/tmp/c.txt")] Demo.initial_state).1
  = Ok (join nl
          [check_mark ++ lit " Successfully processed 'a.txt': 1 chunks added (10 characters)";
           cross_mark ++ lit " Failed to process 'b.pdf': File is not a valid PDF (missing PDF header)";
           check_mark ++ lit " Successfully processed 'c.txt': 1 chunks added (5 characters)"]
        ++ summary_text 2 3).
Proof. vm_compute. reflexivity. Qed.

(** C6, failing input: a single upload named [successfully processed.pdf]
    whose bytes are not a PDF.  The file fails with the header error and
    nothing is stored, yet its status line contains the words the counter
    looks for, so the summary reports 1/1 files processed. *)
Theorem process_documents_counts_failed_file :
  let fs : FileSystem := {[ lit "/tmp/successfully processed.pdf" := blit "hello" ]} in
  let run :=
    process_documents Demo.libs Demo.assistant fs
      [UploadPath (lit "/tmp/successfully processed.pdf")] Demo.initial_state in
  run.1
  = Ok (cross_mark
        ++ lit " Failed to process 'successfully processed.pdf': File is not a valid PDF (missing PDF header)"
        ++ summary_text 1 1)
  /\ r_success (extract_text Demo.libs (doc_processor Demo.assistant) fs
                  (lit "/tmp/successfully processed.pdf")
                  (lit "successfully processed.pdf")) = false
  /\ client run.2 !! lit "documents" = Some [].
Proof. vm_compute. repeat split; reflexivity. Qed.

(** ** Zero-byte text files *)

(** The plain-text path itself accepts a zero-byte file. *)
Lemma extract_txt_zero_bytes (L : Libs) (fs : FileSystem) (file_path : str) :
  fs !! file_path = Some [] ->
  exists metadata, _extract_txt_text L fs file_path = Ok ([], metadata).
Proof. intros H. unfold _extract_txt_text. rewrite H. simpl. eauto. Qed.

(** [extract_text] then rejects the empty text, as it rejects any blank text. *)
Lemma extract_text_txt_zero_bytes (L : Libs) (self : DocumentProcessor)
    (fs : FileSystem) (file_path filename : str) :
  str_lower L (path_suffix filename) = lit ".txt" ->
  fs !! file_path = Some [] ->
  0 <= max_file_size_mb self ->
  let r := extract_text L self fs file_path filename in
  r_success r = false
  /\ r_error r = Some (lit "No text could be extracted from the document. The file might be scanned, empty, or corrupted.").
Proof.
  intros Htype Hfile Hmax. unfold extract_text.
  unfold validate_file_type, validate_file_size, os_path_getsize.
  rewrite Htype, Hfile. cbn [r_file_type].
  assert (bool_decide (lit ".txt" ∈ (get_supported_file_types).*1) = true) as ->
    by (vm_compute; reflexivity).
  assert ((len ([] : bytes) <=? max_file_size_mb self * 1024 * 1024) = true) as ->.
  { apply Z.leb_le. unfold len. simpl. lia. }
  cbn [negb].
  rewrite (bool_decide_eq_false_2 (lit ".txt" = lit ".pdf")) by lit_neq.
  rewrite (bool_decide_eq_false_2 (lit ".txt" = lit ".docx")) by lit_neq.
  rewrite (bool_decide_eq_true_2 (lit ".txt" = lit ".txt")) by reflexivity.
  unfold _extract_txt_text. rewrite Hfile. simpl. split; reflexivity.
Qed.

(** C4, failing input: a zero-byte [.txt] file.  [_extract_txt_text]
    returns the empty text, and [extract_text] reports failure. *)
Theorem extract_text_zero_byte_txt :
  let fs : FileSystem := {[ lit "/tmp/empty.txt" := [] ]} in
  (exists metadata,
     _extract_txt_text Demo.libs fs (lit "/tmp/empty.txt") = Ok ([], metadata))
  /\ let r := extract_text Demo.libs (DocumentProcessor_init 50) fs
                (lit "/tmp/empty.txt") (lit "empty.txt") in
     r_success r = false
     /\ r_text r = []
     /\ r_error r = Some (lit "No text could be extracted from the document. The file might be scanned, empty, or corrupted.").
Proof.
  split.
  - apply extract_txt_zero_bytes. reflexivity.
  - vm_compute. repeat split; reflexivity.
Qed.

(** ** Words *)

Lemma split_from_word (w cur s : str) :
  forallb (fun c => negb (isspace c)) w = true ->
  split_from cur (w ++ s) = split_from (cur ++ w) s.
Proof.
  revert cur. induction w as [|c w IH]; intros cur Hw; simpl.
  - by rewrite app_nil_r.
  - simpl in Hw. apply andb_true_iff in Hw as [Hc Hw].
    apply negb_true_iff in Hc. rewrite Hc, IH by assumption.
    by rewrite <- app_assoc.
Qed.

Lemma split_from_not_nil (cur s : str) : cur <> [] -> split_from cur s <> [].
Proof.
  revert cur. induction s as [|c s IH]; intros cur Hcur; simpl.
  - by destruct cur.
  - destruct (isspace c).
    + by destruct cur.
    + apply IH. by destruct cur.
Qed.

(** No word exactly when the string is blank. *)
Lemma split_nil_iff (s : str) : split s = [] <-> strip s = [].
Proof.
  rewrite strip_nil_iff. unfold split.
  induction s as [|c s IH]; simpl; [tauto|].
  destruct (isspace c); simpl; [exact IH|].
  split; [|discriminate]. intros H. by apply split_from_not_nil in H.
Qed.

Lemma split_from_words (cur s : str) :
  forallb (fun c => negb (isspace c)) cur = true ->
  Forall is_word (split_from cur s).
Proof.
  revert cur. induction s as [|c s IH]; intros cur Hcur; simpl.
  - destruct cur; [constructor|]. by repeat constructor.
  - destruct (isspace c) eqn:Hc.
    + destruct cur; [by apply IH|]. constructor; [by split|by apply IH].
    + apply IH. rewrite forallb_app, Hcur. simpl. by rewrite Hc.
Qed.

(** [split] yields words. *)
Lemma split_words (s : str) : Forall is_word (split s).
Proof. by apply split_from_words. Qed.

(** Splitting the words joined by single spaces gives the words back. *)
Lemma split_join (ws : list str) :
  Forall is_word ws -> split (join (lit " ") ws) = ws.
Proof.
  unfold split. induction 1 as [|w ws [Hne Hw] Hws IH]; [reflexivity|].
  cbn [join]. destruct ws as [|w' ws].
  - rewrite <- (app_nil_r w) at 1. rewrite split_from_word by assumption.
    simpl. destruct w; [congruence|reflexivity].
  - rewrite split_from_word by assumption. change (lit " ") with [32%N].
    cbn [app split_from]. change (isspace 32) with true. cbn iota.
    change (lit " ") with [32%N] in IH.
    rewrite IH. destruct w; [congruence|reflexivity].
Qed.

Lemma rstrip_snoc (s : str) (c : N) : isspace c = false -> rstrip (s ++ [c]) = s ++ [c].
Proof.
  intros Hc. unfold rstrip. rewrite reverse_app. simpl.
  change (reverse [c]) with [c]. simpl. rewrite Hc.
  change (c :: reverse s) with ([c] ++ reverse s).
  rewrite reverse_app, reverse_involutive. reflexivity.
Qed.

(** Joined words start and end with a character that is not a space. *)
Lemma join_words_ends (ws : list str) :
  Forall is_word ws -> ws <> [] ->
  (exists c t, join (lit " ") ws = c :: t /\ isspace c = false)
  /\ (exists t c, join (lit " ") ws = t ++ [c] /\ isspace c = false).
Proof.
  induction 1 as [|w ws [Hne Hw] Hws IH]; [congruence|]. intros _.
  cbn [join]. destruct ws as [|w' ws].
  - split.
    + destruct w as [|c t]; [congruence|]. exists c, t. split; [reflexivity|].
      simpl in Hw. apply andb_true_iff in Hw as [Hc _]. by apply negb_true_iff.
    + destruct (exists_last Hne) as (t & c & ->). exists t, c. split; [reflexivity|].
      rewrite forallb_app in Hw. apply andb_true_iff in Hw as [_ Hc].
      simpl in Hc. rewrite andb_true_r in Hc. by apply negb_true_iff.
  - destruct IH as [_ (t & c & Ht & Hc)]; [discriminate|]. split.
    + destruct w as [|d u]; [congruence|]. eexists d, _. split; [reflexivity|].
      simpl in Hw. apply andb_true_iff in Hw as [Hd _]. by apply negb_true_iff.
    + exists (w ++ lit " " ++ t), c. rewrite Ht, <- !app_assoc. by split.
Qed.

(** Joined words are already stripped, and not blank. *)
Lemma strip_join_words (ws : list str) :
  Forall is_word ws -> ws <> [] ->
  strip (join (lit " ") ws) = join (lit " ") ws /\ join (lit " ") ws <> [].
Proof.
  intros Hws Hne. destruct (join_words_ends ws Hws Hne) as [(c & t & Hc & Hsc) (u & d & Hd & Hsd)].
  split; [|by rewrite Hc].
  unfold strip. rewrite Hc. simpl. rewrite Hsc. rewrite <- Hc, Hd.
  by apply rstrip_snoc.
Qed.

(** ** Chunking *)

(** A slice that starts inside or past the list, given by start and size. *)
Lemma slice_window {A} (l : list A) (lo size : Z) :
  0 <= lo -> 0 <= size ->
  slice l lo (lo + size) = take (Z.to_nat size) (drop (Z.to_nat lo) l).
Proof.
  intros Hlo Hsize. unfold slice, clamp_index, len.
  destruct (Z.ltb_spec lo 0); [lia|].
  destruct (Z.ltb_spec (lo + size) 0); [lia|].
  destruct (Z_lt_le_dec lo (Z.of_nat (length l))) as [Hin|Hout].
  - rewrite (Z.min_l lo) by lia.
    destruct (Z_le_gt_dec (lo + size) (Z.of_nat (length l))).
    + rewrite Z.min_l by lia. do 2 f_equal. lia.
    + rewrite Z.min_r by lia.
      rewrite !take_ge; [reflexivity| |]; rewrite length_drop; lia.
  - rewrite !Z.min_r by lia. rewrite Z.sub_diag. simpl.
    rewrite !drop_ge by lia. by rewrite !take_nil.
Qed.

Lemma window_words (words : list str) (size stride k : nat) :
  Forall is_word words -> Forall is_word (window words size stride k).
Proof. intros H. by apply Forall_take, Forall_drop. Qed.

Lemma window_not_nil (words : list str) (size stride k : nat) :
  (1 <= size)%nat -> (k * stride < length words)%nat ->
  window words size stride k <> [].
Proof.
  intros Hsize Hk H. apply (f_equal length) in H.
  unfold window in H. rewrite length_take, length_drop in H. simpl in H. lia.
Qed.

(** The loop over the indices [a * stride, (a + 1) * stride, ...]: it adds
    one chunk per window and stops at the first window that reaches the
    last word. *)
Lemma chunk_loop_windows (words : list str) (size stride : nat) :
  (1 <= stride <= size)%nat ->
  Forall is_word words ->
  forall (m a : nat) (acc : list str),
    (a * stride < length words)%nat ->
    (length words <= (a + m) * stride)%nat ->
    exists m' : nat,
      (1 <= m')%nat
      /\ chunk_loop words (Z.of_nat size)
           (List.map (fun k => Z.of_nat (k * stride)) (seq a m)) acc
         = acc ++ List.map (fun k => join (lit " ") (window words size stride k))
                    (seq a m')
      /\ (length words <= (a + m' - 1) * stride + size)%nat
      /\ (forall k, (a <= k < a + m' - 1)%nat -> (k * stride + size < length words)%nat).
Proof.
  intros Hst Hwords. induction m as [|m IH]; intros a acc Ha Hcover.
  - rewrite Nat.add_0_r in Hcover. lia.
  - cbn [seq List.map chunk_loop].
    rewrite slice_window by lia. rewrite !Nat2Z.id. fold (window words size stride a).
    destruct (strip_join_words (window words size stride a)) as [Hstrip Hne].
    { by apply window_words. }
    { apply window_not_nil; lia. }
    rewrite Hstrip. apply truthy_true in Hne. rewrite Hne.
    unfold len. destruct (Z.leb_spec (Z.of_nat (length words))
                            (Z.of_nat (a * stride) + Z.of_nat size)) as [Hend|Hmore].
    + exists 1%nat. split; [lia|]. split; [reflexivity|]. split; [lia|]. lia.
    + destruct (IH (S a) (acc ++ [join (lit " ") (window words size stride a)]))
        as (m' & Hm' & Hloop & Hlast & Hbefore); [simpl; lia|lia|].
      exists (S m'). split; [lia|]. split; [|split].
      * rewrite Hloop. cbn [seq List.map]. by rewrite <- app_assoc.
      * replace (a + S m' - 1)%nat with (S a + m' - 1)%nat by lia. exact Hlast.
      * intros k Hk. destruct (decide (k = a)) as [->|Hka]; [lia|].
        apply Hbefore. lia.
Qed.

(** Putting the windows together again gives the words back. *)
Lemma reconstruct_windows (words : list str) (size stride overlap m : nat) :
  Forall is_word words ->
  size = (stride + overlap)%nat ->
  (1 <= m)%nat ->
  (length words <= (m - 1) * stride + size)%nat ->
  reconstruct overlap
    (List.map (fun k => join (lit " ") (window words size stride k)) (seq 0 m))
  = words.
Proof.
  intros Hwords Hsize Hm Hlast.
  destruct m as [|m]; [lia|]. cbn [seq List.map reconstruct].
  rewrite split_join by by apply window_words.
  replace (S m - 1)%nat with m in Hlast by lia.
  assert (Hprefix : forall j,
    window words size stride 0
    ++ flat_map (fun c' => drop overlap (split c'))
         (List.map (fun k => join (lit " ") (window words size stride k)) (seq 1 j))
    = take (j * stride + size) words).
  { induction j as [|j IHj].
    - cbn [seq List.map flat_map]. rewrite app_nil_r. unfold window.
      rewrite !Nat.mul_0_l, drop_0. reflexivity.
    - rewrite seq_S, List.map_app, flat_map_app, app_assoc, IHj.
      cbn [List.map flat_map]. rewrite app_nil_r.
      rewrite split_join by by apply window_words.
      unfold window. rewrite skipn_firstn_comm, drop_drop.
      replace (size - overlap)%nat with stride by lia.
      replace ((1 + j) * stride + overlap)%nat with (j * stride + size)%nat by lia.
      rewrite take_take_drop. f_equal. lia. }
  rewrite Hprefix. apply take_ge. lia.
Qed.

(** The indices Python's [range(0, n, stride)] runs over reach [n]. *)
Lemma py_range_positive (n stride : nat) :
  (1 <= stride)%nat -> (1 <= n)%nat ->
  exists m : nat,
    py_range 0 (Z.of_nat n) (Z.of_nat stride)
    = Ok (List.map (fun k => Z.of_nat (k * stride)) (seq 0 m))
    /\ (n <= m * stride)%nat.
Proof.
  intros Hstride Hn. unfold py_range, range_len.
  destruct (Z.eqb_spec (Z.of_nat stride) 0) as [|_]; [lia|].
  destruct (Z.ltb_spec 0 (Z.of_nat stride)) as [_|]; [|lia].
  destruct (Z.ltb_spec 0 (Z.of_nat n)) as [_|]; [|lia].
  set (q := (Z.of_nat n - 0 + Z.of_nat stride - 1) / Z.of_nat stride).
  exists (Z.to_nat q). split.
  - f_equal. apply List.map_ext. intros k. lia.
  - assert (Hq : Z.of_nat n <= q * Z.of_nat stride).
    { pose proof (Z.div_mod (Z.of_nat n - 0 + Z.of_nat stride - 1) (Z.of_nat stride)) as Hdm.
      pose proof (Z.mod_pos_bound (Z.of_nat n - 0 + Z.of_nat stride - 1) (Z.of_nat stride)) as Hb.
      fold q in Hdm. lia. }
    assert (0 <= q) by (apply Z.div_pos; lia). nia.
Qed.

(** C2 (as amended): a text with at least one word and at most
    [chunk_size] words is returned whole as the only chunk; a longer text,
    for [0 <= overlap < chunk_size], is cut into the windows of
    [chunk_size] words that start every [chunk_size - overlap] words, up to
    and including the first window that reaches the last word, and the
    chunks' words, each chunk but the first without its first [overlap]
    words, are the words of the text in order. *)
Theorem chunk_text_coverage (text : str) (chunk_size overlap : Z) :
  split text <> [] ->
  (len (split text) <= chunk_size -> chunk_text text chunk_size overlap = Ok [text])
  /\ (chunk_size < len (split text) ->
      0 <= overlap < chunk_size ->
      exists m : nat,
        let words := split text in
        let size := Z.to_nat chunk_size in
        let stride := Z.to_nat (chunk_size - overlap) in
        let chunks :=
          List.map (fun k => join (lit " ") (window words size stride k)) (seq 0 m) in
        chunk_text text chunk_size overlap = Ok chunks
        /\ (1 <= m)%nat
        /\ (forall k, (k < m - 1)%nat -> (k * stride + size < length words)%nat)
        /\ (length words <= (m - 1) * stride + size)%nat
        /\ reconstruct (Z.to_nat overlap) chunks = words).
Proof.
  intros Hwords.
  assert (Htruthy : negb (truthy (strip text)) = false).
  { apply negb_false_iff, truthy_true. by rewrite <- split_nil_iff. }
  unfold chunk_text. rewrite Htruthy. split.
  - intros Hshort. apply Z.leb_le in Hshort. by rewrite Hshort.
  - intros Hlong Hov. cbv zeta.
    destruct (Z.leb_spec (len (split text)) chunk_size) as [|_]; [lia|].
    set (words := split text) in *.
    set (size := Z.to_nat chunk_size). set (stride := Z.to_nat (chunk_size - overlap)).
    assert (Hsize : chunk_size = Z.of_nat size) by (unfold size; lia).
    assert (Hstride : chunk_size - overlap = Z.of_nat stride) by (unfold stride; lia).
    unfold len in *.
    destruct (py_range_positive (length words) stride) as (m0 & Hrange & Hcover);
      [lia|lia|].
    rewrite Hstride, Hrange, Hsize.
    destruct (chunk_loop_windows words size stride ltac:(lia) (split_words text)
                m0 0%nat [] ltac:(lia) ltac:(simpl; lia))
      as (m & Hm & Hloop & Hlast & Hbefore).
    exists m. rewrite Hloop. cbn [app].
    split; [reflexivity|]. split; [exact Hm|].
    split; [intros k Hk; apply Hbefore; lia|].
    split; [replace (m - 1)%nat with (0 + m - 1)%nat by lia; exact Hlast|].
    apply reconstruct_windows; [apply split_words|lia|exact Hm|].
    replace (m - 1)%nat with (0 + m - 1)%nat by lia. exact Hlast.
Qed.

(** Counterexample to C2 as stated: a blank text has no word, hence at most
    [chunk_size] words, and yields no chunk at all; and a negative overlap,
    which is below [chunk_size], makes the windows skip words. *)
Lemma chunk_text_blank_or_negative_overlap :
  (len (split (lit "  ")) <= 5
   /\ chunk_text (lit "  ") 5 1 = Ok []
   /\ chunk_text (lit "  ") 5 1 <> Ok [lit "  "])
  /\ (-1 < 2 < len (split (lit "a b c d"))
      /\ chunk_text (lit "a b c d") 2 (-1) = Ok [lit "a b"; lit "d"]
      /\ reconstruct 0 [lit "a b"; lit "d"] <> split (lit "a b c d")).
Proof.
  split.
  - split; [vm_compute; discriminate|].
    split; [reflexivity|vm_compute; discriminate].
  - split; [split; vm_compute; reflexivity|].
    split; [reflexivity|vm_compute; discriminate].
Qed.

(** What [chunk_text] does with a stride that is zero or negative. *)
Lemma chunk_text_nonpositive_stride (text : str) (chunk_size overlap : Z) :
  chunk_size <= overlap ->
  chunk_text text chunk_size overlap
  = (if negb (truthy (strip text)) then Ok []
     else if len (split text) <=? chunk_size then Ok [text]
     else if overlap =? chunk_size then
       Raise (Exn ValueError (lit "range() arg 3 must not be zero"))
     else Ok []).
Proof.
  intros Hinvalid. unfold chunk_text, py_range, range_len.
  destruct (negb (truthy (strip text))); [reflexivity|].
  destruct (len (split text) <=? chunk_size); [reflexivity|].
  destruct (Z.eqb_spec overlap chunk_size) as [->|Hne].
  - rewrite Z.sub_diag. reflexivity.
  - destruct (Z.eqb_spec (chunk_size - overlap) 0) as [|_]; [lia|].
    destruct (Z.ltb_spec 0 (chunk_size - overlap)) as [|_]; [lia|].
    destruct (Z.ltb_spec (len (split text)) 0) as [Hneg|_].
    { unfold len in Hneg. lia. }
    reflexivity.
Qed.

(** C3 (as amended): with [overlap >= chunk_size] the stride is zero or
    negative, and [chunk_text] still returns for every text: nothing for a
    blank text, the whole text when it fits in one chunk (as for any other
    overlap), the [ValueError] of [range] for a zero stride, and no chunk
    for a negative stride.  It never loops; the configuration itself is
    not checked. *)
Theorem chunk_text_invalid_overlap (text : str) (chunk_size overlap : Z) :
  chunk_size <= overlap ->
  chunk_text text chunk_size overlap
  = (if negb (truthy (strip text)) then Ok []
     else if len (split text) <=? chunk_size then Ok [text]
     else if overlap =? chunk_size then
       Raise (Exn ValueError (lit "range() arg 3 must not be zero"))
     else Ok [])
  /\ ((exists e, chunk_text text chunk_size overlap = Raise e)
      \/ chunk_text text chunk_size overlap = Ok []
      \/ forall overlap', chunk_text text chunk_size overlap' = Ok [text]).
Proof.
  intros Hinvalid. split; [by apply chunk_text_nonpositive_stride|].
  rewrite chunk_text_nonpositive_stride by assumption.
  unfold chunk_text.
  destruct (negb (truthy (strip text))); [by right; left|].
  destruct (len (split text) <=? chunk_size); [by right; right|].
  destruct (overlap =? chunk_size); [left; eauto|by right; left].
Qed.

(** Counterexample to C3 as stated: with an overlap above the chunk size a
    text of three words is neither refused nor chunked as for a valid
    overlap; it silently yields no chunk. *)
Lemma chunk_text_neither_rejects_nor_clamps :
  2 <= 3
  /\ chunk_text (lit "a b c") 2 3 = Ok []
  /\ ~ (rejects (chunk_text (lit "a b c") 2 3)
        \/ clamps (lit "a b c") 2 (chunk_text (lit "a b c") 2 3)).
Proof.
  split; [lia|]. split; [reflexivity|].
  intros [[e He]|(overlap' & Hrange & Hclamp)].
  - vm_compute in He. discriminate.
  - assert (overlap' = 0 \/ overlap' = 1) as [->| ->] by lia;
      vm_compute in Hclamp; discriminate.
Qed.

(** With such a configuration a text longer than one chunk is refused by
    [add_document], and the store is left as it was. *)
Lemma add_document_invalid_overlap (L : Libs) (self : VectorDatabase)
    (text : str) (metadata : DocMetadata) (s : State) :
  default 500 (md_chunk_size metadata) <= default 50 (md_chunk_overlap metadata) ->
  default 500 (md_chunk_size metadata) < len (split text) ->
  exists r s',
    add_document L self text metadata s = (Ok r, s')
    /\ a_success r = false
    /\ client s' = client s.
Proof.
  intros Hinvalid Hlong.
  unfold add_document, try_except, bind, lift, ret.
  destruct (negb (truthy (strip text))) eqn:Hblank; [by eexists _, _|].
  rewrite chunk_text_nonpositive_stride, Hblank by assumption.
  destruct (Z.leb_spec (len (split text)) (default 500 (md_chunk_size metadata)));
    [lia|].
  destruct (_ =? _); by eexists _, _.
Qed.

(** ** The theorems at concrete inputs *)

Example sample_doc_render :
  DocxSpec.render Demo.sample_doc
  = lit "Title" ++ nl ++ nl ++ lit "--- Table 1 ---" ++ nl
    ++ lit "a | b" ++ nl ++ lit "c" ++ nl.
Proof. reflexivity. Qed.

(** A blank query against the demo store. *)
Lemma search_similar_contract_witness :
  strip (lit "   ") = []
  /\ search_similar Demo.libs (vector_db Demo.assistant) (lit "   ") 2
       (Q2Qc (9 # 10)) None Demo.initial_state
     = (Ok [], Demo.initial_state).
Proof.
  split; [reflexivity|].
  apply (proj1 (search_similar_contract Demo.libs (vector_db Demo.assistant)
                  (lit "   ") 2 (Q2Qc (9 # 10)) None Demo.initial_state)).
  reflexivity.
Defined.

(** Seven words in windows of three with one word of overlap. *)
Lemma chunk_text_coverage_witness :
  split (lit "a b c d e f g") <> []
  /\ exists m : nat,
       chunk_text (lit "a b c d e f g") 3 1
       = Ok (List.map (fun k => join (lit " ")
                                  (window (split (lit "a b c d e f g")) 3 2 k))
               (seq 0 m))
       /\ reconstruct 1
            (List.map (fun k => join (lit " ")
                                  (window (split (lit "a b c d e f g")) 3 2 k))
               (seq 0 m))
          = split (lit "a b c d e f g").
Proof.
  assert (H : split (lit "a b c d e f g") <> []) by (vm_compute; discriminate).
  split; [exact H|].
  destruct (proj2 (chunk_text_coverage (lit "a b c d e f g") 3 1 H)
              ltac:(vm_compute; reflexivity) ltac:(lia))
    as (m & H1 & _ & _ & _ & H5).
  exists m. split; [exact H1|exact H5].
Defined.

(** An overlap equal to the chunk size on a text of three words. *)
Lemma chunk_text_invalid_overlap_witness :
  2 <= 2
  /\ chunk_text (lit "a b c") 2 2
     = Raise (Exn ValueError (lit "range() arg 3 must not be zero")).
Proof.
  split; [lia|].
  exact (proj1 (chunk_text_invalid_overlap (lit "a b c") 2 2 ltac:(lia))).
Defined.

(** A three-word document added in chunks of two words. *)
Lemma add_document_records_witness :
  exists r s' chunks document_id stored points,
    add_document Demo.libs (vector_db Demo.assistant) (lit "a b c") Demo.sample_metadata
      Demo.initial_state = (Ok r, s')
    /\ a_success r = true
    /\ chunk_text (lit "a b c") 2 0 = Ok chunks
    /\ a_document_id r = Some document_id
    /\ client Demo.initial_state !! lit "documents" = Some stored
    /\ client s'
       = <[lit "documents" := foldl (fun acc p => upsert_point p acc) stored points]>
           (client Demo.initial_state)
    /\ length points = length chunks.
Proof.
  assert (Hrun : exists r s',
            add_document Demo.libs (vector_db Demo.assistant) (lit "a b c")
              Demo.sample_metadata Demo.initial_state = (Ok r, s')
            /\ a_success r = true).
  { eexists _, _. split; vm_compute; reflexivity. }
  destruct Hrun as (r & s' & Hrun & Hsucc).
  destruct (add_document_records Demo.libs (vector_db Demo.assistant) (lit "a b c")
              Demo.sample_metadata Demo.initial_state s' r Hrun Hsucc)
    as (chunks & document_id & stored & points & H1 & _ & H3 & H4 & H5 & H6 & _).
  - intros k Hk. apply list_elem_of_In in Hk. simpl in Hk.
    destruct Hk as [<-|[<-|[<-|[<-|[<-|[<-|[<-|[]]]]]]]]; vm_compute; reflexivity.
  - exists r, s', chunks, document_id, stored, points.
    split; [exact Hrun|]. split; [exact Hsucc|]. split; [exact H1|].
    split; [exact H3|]. split; [exact H4|]. split; [exact H5|exact H6].
Defined.

(** The sample document, read from a file. *)
Lemma docx_extraction_witness :
  let fs : FileSystem := {[ lit "/tmp/report.docx" := blit "PK" ]} in
  let L := Demo.libs_with_docx Demo.sample_doc in
  fs !! lit "/tmp/report.docx" = Some (blit "PK")
  /\ docx_Document L (blit "PK") = Ok Demo.sample_doc
  /\ exists metadata,
       _extract_docx_text L fs (lit "/tmp/report.docx")
       = Ok (lit "Title" ++ nl ++ nl ++ lit "--- Table 1 ---" ++ nl
             ++ lit "a | b" ++ nl ++ lit "c", metadata).
Proof.
  intros fs L.
  assert (Hfile : fs !! lit "/tmp/report.docx" = Some (blit "PK")) by reflexivity.
  split; [exact Hfile|]. split; [reflexivity|].
  destruct (docx_extraction L fs (lit "/tmp/report.docx") (blit "PK")
              Demo.sample_doc Hfile ltac:(discriminate) eq_refl)
    as (_ & _ & Hok).
  eexists. apply Hok. vm_compute. discriminate.
Defined.

(** A Latin-1 file that is not valid UTF-8. *)
Lemma txt_fallback_stops_by_latin_1_witness :
  let fs : FileSystem := {[ lit "/tmp/menu.txt" := blit "caf" ++ [xe9] ]} in
  fs !! lit "/tmp/menu.txt" = Some (blit "caf" ++ [xe9])
  /\ exists text metadata,
       _extract_txt_text Demo.libs fs (lit "/tmp/menu.txt") = Ok (text, metadata)
       /\ metadata !! lit "encoding" = Some (VStr (lit "latin-1")).
Proof.
  intros fs.
  assert (Hfile : fs !! lit "/tmp/menu.txt" = Some (blit "caf" ++ [xe9])) by reflexivity.
  split; [exact Hfile|].
  destruct (proj1 (txt_fallback_stops_by_latin_1 Demo.libs fs (lit "/tmp/menu.txt")
                     (blit "caf" ++ [xe9]) Hfile ltac:(discriminate)))
    as (text & metadata & encoding & Hrun & Henc & _).
  exists text, metadata. split; [exact Hrun|].
  assert (Hconcrete : exists t m, _extract_txt_text Demo.libs fs (lit "/tmp/menu.txt") = Ok (t, m)
                      /\ m !! lit "encoding" = Some (VStr (lit "latin-1"))).
  { eexists _, _. split; vm_compute; reflexivity. }
  destruct Hconcrete as (t & m & Hrun' & Henc').
  rewrite Hrun in Hrun'. injection Hrun' as _ <-. exact Henc'.
Defined.
(** * Further properties *)

(** ** Adding a document: all or nothing *)

(** What a call of [add_document] does, in full: it fails without touching
    the store, or it upserts the points built from the chunks. *)
Lemma add_document_run (L : Libs) (self : VectorDatabase) (text : str)
    (metadata : DocMetadata) (s : State) :
  (exists msg s',
     add_document L self text metadata s = (Ok (add_failure msg), s')
     /\ client s' = client s
     /\ conversation_history s' = conversation_history s
     /\ (uuid_calls s <= uuid_calls s')%nat)
  \/ (exists chunks stored,
        chunk_text text (default 500 (md_chunk_size metadata))
          (default 50 (md_chunk_overlap metadata)) = Ok chunks
        /\ chunks <> []
        /\ st_failure L chunks = None
        /\ client s !! collection_name self = Some stored
        /\ add_document L self text metadata s
           = (Ok {| a_success := true; a_error := None;
                    a_chunks_added := len chunks;
                    a_document_id := Some (uuid4 L (uuid_calls s));
                    a_total_characters := Some (len text) |},
              {| client :=
                   <[collection_name self :=
                       foldl (fun acc p => upsert_point p acc) stored
                         (new_points L metadata (uuid4 L (uuid_calls s)) (len chunks)
                            (zip chunks (List.map (st_embed L) chunks)) 0
                            (S (uuid_calls s)) (clock_calls s))]> (client s);
                 conversation_history := conversation_history s;
                 uuid_calls := S (uuid_calls s) + length chunks;
                 clock_calls := clock_calls s + length chunks;
                 encode_calls := encode_calls s ++ [chunks] |})).
Proof.
  unfold add_document, try_except, bind, lift, ret, encode, uuid_uuid4, upsert.
  destruct (negb (truthy (strip text))).
  { left. eexists _, _. repeat split; reflexivity || lia. }
  destruct (chunk_text text _ _) as [chunks|e] eqn:Hchunks.
  2:{ left. eexists _, _. repeat split; reflexivity || lia. }
  destruct chunks as [|c0 chunks0] eqn:Hcs.
  { left. eexists _, _. repeat split; reflexivity || lia. }
  rewrite <- Hcs in *. assert (Hne : chunks <> []) by (rewrite Hcs; discriminate).
  clear c0 chunks0 Hcs.
  unfold st_encode. destruct (st_failure L chunks) as [e|] eqn:Hfail.
  { left. eexists _, _. repeat split; reflexivity || (simpl; lia). }
  rewrite points_loop_spec.
  cbn [client conversation_history uuid_calls clock_calls encode_calls].
  unfold client_upsert.
  destruct (client s !! collection_name self) as [stored|] eqn:Hstored.
  2:{ left. eexists _, _. repeat split; reflexivity || (simpl; lia). }
  right. exists chunks, stored.
  split; [assumption || reflexivity|]. split; [exact Hne|].
  split; [assumption || reflexivity|]. split; [assumption || reflexivity|].
  rewrite length_zip, length_map, Nat.min_id. reflexivity.
Qed.

(** X1: [add_document] never raises and never touches the history; when it
    reports failure the store is exactly as before and no chunk is counted;
    when it reports success it counted at least one chunk and the
    characters of the text. *)
Theorem add_document_all_or_nothing (L : Libs) (self : VectorDatabase)
    (text : str) (metadata : DocMetadata) (s : State) :
  exists r s',
    add_document L self text metadata s = (Ok r, s')
    /\ conversation_history s' = conversation_history s
    /\ if a_success r
       then a_error r = None
            /\ 0 < a_chunks_added r
            /\ a_total_characters r = Some (len text)
            /\ is_Some (a_document_id r)
       else client s' = client s
            /\ a_chunks_added r = 0
            /\ is_Some (a_error r)
            /\ a_document_id r = None.
Proof.
  destruct (add_document_run L self text metadata s)
    as [(msg & s' & Hrun & Hc & Hh & _)|(chunks & stored & _ & Hne & _ & _ & Hrun)].
  - exists (add_failure msg), s'. split; [exact Hrun|]. split; [exact Hh|].
    simpl. repeat split; eauto.
  - eexists _, _. split; [exact Hrun|]. split; [reflexivity|]. simpl.
    repeat split; eauto. unfold len. destruct chunks; [congruence|simpl; lia].
Qed.

(** ** The store under fresh identifiers *)

Lemma new_points_ids (L : Libs) (metadata : DocMetadata) (document_id : str)
    (chunk_count : Z) (items : list (str * vector)) (i : Z) (u c : nat) :
  p_id <$> new_points L metadata document_id chunk_count items i u c
  = (fun j => uuid4 L (u + j)) <$> seq 0 (length items).
Proof.
  unfold new_points. rewrite fmap_imap. apply (imap_seq_0 items (fun j => uuid4 L (u + j))).
Qed.

Lemma new_points_elem (L : Libs) (metadata : DocMetadata) (document_id : str)
    (chunk_count : Z) (items : list (str * vector)) (i : Z) (u c : nat)
    (p : PointStruct) :
  p ∈ new_points L metadata document_id chunk_count items i u c ->
  exists (j : nat) chunk embedding,
    items !! j = Some (chunk, embedding)
    /\ p_id p = uuid4 L (u + j)
    /\ p_vector p = embedding
    /\ p_payload p
       = make_payload chunk (i + Z.of_nat j) document_id metadata
           (now_isoformat L (c + j)) chunk_count.
Proof.
  unfold new_points. intros (j & [chunk embedding] & -> & Hj)%elem_of_lookup_imap_1.
  exists j, chunk, embedding. by repeat split.
Qed.

(** Without a [document_id] key in the extra metadata the payload names
    the document. *)
Lemma make_payload_document_id (chunk : str) (i : Z) (document_id : str)
    (metadata : DocMetadata) (now : str) (chunk_count : Z) :
  default ∅ (md_extra_metadata metadata) !! lit "document_id" = None ->
  make_payload chunk i document_id metadata now chunk_count !! lit "document_id"
  = Some (VStr document_id).
Proof.
  intros Hfree. unfold make_payload. rewrite lookup_union_r by exact Hfree.
  payload_lookup.
Qed.

(** Points built with ids the source has not issued yet are appended. *)
Lemma new_points_appended (L : Libs) (metadata : DocMetadata) (document_id : str)
    (chunk_count : Z) (items : list (str * vector)) (i : Z) (u u0 c : nat)
    (stored : list PointStruct) :
  (forall j k, uuid4 L j = uuid4 L k -> j = k) ->
  (u0 <= u)%nat ->
  NoDup (p_id <$> stored) ->
  (forall p, p ∈ stored -> exists k, (k < u0)%nat /\ p_id p = uuid4 L k) ->
  let points := new_points L metadata document_id chunk_count items i u c in
  foldl (fun acc p => upsert_point p acc) stored points = stored ++ points
  /\ NoDup (p_id <$> (stored ++ points)).
Proof.
  intros Hinj Hu Hnodup Hissued points.
  assert (Hids : p_id <$> points = (fun j => uuid4 L (u + j)) <$> seq 0 (length items))
    by apply new_points_ids.
  assert (Hnew : NoDup (p_id <$> points)).
  { rewrite Hids. apply NoDup_fmap_2_strong; [|apply NoDup_seq].
    intros x y _ _ Hxy. apply Hinj in Hxy. lia. }
  assert (Hfresh : forall p, p ∈ points -> p_id p ∉ p_id <$> stored).
  { intros p Hp Hin.
    assert (Hpid : p_id p ∈ p_id <$> points) by (by apply list_elem_of_fmap_2).
    rewrite Hids in Hpid. apply list_elem_of_fmap in Hpid as (j & Hj & _).
    apply list_elem_of_fmap in Hin as (q & Hq & Hqin).
    destruct (Hissued q Hqin) as (k & Hk & Hqid).
    rewrite Hj, Hqid in Hq. apply Hinj in Hq. lia. }
  split; [by apply foldl_upsert_fresh|].
  rewrite fmap_app. apply list.NoDup_app. split; [exact Hnodup|]. split; [|exact Hnew].
  intros x Hx Hx'. apply list_elem_of_fmap in Hx' as (p & -> & Hp).
  by apply (Hfresh p Hp).
Qed.

(** X2: with an injective uuid source and a store whose ids were all issued by
    it, a successful [add_document] appends its points after the stored
    ones: none of them replaces a point stored before, exactly
    [chunks_added] points are new, and each of them holds one chunk. *)
Theorem add_document_appends (L : Libs) (self : VectorDatabase) (text : str)
    (metadata : DocMetadata) (s s' : State) (r : AddResult) :
  (forall j k, uuid4 L j = uuid4 L k -> j = k) ->
  store_ok L (collection_name self) s ->
  add_document L self text metadata s = (Ok r, s') ->
  a_success r = true ->
  exists stored points chunks,
    client s !! collection_name self = Some stored
    /\ client s' = <[collection_name self := stored ++ points]> (client s)
    /\ chunk_text text (default 500 (md_chunk_size metadata))
         (default 50 (md_chunk_overlap metadata)) = Ok chunks
    /\ len points = a_chunks_added r
    /\ p_vector <$> points = st_embed L <$> chunks
    /\ NoDup (p_id <$> (stored ++ points)).
Proof.
  intros Hinj Hok Hrun Hsucc.
  destruct (add_document_run L self text metadata s)
    as [(msg & s1 & Hrun' & _)|(chunks & stored & Hchunks & _ & _ & Hstored & Hrun')];
    rewrite Hrun' in Hrun.
  { injection Hrun as <- _. discriminate. }
  injection Hrun as <- <-. clear Hsucc Hrun'.
  destruct (Hok stored Hstored) as [Hnodup Hissued].
  destruct (new_points_appended L metadata (uuid4 L (uuid_calls s)) (len chunks)
              (zip chunks (List.map (st_embed L) chunks)) 0 (S (uuid_calls s))
              (uuid_calls s) (clock_calls s) stored Hinj ltac:(lia) Hnodup)
    as [Happ Hnd].
  { intros p Hp. by destruct (Hissued p Hp) as [? _]. }
  eexists stored, _, chunks. split; [exact Hstored|]. split.
  { cbn [client]. by rewrite Happ. }
  split; [exact Hchunks|]. split.
  { cbn [a_chunks_added]. unfold len, new_points.
    by rewrite length_imap, length_zip, length_map, Nat.min_id. }
  split; [|exact Hnd].
  unfold new_points. rewrite fmap_imap.
  rewrite (imap_ext _ (const snd)) by done.
  rewrite imap_const. apply snd_zip. by rewrite length_map.
Qed.

Lemma add_document_store_ok (L : Libs) (self : VectorDatabase)
    (text : str) (metadata : DocMetadata) (s : State) :
  (forall j k, uuid4 L j = uuid4 L k -> j = k) ->
  default ∅ (md_extra_metadata metadata) !! lit "document_id" = None ->
  store_ok L (collection_name self) s ->
  store_ok L (collection_name self) (add_document L self text metadata s).2.
Proof.
  intros Hinj Hfree Hok.
  destruct (add_document_run L self text metadata s)
    as [(msg & s1 & Hrun & Hc & _ & Hu)|(chunks & stored & _ & _ & _ & Hstored & Hrun)];
    rewrite Hrun; cbn [snd].
  - intros stored' Hstored'. rewrite Hc in Hstored'.
    destruct (Hok stored' Hstored') as [Hnodup Hissued]. split; [exact Hnodup|].
    intros p Hp. destruct (Hissued p Hp) as [(k & Hk & Hid) Hdoc]. split.
    + exists k. split; [lia|exact Hid].
    + intros d Hd. destruct (Hdoc d Hd) as (k' & Hk' & ->). exists k'. split; [lia|reflexivity].
  - destruct (Hok stored Hstored) as [Hnodup Hissued].
    destruct (new_points_appended L metadata (uuid4 L (uuid_calls s)) (len chunks)
                (zip chunks (List.map (st_embed L) chunks)) 0 (S (uuid_calls s))
                (uuid_calls s) (clock_calls s) stored Hinj ltac:(lia) Hnodup)
      as [Happ Hnd].
    { intros p Hp. by destruct (Hissued p Hp) as [? _]. }
    intros stored'. cbn [client uuid_calls]. rewrite lookup_insert_eq, Happ.
    intros [= <-]. split; [exact Hnd|].
    intros p [Hp|Hp]%elem_of_app.
    + destruct (Hissued p Hp) as [(k & Hk & Hid) Hdoc]. split.
      * exists k. split; [lia|exact Hid].
      * intros d Hd. destruct (Hdoc d Hd) as (k' & Hk' & ->).
        exists k'. split; [lia|reflexivity].
    + apply new_points_elem in Hp as (j & chunk & embedding & Hj & Hid & _ & Hpayload).
      apply lookup_lt_Some in Hj.
      rewrite length_zip, length_map, Nat.min_id in Hj. split.
      * exists (S (uuid_calls s) + j)%nat. split; [lia|exact Hid].
      * intros d. rewrite Hpayload, make_payload_document_id by exact Hfree.
        intros [= <-]. exists (uuid_calls s). split; [lia|reflexivity].
Qed.

(** ** Deleting a document *)

(** A filter key selects a value only as the name of a field. *)
Lemma field_value_Some (payload : gmap str pyval) (key : str) (v : pyval) :
  field_value payload key = Some v -> payload !! key = Some v.
Proof. unfold field_value. by destruct (is_path key). Qed.

Lemma field_value_plain (payload : gmap str pyval) (key : str) :
  plain_key key = true -> field_value payload key = payload !! key.
Proof.
  unfold plain_key, field_value, is_path. intros [_ H]%andb_true_iff.
  assert (Hdot : existsb (fun c => (c =? 46)%N) key = false); [|by rewrite Hdot].
  induction key as [|c key IH]; [reflexivity|]. simpl in H |- *.
  apply andb_true_iff in H as [Hc H]. rewrite (IH H), orb_false_r.
  destruct (N.eqb_spec c 46) as [->|]; [discriminate|reflexivity].
Qed.

Lemma filter_matches_document_id (document_id : str) (p : PointStruct) :
  filter_matches [(lit "document_id", VStr document_id)] (p_payload p)
  = of_document document_id p.
Proof. unfold filter_matches, of_document. simpl. apply andb_true_r. Qed.

Lemma filter_none {A} (f : A -> bool) (l : list A) :
  (forall x, x ∈ l -> f x = false) -> List.filter f l = [].
Proof.
  induction l as [|x l IH]; intros H; [reflexivity|]. simpl.
  rewrite H by left. apply IH. intros y Hy. apply H. by right.
Qed.

Lemma filter_all {A} (f : A -> bool) (l : list A) :
  (forall x, x ∈ l -> f x = true) -> List.filter f l = l.
Proof.
  induction l as [|x l IH]; intros H; [reflexivity|]. simpl.
  rewrite H by left. f_equal. apply IH. intros y Hy. apply H. by right.
Qed.

(** What [delete_document] does: with the collection in place it removes
    the points whose payload names the document and answers [True], also
    when there was no such point; without the collection it answers
    [False] and changes nothing. *)
Lemma delete_document_run (self : VectorDatabase) (document_id : str) (s : State) :
  match client s !! collection_name self with
  | Some stored =>
      delete_document self document_id s
      = (Ok true,
         set_client
           (<[collection_name self :=
                List.filter (fun p => negb (of_document document_id p)) stored]>
              (client s)) s)
  | None => delete_document self document_id s = (Ok false, s)
  end.
Proof.
  unfold delete_document, try_except, bind, ret, client_delete.
  destruct (client s !! collection_name self) as [stored|]; [|reflexivity].
  do 3 f_equal. apply List.filter_ext. intros p.
  by rewrite filter_matches_document_id.
Qed.

(** X3: adding a document and then deleting it by the returned id leaves the
    store exactly as it was before the add, provided the uuid source is
    injective, the stored ids were issued by it and the extra metadata has
    no [document_id] key. *)
Theorem add_then_delete_restores_store (L : Libs) (self : VectorDatabase)
    (text : str) (metadata : DocMetadata) (s s' : State) (r : AddResult)
    (document_id : str) :
  (forall j k, uuid4 L j = uuid4 L k -> j = k) ->
  default ∅ (md_extra_metadata metadata) !! lit "document_id" = None ->
  store_ok L (collection_name self) s ->
  add_document L self text metadata s = (Ok r, s') ->
  a_document_id r = Some document_id ->
  exists s'',
    delete_document self document_id s' = (Ok true, s'')
    /\ client s'' = client s.
Proof.
  intros Hinj Hfree Hok Hrun Hid.
  destruct (add_document_run L self text metadata s)
    as [(msg & s1 & Hrun' & _)|(chunks & stored & _ & _ & _ & Hstored & Hrun')];
    rewrite Hrun' in Hrun.
  { injection Hrun as <- _. discriminate. }
  injection Hrun as <- <-. cbn [a_document_id] in Hid. injection Hid as <-.
  destruct (Hok stored Hstored) as [Hnodup Hissued].
  destruct (new_points_appended L metadata (uuid4 L (uuid_calls s)) (len chunks)
              (zip chunks (List.map (st_embed L) chunks)) 0 (S (uuid_calls s))
              (uuid_calls s) (clock_calls s) stored Hinj ltac:(lia) Hnodup)
    as [Happ _].
  { intros p Hp. by destruct (Hissued p Hp) as [? _]. }
  pose proof (delete_document_run self (uuid4 L (uuid_calls s))
                {| client :=
                     <[collection_name self :=
                         foldl (fun acc p => upsert_point p acc) stored
                           (new_points L metadata (uuid4 L (uuid_calls s)) (len chunks)
                              (zip chunks (List.map (st_embed L) chunks)) 0
                              (S (uuid_calls s)) (clock_calls s))]> (client s);
                   conversation_history := conversation_history s;
                   uuid_calls := S (uuid_calls s) + length chunks;
                   clock_calls := clock_calls s + length chunks;
                   encode_calls := encode_calls s ++ [chunks] |}) as Hdel.
  cbn [client] in Hdel. rewrite lookup_insert_eq in Hdel.
  eexists. split; [exact Hdel|]. cbn [set_client client].
  rewrite insert_insert_eq, Happ, List.filter_app.
  assert (Hkeep : List.filter (fun p => negb (of_document (uuid4 L (uuid_calls s)) p)) stored
                  = stored).
  { apply filter_all. intros p Hp.
    apply negb_true_iff, bool_decide_eq_false. intros Hd.
    destruct (Hissued p Hp) as [_ Hdoc].
    destruct (Hdoc _ Hd) as (k & Hk & Heq). apply Hinj in Heq. lia. }
  assert (Hdrop : List.filter (fun p => negb (of_document (uuid4 L (uuid_calls s)) p))
                    (new_points L metadata (uuid4 L (uuid_calls s)) (len chunks)
                       (zip chunks (List.map (st_embed L) chunks)) 0
                       (S (uuid_calls s)) (clock_calls s)) = []).
  { apply filter_none. intros p Hp.
    apply new_points_elem in Hp as (j & chunk & embedding & _ & _ & _ & Hpayload).
    apply negb_false_iff, bool_decide_eq_true.
    rewrite Hpayload. by apply make_payload_document_id. }
  rewrite Hkeep, Hdrop, app_nil_r. by apply insert_id.
Qed.

(** ** Searching the store *)

(** A hit of the store's search is a stored point that passes the filter
    and the threshold. *)
Lemma client_search_hits (similarity : vector -> vector -> score)
    (c : QdrantClient) (name : str) (query_vector : vector) (limit : nat)
    (query_filter : option (list (str * pyval))) (score_threshold : score)
    (hits : list ScoredPoint) (h : ScoredPoint) :
  client_search similarity c name query_vector limit query_filter score_threshold
    = Ok hits ->
  h ∈ hits ->
  exists stored p,
    c !! name = Some stored
    /\ p ∈ stored
    /\ sp_payload h = p_payload p
    /\ sp_score h = similarity query_vector (p_vector p)
    /\ (score_threshold <= sp_score h)%Qc
    /\ forall must, query_filter = Some must -> filter_matches must (p_payload p) = true.
Proof.
  unfold client_search. destruct (c !! name) as [stored|]; [|discriminate].
  intros [= <-] Hh. apply elem_of_take in Hh as (i & Hh & _).
  apply list_elem_of_lookup_2 in Hh. rewrite merge_sort_Permutation in Hh.
  apply list_elem_of_In, List.filter_In in Hh as [Hh Hthr].
  apply bool_decide_eq_true in Hthr.
  apply List.in_map_iff in Hh as (p & <- & Hp).
  apply List.filter_In in Hp as [Hp Hfilter].
  exists stored, p. split; [reflexivity|]. split; [by apply list_elem_of_In|].
  split; [reflexivity|]. split; [reflexivity|]. split; [exact Hthr|].
  intros must ->. exact Hfilter.
Qed.

(** The formatting loop turns every hit into one result with its payload
    fields. *)
Lemma format_results_fields (hits : list ScoredPoint) (acc res : list SearchResult) :
  format_results hits acc = Ok res ->
  exists new,
    res = acc ++ new
    /\ Forall2 (fun h r =>
                  sp_payload h !! lit "text" = Some (sr_text r)
                  /\ sr_score r = sp_score h
                  /\ sr_document_name r
                     = default (VStr (lit "unknown")) (sp_payload h !! lit "document_name")
                  /\ sr_document_id r
                     = default (VStr (lit "unknown")) (sp_payload h !! lit "document_id")
                  /\ sr_chunk_id r = default (VInt 0) (sp_payload h !! lit "chunk_id")
                  /\ sr_file_type r
                     = default (VStr (lit "unknown")) (sp_payload h !! lit "file_type")
                  /\ sr_upload_time r
                     = default (VStr (lit "unknown")) (sp_payload h !! lit "upload_time"))
         hits new.
Proof.
  revert acc. induction hits as [|h hits IH]; intros acc; simpl.
  - intros [= <-]. exists []. by rewrite app_nil_r.
  - unfold payload_item. destruct (sp_payload h !! lit "text") as [text|] eqn:Htext;
      [|discriminate].
    intros H. apply IH in H as (new & -> & Hnew).
    eexists (_ :: new). rewrite <- app_assoc. split; [reflexivity|].
    constructor; [|exact Hnew]. simpl. by repeat split.
Qed.

(** With a text in every payload the formatting loop does not raise. *)
Lemma format_results_total (hits : list ScoredPoint) (acc : list SearchResult) :
  (forall h, h ∈ hits -> is_Some (sp_payload h !! lit "text")) ->
  exists res, format_results hits acc = Ok res.
Proof.
  revert acc. induction hits as [|h hits IH]; intros acc Htext; simpl; [eauto|].
  unfold payload_item. destruct (Htext h) as [text ->]; [left|].
  apply IH. intros h' Hh'. apply Htext. by right.
Qed.

(** Every result of [search_similar] shows a point stored in the
    collection that passes every filter condition and the threshold. *)
Lemma search_similar_hits (L : Libs) (self : VectorDatabase) (query : str)
    (limit : nat) (score_threshold : score)
    (filter_conditions : option (gmap str pyval)) (s s' : State)
    (results : list SearchResult) (r : SearchResult) :
  search_similar L self query limit score_threshold filter_conditions s
    = (Ok results, s') ->
  r ∈ results ->
  exists stored p,
    client s !! collection_name self = Some stored
    /\ p ∈ stored
    /\ result_of_point (cosine L) (st_embed L query) p r
    /\ (score_threshold <= sr_score r)%Qc
    /\ forall conds k v,
         filter_conditions = Some conds -> conds !! k = Some v ->
         p_payload p !! k = Some v.
Proof.
  unfold search_similar, try_except, bind, lift, ret, encode, st_encode.
  destruct (negb (truthy (strip query))).
  { intros [= <- _] Hr. by apply elem_of_nil in Hr. }
  destruct (st_failure L [query]).
  { intros [= <- _] Hr. by apply elem_of_nil in Hr. }
  cbn [List.map].
  destruct (client_search _ _ _ _ _ _ _) as [hits|e] eqn:Hsearch.
  2:{ intros [= <- _] Hr. by apply elem_of_nil in Hr. }
  cbn [client] in Hsearch.
  destruct (format_results hits []) as [res|e] eqn:Hfmt.
  2:{ intros [= <- _] Hr. by apply elem_of_nil in Hr. }
  intros [= <- _] Hr.
  apply format_results_fields in Hfmt as (new & -> & Hnew). cbn [app] in Hr.
  apply list_elem_of_lookup in Hr as [i Hi].
  destruct (Forall2_lookup_r _ _ _ _ _ Hnew Hi) as (h & Hh & Htext & Hscore & Hfields).
  apply list_elem_of_lookup_2 in Hh.
  destruct (client_search_hits _ _ _ _ _ _ _ _ _ Hsearch Hh)
    as (stored & p & Hstored & Hp & Hpayload & Hsim & Hthr & Hfilter).
  exists stored, p. split; [exact Hstored|]. split; [exact Hp|].
  rewrite Hpayload in Htext, Hfields. split.
  { split; [exact Htext|]. split; [by rewrite Hscore|]. exact Hfields. }
  split; [by rewrite Hscore|].
  intros conds k v -> Hk.
  destruct (map_to_list conds) as [|c cs] eqn:Hlist.
  { apply map_to_list_empty_iff in Hlist. subst. by rewrite lookup_empty in Hk. }
  specialize (Hfilter _ eq_refl). unfold filter_matches in Hfilter.
  rewrite forallb_forall in Hfilter.
  apply elem_of_map_to_list in Hk. rewrite Hlist in Hk.
  apply list_elem_of_In, Hfilter in Hk. apply bool_decide_eq_true in Hk.
  by apply field_value_Some in Hk.
Qed.

(** X4: a search under filter conditions returns only results that satisfy
    them: a condition on one of the payload keys a result shows fixes that
    field in every result, and every result scores at least the
    threshold.  The conditions are combined by "and". *)
Theorem search_similar_respects_filter (L : Libs) (self : VectorDatabase)
    (query : str) (limit : nat) (score_threshold : score)
    (conds : gmap str pyval) (s s' : State) (results : list SearchResult) :
  search_similar L self query limit score_threshold (Some conds) s
    = (Ok results, s') ->
  forall r, r ∈ results ->
    (forall v, conds !! lit "text" = Some v -> sr_text r = v)
    /\ (forall v, conds !! lit "document_id" = Some v -> sr_document_id r = v)
    /\ (forall v, conds !! lit "document_name" = Some v -> sr_document_name r = v)
    /\ (forall v, conds !! lit "chunk_id" = Some v -> sr_chunk_id r = v)
    /\ (forall v, conds !! lit "file_type" = Some v -> sr_file_type r = v)
    /\ (forall v, conds !! lit "upload_time" = Some v -> sr_upload_time r = v).
Proof.
  intros Hrun r Hr.
  destruct (search_similar_hits _ _ _ _ _ _ _ _ _ _ Hrun Hr)
    as (stored & p & _ & _ & (Htext & _ & Hname & Hid & Hchunk & Htype & Htime) & _ & Hconds).
  repeat split; intros v Hv; pose proof (Hconds conds _ v eq_refl Hv) as Hp.
  - rewrite Hp in Htext. congruence.
  - by rewrite Hid, Hp.
  - by rewrite Hname, Hp.
  - by rewrite Hchunk, Hp.
  - by rewrite Htype, Hp.
  - by rewrite Htime, Hp.
Qed.

(** An empty dictionary of conditions is no filter at all. *)
Lemma search_similar_empty_filter (L : Libs) (self : VectorDatabase)
    (query : str) (limit : nat) (score_threshold : score) (s : State) :
  search_similar L self query limit score_threshold (Some ∅) s
  = search_similar L self query limit score_threshold None s.
Proof. unfold search_similar. by rewrite map_to_list_empty. Qed.

(** X5: [delete_document] answers [True] whenever the collection exists, also
    when no point belonged to the document; it removes exactly the points
    whose payload names the document, keeps the others in their order, and
    afterwards no search returns a result of that document (unless the id
    is the placeholder [unknown] that results without an id show). *)
Theorem delete_document_isolates (L : Libs) (self : VectorDatabase)
    (document_id : str) (s : State) (stored : list PointStruct) :
  client s !! collection_name self = Some stored ->
  document_id <> lit "unknown" ->
  exists s',
    delete_document self document_id s = (Ok true, s')
    /\ client s' !! collection_name self
       = Some (List.filter (fun p => negb (of_document document_id p)) stored)
    /\ (forall name, name <> collection_name self -> client s' !! name = client s !! name)
    /\ conversation_history s' = conversation_history s
    /\ forall query limit score_threshold filter_conditions results s'',
         search_similar L self query limit score_threshold filter_conditions s'
           = (Ok results, s'') ->
         Forall (fun r => sr_document_id r <> VStr document_id) results.
Proof.
  intros Hstored Hunknown.
  pose proof (delete_document_run self document_id s) as Hdel.
  rewrite Hstored in Hdel. eexists. split; [exact Hdel|].
  cbn [set_client client conversation_history].
  split; [by rewrite lookup_insert_eq|].
  split; [intros name Hname; by rewrite lookup_insert_ne|].
  split; [reflexivity|].
  intros query limit score_threshold filter_conditions results s'' Hrun.
  apply List.Forall_forall. intros r Hr%list_elem_of_In.
  destruct (search_similar_hits _ _ _ _ _ _ _ _ _ _ Hrun Hr)
    as (stored' & p & Hstored' & Hp & (_ & _ & _ & Hid & _) & _).
  cbn [set_client client] in Hstored'. rewrite lookup_insert_eq in Hstored'.
  injection Hstored' as <-.
  apply list_elem_of_In, List.filter_In in Hp as [_ Hp].
  apply negb_true_iff, bool_decide_eq_false in Hp.
  rewrite Hid. destruct (p_payload p !! lit "document_id") as [v|]; simpl.
  - intros ->. by apply Hp.
  - intros [= Heq]. by apply Hunknown.
Qed.

(** Without the collection [delete_document] answers [False] and leaves the
    state as it is. *)
Lemma delete_document_without_collection (self : VectorDatabase)
    (document_id : str) (s : State) :
  client s !! collection_name self = None ->
  delete_document self document_id s = (Ok false, s).
Proof.
  intros H. pose proof (delete_document_run self document_id s) as Hdel.
  by rewrite H in Hdel.
Qed.

(** ** Creating and clearing the collection *)

(** X6: [_initialize_collection] never raises and never destroys data: an
    existing collection is left exactly as it is, a missing one is created
    empty, and a second call changes nothing. *)
Theorem initialize_collection_keeps_points (self : VectorDatabase) (s : State) :
  exists s',
    _initialize_collection self s = (Ok tt, s')
    /\ (forall stored, client s !! collection_name self = Some stored -> s' = s)
    /\ (client s !! collection_name self = None ->
        client s' = <[collection_name self := []]> (client s))
    /\ conversation_history s' = conversation_history s
    /\ _initialize_collection self s' = (Ok tt, s').
Proof.
  unfold _initialize_collection, try_except, bind, ret, client_get_collection,
    client_create_collection, collection_not_found.
  destruct (client s !! collection_name self) as [stored|] eqn:Hstored.
  - exists s. rewrite Hstored. repeat split; congruence.
  - cbn beta iota. rewrite Hstored. eexists. split; [reflexivity|].
    cbn [set_client client conversation_history].
    rewrite lookup_insert_eq. repeat split; congruence.
Qed.

(** What [clear_database] does. *)
Lemma clear_database_run (self : VectorDatabase) (s : State) :
  clear_database self s
  = (Ok true, set_client (<[collection_name self := []]> (client s)) s).
Proof.
  unfold clear_database, _initialize_collection, try_except, bind, ret,
    client_get_collection, client_create_collection, client_delete_collection,
    collection_not_found.
  cbn [set_client client]. rewrite lookup_delete_eq.
  cbn beta iota. cbn [set_client client]. rewrite lookup_delete_eq.
  cbn [set_client client conversation_history uuid_calls clock_calls encode_calls].
  rewrite insert_delete_eq. reflexivity.
Qed.

(** The statistics of an empty collection. *)
Lemma get_document_stats_empty (self : VectorDatabase) (s : State) :
  client s !! collection_name self = Some [] ->
  get_document_stats self s = (Ok empty_stats, s).
Proof.
  intros H. unfold get_document_stats, try_except, bind, ret,
    client_get_collection, client_scroll. by rewrite H.
Qed.

(** A search in an empty collection finds nothing. *)
Lemma search_similar_empty_collection (L : Libs) (self : VectorDatabase)
    (query : str) (limit : nat) (score_threshold : score)
    (filter_conditions : option (gmap str pyval)) (s s' : State)
    (results : list SearchResult) :
  client s !! collection_name self = Some [] ->
  search_similar L self query limit score_threshold filter_conditions s
    = (Ok results, s') ->
  results = [].
Proof.
  intros Hempty Hrun. destruct results as [|r results]; [reflexivity|].
  destruct (search_similar_hits _ _ _ _ _ _ _ _ _ r Hrun)
    as (stored & p & Hstored & Hp & _); [constructor|].
  rewrite Hempty in Hstored. injection Hstored as <-. by apply elem_of_nil in Hp.
Qed.

(** X7: after [clear_database] the collection is there and empty, whatever it
    held and whether it existed: the call answers [True], the statistics are
    all zero and every search returns no result.  Other collections and the
    conversation history are not touched. *)
Theorem clear_database_empties (L : Libs) (self : VectorDatabase) (s : State) :
  exists s',
    clear_database self s = (Ok true, s')
    /\ client s' !! collection_name self = Some []
    /\ (forall name, name <> collection_name self -> client s' !! name = client s !! name)
    /\ conversation_history s' = conversation_history s
    /\ get_document_stats self s' = (Ok empty_stats, s')
    /\ forall query limit score_threshold filter_conditions results s'',
         search_similar L self query limit score_threshold filter_conditions s'
           = (Ok results, s'') ->
         results = [].
Proof.
  eexists. split; [apply clear_database_run|].
  assert (Hempty : client (set_client (<[collection_name self := []]> (client s)) s)
                     !! collection_name self = Some []).
  { cbn [set_client client]. by rewrite lookup_insert_eq. }
  split; [exact Hempty|].
  split; [intros name Hname; cbn [set_client client]; by rewrite lookup_insert_ne|].
  split; [reflexivity|].
  split; [by apply get_document_stats_empty|].
  intros query limit score_threshold filter_conditions results s'' Hrun.
  by eapply search_similar_empty_collection.
Qed.

(** ** Statistics *)

Lemma dict_incr_chunks_keys (k : pyval) (docs : list (pyval * DocumentEntry)) :
  (dict_incr_chunks k docs).*1 = docs.*1.
Proof.
  induction docs as [|[k' e] docs IH]; [reflexivity|]. simpl.
  case_bool_decide; [reflexivity|]. rewrite fmap_cons. simpl. by rewrite IH.
Qed.

Lemma sum_chunks_cons (e : DocumentEntry) (entries : list DocumentEntry) :
  sum_chunks (e :: entries) = d_chunks e + sum_chunks entries.
Proof. reflexivity. Qed.

Lemma sum_chunks_app (entries entries' : list DocumentEntry) :
  sum_chunks (entries ++ entries') = sum_chunks entries + sum_chunks entries'.
Proof.
  induction entries as [|e entries IH]; [unfold sum_chunks; simpl; lia|].
  rewrite <- app_comm_cons, !sum_chunks_cons, IH. lia.
Qed.

Lemma dict_incr_chunks_sum (k : pyval) (docs : list (pyval * DocumentEntry)) :
  k ∈ docs.*1 ->
  sum_chunks (dict_incr_chunks k docs).*2 = sum_chunks docs.*2 + 1.
Proof.
  induction docs as [|[k' e] docs IH]; intros Hk.
  - by apply elem_of_nil in Hk.
  - cbn [dict_incr_chunks]. case_bool_decide as Heq.
    + rewrite !fmap_cons, !sum_chunks_cons. cbn [snd d_chunks]. lia.
    + rewrite fmap_cons in Hk. apply elem_of_cons in Hk as [Hk|Hk]; [simpl in Hk; congruence|].
      rewrite !fmap_cons, !sum_chunks_cons, IH by exact Hk. cbn [snd]. lia.
Qed.

Lemma add_chunks_0 (e : DocumentEntry) : add_chunks 0 e = e.
Proof. destruct e. unfold add_chunks. simpl. f_equal. lia. Qed.

Lemma add_chunks_add (n m : Z) (e : DocumentEntry) :
  add_chunks n (add_chunks m e) = add_chunks (m + n) e.
Proof. unfold add_chunks. simpl. f_equal. lia. Qed.

Lemma dict_get_incr (k k0 : pyval) (docs : list (pyval * DocumentEntry)) :
  dict_get k (dict_incr_chunks k0 docs)
  = (fun e => if bool_decide (k = k0) then add_chunks 1 e else e) <$> dict_get k docs.
Proof.
  induction docs as [|[k' e] docs IH]; [reflexivity|]. simpl.
  destruct (bool_decide (k' = k0)) eqn:H0; simpl.
  - apply bool_decide_eq_true in H0 as ->.
    destruct (bool_decide (k0 = k)) eqn:H1; simpl.
    + apply bool_decide_eq_true in H1 as ->. by rewrite bool_decide_eq_true_2.
    + apply bool_decide_eq_false in H1. rewrite bool_decide_eq_false_2 by congruence.
      by destruct (dict_get k docs).
  - apply bool_decide_eq_false in H0.
    destruct (bool_decide (k' = k)) eqn:H1; simpl.
    + apply bool_decide_eq_true in H1 as ->.
      by rewrite bool_decide_eq_false_2 by congruence.
    + exact IH.
Qed.

Lemma dict_get_None (k : pyval) (docs : list (pyval * DocumentEntry)) :
  dict_get k docs = None <-> k ∉ docs.*1.
Proof.
  induction docs as [|[k' e] docs IH]; cbn [dict_get].
  - split; [intros _ H; by apply elem_of_nil in H|reflexivity].
  - rewrite fmap_cons, not_elem_of_cons. cbn [fst]. case_bool_decide as Heq.
    + split; [discriminate|]. intros [H _]. congruence.
    + rewrite IH. split; [intros H; split; congruence|tauto].
Qed.

Lemma dict_get_app (k : pyval) (docs docs' : list (pyval * DocumentEntry)) :
  dict_get k (docs ++ docs')
  = match dict_get k docs with Some e => Some e | None => dict_get k docs' end.
Proof.
  induction docs as [|[k' e] docs IH]; [reflexivity|]. simpl.
  by case_bool_decide.
Qed.

Lemma dict_get_elem (k : pyval) (e : DocumentEntry)
    (docs : list (pyval * DocumentEntry)) :
  NoDup docs.*1 -> (k, e) ∈ docs -> dict_get k docs = Some e.
Proof.
  induction docs as [|[k' e'] docs IH]; intros Hnd Hin.
  - by apply elem_of_nil in Hin.
  - rewrite fmap_cons in Hnd. inversion Hnd as [|? ? Hfresh Hnd']; subst.
    simpl. apply elem_of_cons in Hin as [[= <- <-]|Hin].
    + by rewrite bool_decide_eq_true_2.
    + case_bool_decide as Heq; [|by apply IH].
      subst k'. exfalso. apply Hfresh. simpl.
      apply list_elem_of_fmap. by exists (k, e).
Qed.

Lemma points_of_key_cons (k : pyval) (p : PointStruct) (points : list PointStruct) :
  len (points_of_key k (p :: points))
  = (if bool_decide (stats_key p = k) then 1 else 0) + len (points_of_key k points).
Proof.
  unfold points_of_key, len. simpl. case_bool_decide; simpl length; lia.
Qed.

(** The loop of [get_document_stats]: what it adds to the counter, to the
    keys and to every entry. *)
Lemma stats_loop_spec (points : list PointStruct) :
  forall (docs : list (pyval * DocumentEntry)) (total : Z),
    NoDup docs.*1 ->
    exists docs',
      stats_loop points docs total = (docs', total + len points)
      /\ NoDup docs'.*1
      /\ sum_chunks docs'.*2 = sum_chunks docs.*2 + len points
      /\ (forall k, k ∈ docs'.*1 <->
            k ∈ docs.*1 \/ exists p, p ∈ points /\ stats_key p = k)
      /\ forall k,
           dict_get k docs'
           = match dict_get k docs with
             | Some e => Some (add_chunks (len (points_of_key k points)) e)
             | None =>
                 (fun p => add_chunks (len (points_of_key k points)) (first_entry p))
                   <$> first_point k points
             end.
Proof.
  induction points as [|p points IH]; intros docs total Hnd.
  - exists docs. unfold len. simpl. rewrite !Z.add_0_r.
    repeat split; try assumption.
    + intros Hk. by left.
    + intros [Hk|(p & Hp & _)]; [exact Hk|by apply elem_of_nil in Hp].
    + intros k. destruct (dict_get k docs); [by rewrite add_chunks_0|reflexivity].
  - cbn [stats_loop]. fold (stats_key p).
    change {| d_name := default (VStr (lit "unknown")) (p_payload p !! lit "document_name");
              d_chunks := 0;
              d_file_type := default (VStr (lit "unknown")) (p_payload p !! lit "file_type");
              d_upload_time := default (VStr (lit "unknown")) (p_payload p !! lit "upload_time") |}
      with (first_entry p).
    set (docs1 := if bool_decide (stats_key p ∈ docs.*1) then docs else docs ++ _).
    assert (Hkeys1 : NoDup docs1.*1 /\ stats_key p ∈ docs1.*1
                     /\ sum_chunks docs1.*2 = sum_chunks docs.*2
                     /\ (forall k, k ∈ docs1.*1 <-> k ∈ docs.*1 \/ k = stats_key p)
                     /\ forall k, dict_get k docs1
                          = match dict_get k docs with
                            | Some e => Some e
                            | None => if bool_decide (stats_key p = k)
                                      then Some (first_entry p) else None
                            end).
    { subst docs1. case_bool_decide as Hin.
      - repeat split; try assumption; try tauto.
        + intros [H| ->]; assumption.
        + intros k. destruct (dict_get k docs) as [e|] eqn:Hget; [reflexivity|].
          apply dict_get_None in Hget.
          rewrite bool_decide_eq_false_2; [reflexivity|]. congruence.
      - rewrite !fmap_app. simpl. repeat split.
        + apply list.NoDup_app. split; [exact Hnd|]. split.
          * intros k Hk Hk'. apply list_elem_of_singleton in Hk'. congruence.
          * apply NoDup_singleton.
        + apply elem_of_app. right. constructor.
        + rewrite sum_chunks_app, sum_chunks_cons. cbn [d_chunks first_entry].
          unfold sum_chunks. simpl. lia.
        + intros Hk. apply elem_of_app in Hk as [Hk|Hk]; [by left|].
          right. by apply list_elem_of_singleton in Hk.
        + intros [Hk| ->]; apply elem_of_app; [by left|right; constructor].
        + intros k. rewrite dict_get_app. simpl.
          destruct (dict_get k docs); [reflexivity|]. by case_bool_decide. }
    destruct Hkeys1 as (Hnd1 & Hin1 & Hsum1 & Hk1 & Hget1).
    destruct (IH (dict_incr_chunks (stats_key p) docs1) (total + 1))
      as (docs' & Hrun & Hnd' & Hsum' & Hk' & Hget').
    { by rewrite dict_incr_chunks_keys. }
    exists docs'. split.
    { rewrite Hrun. f_equal. unfold len. simpl length. lia. }
    split; [exact Hnd'|]. split.
    { rewrite Hsum', dict_incr_chunks_sum, Hsum1 by exact Hin1.
      unfold len. simpl length. lia. }
    split.
    { intros k. rewrite Hk', dict_incr_chunks_keys, Hk1. split.
      - intros [[H|H]|(q & Hq & Hkq)]; [by left|right|right].
        + exists p. split; [constructor|by symmetry].
        + exists q. split; [by constructor|exact Hkq].
      - intros [H|(q & Hq & Hkq)]; [by left; left|].
        apply elem_of_cons in Hq as [->|Hq]; [left; right; by symmetry|].
        right. by exists q. }
    intros k. rewrite Hget', dict_get_incr, Hget1, points_of_key_cons.
    rewrite (bool_decide_ext (k = stats_key p) (stats_key p = k)) by (split; congruence).
    unfold first_point. cbn [List.find].
    destruct (dict_get k docs) as [e|];
      destruct (bool_decide (stats_key p = k));
      cbn [fmap option_fmap option_map];
      rewrite ?add_chunks_add, ?Z.add_0_l; reflexivity.
Qed.

(** The loop run on two lists in a row. *)
Lemma stats_loop_app (points points' : list PointStruct) :
  forall (docs : list (pyval * DocumentEntry)) (total : Z),
    stats_loop (points ++ points') docs total
    = stats_loop points' (stats_loop points docs total).1
        (stats_loop points docs total).2.
Proof.
  induction points as [|p points IH]; intros docs total; [reflexivity|].
  rewrite <- app_comm_cons. cbn [stats_loop]. apply IH.
Qed.

(** What [get_document_stats] answers for an existing collection. *)
Lemma get_document_stats_run (self : VectorDatabase) (s : State)
    (stored : list PointStruct) :
  client s !! collection_name self = Some stored ->
  get_document_stats self s
  = (Ok {| total_documents := len (stats_loop (take 1000 stored) [] 0).1;
           total_chunks := (stats_loop (take 1000 stored) [] 0).2;
           total_vectors := len stored;
           documents := (stats_loop (take 1000 stored) [] 0).1.*2 |}, s).
Proof.
  intros H. unfold get_document_stats, try_except, bind, ret,
    client_get_collection, client_scroll. rewrite H. cbn beta iota.
  by destruct (stats_loop (take 1000 stored) [] 0).
Qed.

(** X8: the statistics of an existing collection.  They never fail and
    change nothing; [total_vectors] is the number of stored points, while
    [total_chunks] and the documents are counted over one page of at most
    1000 points, so [total_chunks] is the smaller of 1000 and the number of
    points; the entries have pairwise different keys, each counts at least
    one chunk, and their chunks add up to [total_chunks].  For a collection
    of at most 1000 points there is exactly one entry for each distinct
    [document_id] (points without one are gathered under [unknown]); it
    counts the points of that document and shows the name, type and time of
    one of them. *)
Theorem get_document_stats_counts (self : VectorDatabase) (s : State)
    (stored : list PointStruct) :
  client s !! collection_name self = Some stored ->
  exists st docs,
    get_document_stats self s = (Ok st, s)
    /\ total_vectors st = len stored
    /\ total_chunks st = Z.min 1000 (len stored)
    /\ documents st = docs.*2
    /\ total_documents st = len docs
    /\ NoDup docs.*1
    /\ sum_chunks (documents st) = total_chunks st
    /\ (forall k e, (k, e) ∈ docs -> 0 < d_chunks e)
    /\ (len stored <= 1000 ->
        (forall k, k ∈ docs.*1 <-> exists p, p ∈ stored /\ stats_key p = k)
        /\ forall k e, (k, e) ∈ docs ->
             d_chunks e = len (points_of_key k stored)
             /\ exists p, p ∈ stored /\ stats_key p = k
                  /\ d_name e = d_name (first_entry p)
                  /\ d_file_type e = d_file_type (first_entry p)
                  /\ d_upload_time e = d_upload_time (first_entry p)).
Proof.
  intros Hstored.
  destruct (stats_loop_spec (take 1000 stored) [] 0 NoDup_nil_2)
    as (docs & Hrun & Hnd & Hsum & Hkeys & Hget).
  assert (Hentry : forall k e, (k, e) ∈ docs ->
            exists p, first_point k (take 1000 stored) = Some p
              /\ e = add_chunks (len (points_of_key k (take 1000 stored))) (first_entry p)
              /\ 0 < len (points_of_key k (take 1000 stored))).
  { intros k e Hin. pose proof (dict_get_elem _ _ _ Hnd Hin) as He.
    rewrite Hget in He. cbn [dict_get] in He.
    destruct (first_point k (take 1000 stored)) as [p|] eqn:Hfirst; [|discriminate].
    injection He as <-. exists p. split; [reflexivity|]. split; [reflexivity|].
    apply List.find_some in Hfirst as [Hp Hk].
    assert (List.In p (points_of_key k (take 1000 stored))) as Hcount.
    { apply List.filter_In. by split. }
    unfold len. destruct (points_of_key k (take 1000 stored)); [destruct Hcount|simpl; lia]. }
  eexists. exists docs. split; [by apply get_document_stats_run|].
  rewrite Hrun. cbn [total_vectors total_chunks documents total_documents fst snd].
  split; [reflexivity|]. split.
  { unfold len. rewrite length_take. lia. }
  split; [reflexivity|]. split; [reflexivity|]. split; [exact Hnd|]. split.
  { rewrite Hsum. unfold sum_chunks at 1. simpl. lia. }
  split.
  { intros k e Hin. destruct (Hentry k e Hin) as (p & _ & -> & Hpos).
    cbn [add_chunks d_chunks first_entry]. lia. }
  intros Hfits.
  assert (Hall : take 1000 stored = stored) by (apply take_ge; unfold len in Hfits; lia).
  rewrite Hall in *. split.
  { intros k. rewrite Hkeys. split; [intros [H|H]; [by apply elem_of_nil in H|exact H]|by right]. }
  intros k e Hin. destruct (Hentry k e Hin) as (p & Hfirst & -> & _).
  cbn [add_chunks d_chunks d_name d_file_type d_upload_time first_entry].
  split; [lia|]. exists p.
  apply List.find_some in Hfirst as [Hp Hk]. apply bool_decide_eq_true in Hk.
  split; [by apply list_elem_of_In|]. by repeat split.
Qed.

(** Without the collection the statistics are the all-zero dictionary. *)
Lemma get_document_stats_without_collection (self : VectorDatabase) (s : State) :
  client s !! collection_name self = None ->
  get_document_stats self s = (Ok empty_stats, s).
Proof.
  intros H. unfold get_document_stats, try_except, bind, ret,
    client_get_collection, client_scroll, collection_not_found. by rewrite H.
Qed.

(** ** A new document in the statistics *)

Lemma dict_incr_chunks_last (k : pyval) (e : DocumentEntry)
    (docs : list (pyval * DocumentEntry)) :
  k ∉ docs.*1 ->
  dict_incr_chunks k (docs ++ [(k, e)]) = docs ++ [(k, add_chunks 1 e)].
Proof.
  induction docs as [|[k' e'] docs IH]; intros Hk.
  - cbn [app dict_incr_chunks]. by rewrite bool_decide_eq_true_2.
  - rewrite fmap_cons in Hk. apply not_elem_of_cons in Hk as [Hne Hk].
    rewrite <- !app_comm_cons. cbn [dict_incr_chunks].
    rewrite bool_decide_eq_false_2 by (cbn [fst] in Hne; congruence).
    by rewrite IH.
Qed.

(** Points of one document whose entry is the last one only raise its
    count. *)
Lemma stats_loop_same_key (k : pyval) (points : list PointStruct) :
  forall (docs : list (pyval * DocumentEntry)) (e : DocumentEntry) (total : Z),
    k ∉ docs.*1 ->
    (forall p, p ∈ points -> stats_key p = k) ->
    stats_loop points (docs ++ [(k, e)]) total
    = (docs ++ [(k, add_chunks (len points) e)], total + len points).
Proof.
  induction points as [|p points IH]; intros docs e total Hk Hall.
  - unfold len. simpl. by rewrite add_chunks_0, Z.add_0_r.
  - cbn [stats_loop]. fold (stats_key p). rewrite (Hall p) by constructor.
    rewrite bool_decide_eq_true_2.
    2:{ rewrite fmap_app. apply elem_of_app. right. constructor. }
    rewrite dict_incr_chunks_last by exact Hk.
    rewrite IH; [|exact Hk|intros q Hq; apply Hall; by constructor].
    rewrite add_chunks_add.
    replace (len (p :: points)) with (1 + len points) by (unfold len; simpl length; lia).
    by rewrite Z.add_assoc.
Qed.

(** Points of one document that has no entry yet add one entry at the end,
    made from the first point. *)
Lemma stats_loop_new_key (k : pyval) (p : PointStruct) (points : list PointStruct)
    (docs : list (pyval * DocumentEntry)) (total : Z) :
  k ∉ docs.*1 ->
  (forall q, q ∈ p :: points -> stats_key q = k) ->
  stats_loop (p :: points) docs total
  = (docs ++ [(k, add_chunks (len (p :: points)) (first_entry p))],
     total + len (p :: points)).
Proof.
  intros Hk Hall. cbn [stats_loop]. fold (stats_key p).
  rewrite (Hall p) by constructor. rewrite bool_decide_eq_false_2 by exact Hk.
  change {| d_name := default (VStr (lit "unknown")) (p_payload p !! lit "document_name");
            d_chunks := 0;
            d_file_type := default (VStr (lit "unknown")) (p_payload p !! lit "file_type");
            d_upload_time := default (VStr (lit "unknown")) (p_payload p !! lit "upload_time") |}
    with (first_entry p).
  rewrite dict_incr_chunks_last by exact Hk.
  rewrite stats_loop_same_key; [|exact Hk|intros q Hq; apply Hall; by constructor].
  rewrite add_chunks_add.
  replace (len (p :: points)) with (1 + len points) by (unfold len; simpl length; lia).
  by rewrite Z.add_assoc.
Qed.

(** X9: after a successful [add_document] the statistics show the document:
    as long as the collection holds at most 1000 points afterwards, the
    documents are those from before the add and one more entry, which
    carries the file name and type of the metadata and counts exactly the
    chunks added; all three totals grow accordingly. *)
Theorem add_document_shows_in_stats (L : Libs) (self : VectorDatabase)
    (text : str) (metadata : DocMetadata) (s s' : State) (r : AddResult)
    (stored : list PointStruct) :
  (forall j k, uuid4 L j = uuid4 L k -> j = k) ->
  uuid4 L (uuid_calls s) <> lit "unknown" ->
  (forall k, k ∈ payload_keys -> default ∅ (md_extra_metadata metadata) !! k = None) ->
  store_ok L (collection_name self) s ->
  client s !! collection_name self = Some stored ->
  add_document L self text metadata s = (Ok r, s') ->
  a_success r = true ->
  len stored + a_chunks_added r <= 1000 ->
  exists st st' e,
    get_document_stats self s = (Ok st, s)
    /\ get_document_stats self s' = (Ok st', s')
    /\ documents st' ≡ₚ e :: documents st
    /\ d_name e = VStr (default (lit "unknown") (md_filename metadata))
    /\ d_file_type e = VStr (default (lit "unknown") (md_file_type metadata))
    /\ d_chunks e = a_chunks_added r
    /\ total_documents st' = total_documents st + 1
    /\ total_chunks st' = total_chunks st + a_chunks_added r
    /\ total_vectors st' = total_vectors st + a_chunks_added r.
Proof.
  intros Hinj Hunknown Hfree Hok Hstored Hrun Hsucc Hbound.
  destruct (add_document_run L self text metadata s)
    as [(msg & s1 & Hrun' & _)|(chunks & stored' & _ & Hne & _ & Hstored' & Hrun')];
    rewrite Hrun' in Hrun.
  { injection Hrun as <- _. discriminate. }
  rewrite Hstored in Hstored'. injection Hstored' as <-.
  injection Hrun as <- <-. clear Hsucc Hrun'. cbn [a_chunks_added] in *.
  destruct (Hok stored Hstored) as [Hnodup Hissued].
  destruct (new_points_appended L metadata (uuid4 L (uuid_calls s)) (len chunks)
              (zip chunks (List.map (st_embed L) chunks)) 0 (S (uuid_calls s))
              (uuid_calls s) (clock_calls s) stored Hinj ltac:(lia) Hnodup)
    as [Happ _].
  { intros p Hp. by destruct (Hissued p Hp) as [? _]. }
  set (points := new_points L metadata (uuid4 L (uuid_calls s)) (len chunks)
                   (zip chunks (List.map (st_embed L) chunks)) 0
                   (S (uuid_calls s)) (clock_calls s)) in *.
  assert (Hlen : len points = len chunks).
  { unfold len, points, new_points.
    by rewrite length_imap, length_zip, length_map, Nat.min_id. }
  assert (Hpayload : forall p, p ∈ points ->
            p_payload p !! lit "document_id" = Some (VStr (uuid4 L (uuid_calls s)))
            /\ p_payload p !! lit "document_name"
               = Some (VStr (default (lit "unknown") (md_filename metadata)))
            /\ p_payload p !! lit "file_type"
               = Some (VStr (default (lit "unknown") (md_file_type metadata)))).
  { intros p Hp.
    apply new_points_elem in Hp as (j & chunk & embedding & _ & _ & _ & ->).
    destruct (make_payload_fixed chunk (0 + Z.of_nat j) (uuid4 L (uuid_calls s))
                metadata (now_isoformat L (clock_calls s + j)) (len chunks) Hfree)
      as (_ & _ & Hid & Hname & Htype & _).
    by repeat split. }
  destruct (stats_loop_spec stored [] 0 NoDup_nil_2)
    as (docs0 & Hrun0 & _ & _ & Hkeys0 & _).
  assert (Hnew : VStr (uuid4 L (uuid_calls s)) ∉ docs0.*1).
  { intros Hin. apply Hkeys0 in Hin as [Hin|(p & Hp & Hkey)]; [by apply elem_of_nil in Hin|].
    unfold stats_key in Hkey. destruct (Hissued p Hp) as [_ Hdoc].
    destruct (p_payload p !! lit "document_id") as [v|] eqn:Hv; simpl in Hkey.
    - subst v. destruct (Hdoc _ eq_refl) as (k & Hk & Heq). apply Hinj in Heq. lia.
    - injection Hkey as Hkey. by apply Hunknown. }
  assert (Hloop : exists e,
            stats_loop points docs0 (0 + len stored)
            = (docs0 ++ [(VStr (uuid4 L (uuid_calls s)), e)], 0 + len stored + len points)
            /\ d_name e = VStr (default (lit "unknown") (md_filename metadata))
            /\ d_file_type e = VStr (default (lit "unknown") (md_file_type metadata))
            /\ d_chunks e = len points).
  { clearbody points. destruct points as [|p0 points0].
    { exfalso. unfold len in Hlen. destruct chunks; [congruence|discriminate]. }
    eexists. split.
    - apply stats_loop_new_key; [exact Hnew|].
      intros q Hq. unfold stats_key. by destruct (Hpayload q Hq) as (-> & _).
    - destruct (Hpayload p0) as (_ & Hname & Htype); [constructor|].
      cbn [add_chunks first_entry d_name d_file_type d_chunks].
      rewrite Hname, Htype. cbn [default]. repeat split; lia. }
  destruct Hloop as (e & Hloop & Hname & Htype & Hcount).
  pose proof (get_document_stats_run self s stored Hstored) as Hst.
  pose proof (get_document_stats_run self
                {| client := <[collection_name self :=
                                 foldl (fun acc p => upsert_point p acc) stored points]>
                               (client s);
                   conversation_history := conversation_history s;
                   uuid_calls := S (uuid_calls s) + length chunks;
                   clock_calls := clock_calls s + length chunks;
                   encode_calls := encode_calls s ++ [chunks] |}
                (stored ++ points)) as Hst'.
  cbn [client] in Hst'. rewrite lookup_insert_eq, Happ in Hst'.
  specialize (Hst' eq_refl).
  rewrite take_ge in Hst by (unfold len in *; lia).
  rewrite take_ge in Hst' by (unfold len in *; rewrite length_app; lia).
  rewrite stats_loop_app, Hrun0 in Hst'. cbn [fst snd] in Hst'.
  rewrite Hloop in Hst'. cbn [fst snd] in Hst'.
  rewrite Hrun0 in Hst. cbn [fst snd] in Hst.
  eexists _, _, e. rewrite Happ. split; [exact Hst|]. split; [exact Hst'|].
  cbn [documents total_documents total_chunks total_vectors].
  rewrite fmap_app. split; [symmetry; apply Permutation_cons_append|].
  split; [exact Hname|]. split; [exact Htype|]. split; [lia|].
  unfold len in *. rewrite !length_app. simpl length. repeat split; lia.
Qed.

(** ** The chunker under any configuration *)

Lemma slice_infix {A} (l : list A) (lo hi : Z) :
  exists before after, l = before ++ slice l lo hi ++ after.
Proof.
  unfold slice.
  set (m := Z.to_nat (clamp_index (len l) lo)).
  set (n := Z.to_nat (clamp_index (len l) hi - clamp_index (len l) lo)).
  exists (take m l), (drop n (drop m l)).
  by rewrite take_drop, take_drop.
Qed.

Lemma slice_words (words : list str) (lo hi : Z) :
  Forall is_word words -> Forall is_word (slice words lo hi).
Proof. intros H. unfold slice. by apply Forall_take, Forall_drop. Qed.

Lemma py_range_from_0 (stop step : Z) (idxs : list Z) :
  0 <= stop ->
  py_range 0 stop step = Ok idxs -> Forall (fun i => 0 <= i) idxs.
Proof.
  intros Hstop. unfold py_range, range_len. destruct (step =? 0); [discriminate|].
  intros [= <-]. destruct (Z.ltb_spec 0 step) as [Hpos|Hneg].
  - apply List.Forall_forall. intros i (k & <- & _)%List.in_map_iff. nia.
  - destruct (Z.ltb_spec stop 0) as [Hlt|_]; [lia|constructor].
Qed.

Lemma chunk_loop_chunks (words : list str) (chunk_size : Z) (idxs : list Z) :
  Forall is_word words ->
  Forall (fun i => 0 <= i) idxs ->
  forall acc,
    Forall (chunk_of words chunk_size) acc ->
    Forall (chunk_of words chunk_size) (chunk_loop words chunk_size idxs acc).
Proof.
  intros Hwords Hidxs. induction Hidxs as [|i idxs Hi _ IH]; intros acc Hacc; [exact Hacc|].
  cbn [chunk_loop].
  set (ws := slice words i (i + chunk_size)).
  assert (Hacc' : Forall (chunk_of words chunk_size)
            (if truthy (strip (join (lit " ") ws))
             then acc ++ [strip (join (lit " ") ws)] else acc)).
  { destruct (truthy (strip (join (lit " ") ws))) eqn:Htruthy; [|exact Hacc].
    apply Forall_app. split; [exact Hacc|]. constructor; [|constructor].
    assert (Hws : Forall is_word ws) by (by apply slice_words).
    assert (Hne : ws <> []).
    { intros Hnil. rewrite Hnil in Htruthy. discriminate. }
    destruct (strip_join_words ws Hws Hne) as [Hstrip Hjoin].
    unfold chunk_of. rewrite Hstrip, Hstrip. rewrite split_join by exact Hws.
    split; [exact Hjoin|]. split; [apply slice_infix|].
    intros Hsize. unfold ws. rewrite slice_window by lia.
    unfold len. rewrite length_take. lia. }
  destruct (len words <=? i + chunk_size); [exact Hacc'|by apply IH].
Qed.

Lemma chunk_text_chunks (text : str) (chunk_size overlap : Z)
    (chunks : list str) :
  chunk_text text chunk_size overlap = Ok chunks ->
  Forall (chunk_of (split text) chunk_size) chunks.
Proof.
  unfold chunk_text. destruct (truthy (strip text)) eqn:Htruthy; simpl.
  2:{ intros [= <-]. constructor. }
  destruct (Z.leb_spec (len (split text)) chunk_size) as [Hfew|Hmany].
  { intros [= <-]. constructor; [|constructor]. split; [by apply truthy_true|].
    split; [|intros _; exact Hfew]. exists [], []. by rewrite app_nil_r. }
  destruct (py_range 0 (len (split text)) (chunk_size - overlap)) as [idxs|e] eqn:Hrange;
    [|discriminate].
  intros [= <-]. apply chunk_loop_chunks.
  - apply split_words.
  - eapply py_range_from_0; [|exact Hrange]. unfold len. lia.
  - constructor.
Qed.

(** X10: whatever the configuration, the chunks [chunk_text] returns are sound:
    none is blank, the words of each are consecutive words of the text in
    their order, and no chunk has more than [chunk_size] words unless that
    size is negative. *)
Theorem chunk_text_chunks_sound (text : str) (chunk_size overlap : Z)
    (chunks : list str) :
  chunk_text text chunk_size overlap = Ok chunks ->
  Forall (chunk_of (split text) chunk_size) chunks.
Proof. apply chunk_text_chunks. Qed.

(** ** Stripping twice, and the lines of a text *)

Lemma lstrip_fixed (s : str) :
  (forall c s', s = c :: s' -> isspace c = false) -> lstrip s = s.
Proof.
  destruct s as [|c s]; [reflexivity|]. intros H. simpl.
  by rewrite (H c s eq_refl).
Qed.

Lemma lstrip_lstrip (s : str) : lstrip (lstrip s) = lstrip s.
Proof. apply lstrip_fixed. intros c s'. apply lstrip_head. Qed.

Lemma lstrip_suffix (s : str) : exists pre, s = pre ++ lstrip s.
Proof.
  induction s as [|c s [pre IH]]; [by exists []|]. simpl.
  destruct (isspace c); [|by exists []].
  exists (c :: pre). simpl. by rewrite <- IH.
Qed.

Lemma rstrip_prefix (s : str) : exists post, s = rstrip s ++ post.
Proof.
  unfold rstrip. destruct (lstrip_suffix (reverse s)) as [pre Hpre].
  exists (reverse pre). rewrite <- reverse_app, <- Hpre. by rewrite reverse_involutive.
Qed.

Lemma rstrip_rstrip (s : str) : rstrip (rstrip s) = rstrip s.
Proof. unfold rstrip. by rewrite reverse_involutive, lstrip_lstrip. Qed.

(** [strip] changes nothing in a string that is already stripped. *)
Lemma strip_strip (s : str) : strip (strip s) = strip s.
Proof.
  unfold strip. rewrite (lstrip_fixed (rstrip (lstrip s))); [apply rstrip_rstrip|].
  intros c s' Hc. destruct (rstrip_prefix (lstrip s)) as [post Hpost].
  rewrite Hc in Hpost. by apply lstrip_head in Hpost.
Qed.

Lemma islinebreak_isspace (c : N) : islinebreak c = true -> isspace c = true.
Proof.
  unfold islinebreak, isspace. intros H.
  repeat match type of H with
         | (_ || _)%bool = true => apply orb_true_iff in H as [H|H]
         | (_ && _)%bool = true => apply andb_true_iff in H as [? ?]
         end;
    repeat match goal with
           | H : (_ <=? _)%N = true |- _ => apply N.leb_le in H
           | H : (_ =? _)%N = true |- _ => apply N.eqb_eq in H
           end;
    repeat (apply orb_true_iff; first
              [ left; apply andb_true_iff; split; apply N.leb_le; lia
              | left; apply N.eqb_eq; lia
              | right; apply andb_true_iff; split; apply N.leb_le; lia
              | right; apply N.eqb_eq; lia
              | left ]).
Qed.

(** A text that is not blank has a line that is not blank. *)
Lemma splitlines_from_visible (n : nat) :
  forall (s cur : str),
    (length s <= n)%nat ->
    forallb isspace (cur ++ s) = false ->
    exists line, line ∈ splitlines_from cur s /\ forallb isspace line = false.
Proof.
  induction n as [|n IH]; intros s cur Hlen Hvis.
  - destruct s; [|simpl in Hlen; lia]. rewrite app_nil_r in Hvis.
    cbn [splitlines_from]. destruct cur as [|d cur]; [discriminate|].
    exists (d :: cur). split; [constructor|exact Hvis].
  - destruct s as [|c s].
    { rewrite app_nil_r in Hvis. cbn [splitlines_from].
      destruct cur as [|d cur]; [discriminate|].
      exists (d :: cur). split; [constructor|exact Hvis]. }
    simpl in Hlen.
    assert (Hbreak : isspace c = true ->
              forall rest, (length rest <= n)%nat ->
                (forallb isspace cur = true -> forallb isspace rest = false) ->
                exists line, line ∈ cur :: splitlines_from [] rest
                             /\ forallb isspace line = false).
    { intros Hc rest Hrest Himp.
      destruct (forallb isspace cur) eqn:Hcur.
      - destruct (IH rest [] Hrest (Himp eq_refl)) as (line & Hline & Hv).
        exists line. split; [by constructor|exact Hv].
      - exists cur. split; [constructor|exact Hcur]. }
    rewrite forallb_app in Hvis. cbn [forallb] in Hvis.
    cbn [splitlines_from].
    destruct (N.eqb_spec c 13) as [->|Hcr].
    + change (isspace 13) with true in *. cbn [andb] in Hvis.
      destruct s as [|c' s'].
      * apply (Hbreak eq_refl []); [simpl; lia|].
        intros Hcur. rewrite Hcur in Hvis. discriminate.
      * destruct (N.eqb_spec c' 10) as [->|Hlf].
        -- apply (Hbreak eq_refl s'); [simpl in Hlen; lia|].
           intros Hcur. rewrite Hcur in Hvis. exact Hvis.
        -- apply (Hbreak eq_refl (c' :: s')); [simpl in *; lia|].
           intros Hcur. rewrite Hcur in Hvis. exact Hvis.
    + destruct (islinebreak c) eqn:Hlb.
      * pose proof (islinebreak_isspace c Hlb) as Hc. rewrite Hc in Hvis.
        apply (Hbreak Hc s); [lia|].
        intros Hcur. rewrite Hcur in Hvis. exact Hvis.
      * apply IH; [lia|].
        rewrite <- app_assoc, forallb_app. exact Hvis.
Qed.

Lemma splitlines_visible (text : str) :
  strip text <> [] ->
  List.filter (fun line => truthy (strip line)) (splitlines text) <> [].
Proof.
  intros Hvis.
  assert (Hf : forallb isspace text = false).
  { destruct (forallb isspace text) eqn:E; [|reflexivity].
    by apply strip_nil_iff in E. }
  destruct (splitlines_from_visible (length text) text [] (le_n _) Hf)
    as (line & Hline & Hv).
  intros Hnil.
  assert (Hin : List.In line (List.filter (fun line => truthy (strip line)) (splitlines text))).
  { apply List.filter_In. split; [by apply list_elem_of_In|].
    apply truthy_true. intros E. apply strip_nil_iff in E. congruence. }
  rewrite Hnil in Hin. destruct Hin.
Qed.

(** ** PDF files *)

Lemma pdf_page_condition (page_text : str) :
  truthy page_text && truthy (strip page_text) = truthy (strip page_text).
Proof. by destruct page_text. Qed.

Lemma pages_text_cons (first : Z) (page : outcome str) (pages : list (outcome str)) :
  PdfSpec.pages_text first (page :: pages)
  = PdfSpec.page_block first page ++ PdfSpec.pages_text (first + 1) pages.
Proof.
  unfold PdfSpec.pages_text. rewrite imap_cons. cbn [concat].
  rewrite Z.add_0_r. do 2 f_equal. apply imap_ext. intros i x _. simpl.
  f_equal. lia.
Qed.

(** The page loop builds the text of the marked pages after what it was
    given. *)
Lemma pdf_pages_loop_spec (pages : list (outcome str)) :
  forall (page_num : Z) (text : str) (extracted_pages : Z),
    (pdf_pages_loop pages page_num text extracted_pages).1
    = text ++ PdfSpec.pages_text (page_num + 1) pages.
Proof.
  induction pages as [|page pages IH]; intros page_num text extracted_pages.
  - simpl. by rewrite app_nil_r.
  - cbn [pdf_pages_loop]. rewrite pages_text_cons.
    destruct page as [page_text|e]; cbn [PdfSpec.page_block].
    + rewrite pdf_page_condition. destruct (truthy (strip page_text)).
      * rewrite IH. by rewrite <- !app_assoc.
      * by rewrite IH.
    + by rewrite IH.
Qed.

Lemma pdf_metadata_eq (method : str) (pages : Z) (method0 : str) (pages0 : Z)
    (m : gmap str pyval) :
  <[lit "method" := VStr method]>
    (<[lit "pages" := VInt pages]>
       (<[lit "method" := VStr method0]> (<[lit "pages" := VInt pages0]> m)))
  = <[lit "method" := VStr method]> (<[lit "pages" := VInt pages]> m).
Proof.
  apply map_eq. intros k.
  destruct (decide (k = lit "method")) as [->|Hm].
  { by rewrite !lookup_insert_eq. }
  rewrite !(lookup_insert_ne _ (lit "method")) by congruence.
  destruct (decide (k = lit "pages")) as [->|Hp].
  { by rewrite !lookup_insert_eq. }
  by repeat (rewrite lookup_insert_ne by congruence).
Qed.

Lemma startswith_take {A} `{EqDecision A} (p s : list A) :
  startswith (take (length p) s) p = startswith s p.
Proof.
  revert s. induction p as [|a p IH]; intros s; [by destruct s|].
  destruct s as [|b s]; [reflexivity|]. simpl. case_decide; [apply IH|reflexivity].
Qed.

Lemma startswith_app {A} `{EqDecision A} (p s : list A) : startswith (p ++ s) p = true.
Proof. induction p as [|a p IH]; [by destruct s|]. simpl. by rewrite decide_True. Qed.

(** The three outcomes of [_extract_pdf_text] on a file with the PDF
    header. *)
Lemma pdf_text_cases (L : Libs) (fs : FileSystem) (file_path : str) (data : bytes) :
  fs !! file_path = Some data ->
  startswith data (blit "%PDF-") = true ->
  let first := PdfSpec.attempt (PyPDF2_PdfReader L data) in
  let second := PdfSpec.attempt (pypdf_PdfReader L data) in
  (strip first <> [] ->
   exists pages,
     PyPDF2_PdfReader L data = Ok pages
     /\ _extract_pdf_text L fs file_path
        = Ok (strip first, pdf_metadata (lit "PyPDF2") (len pages)))
  /\ (strip first = [] -> strip second <> [] ->
      exists pages,
        pypdf_PdfReader L data = Ok pages
        /\ _extract_pdf_text L fs file_path
           = Ok (strip second, pdf_metadata (lit "pypdf") (len pages)))
  /\ (strip first = [] -> strip second = [] ->
      exists e,
        _extract_pdf_text L fs file_path = Raise e
        /\ exn_cls e = Exception
        /\ startswith (exn_str e) (lit "Both PDF readers failed to extract text. ")
           = true).
Proof.
  intros Hfile Hheader first second.
  assert (Hdata : (len data =? 0) = false).
  { destruct data; [discriminate|]. reflexivity. }
  assert (Hhead : startswith (take 5 data) (blit "%PDF-") = true).
  { etransitivity; [apply (startswith_take (blit "%PDF-"))|exact Hheader]. }
  unfold _extract_pdf_text. rewrite Hfile, Hdata, Hhead. cbn [negb].
  subst first second. unfold PdfSpec.attempt, PdfSpec.render.
  assert (Hloop : forall pages, exists c,
            pdf_pages_loop pages 0 [] 0 = (PdfSpec.pages_text 1 pages, c)).
  { intros pages. pose proof (pdf_pages_loop_spec pages 0 [] 0) as H.
    destruct (pdf_pages_loop pages 0 [] 0) as [t c]. exists c. simpl in H. by subst t. }
  assert (Hnz : forall (page : outcome str) pages, (len (page :: pages) =? 0) = false)
    by reflexivity.
  destruct (PyPDF2_PdfReader L data) as [[|page1 pages1]|e1];
    destruct (pypdf_PdfReader L data) as [[|page2 pages2]|e2];
    change (len (@nil (outcome str)) =? 0) with true;
    rewrite ?Hnz; cbn beta iota;
    repeat match goal with
           | |- context [pdf_pages_loop ?pages 0 [] 0] =>
               let c := fresh "c" in let Hc := fresh "Hc" in
               destruct (Hloop pages) as [c Hc]; rewrite Hc; clear Hc c; cbn beta iota
           end;
    repeat match goal with
           | |- context [truthy (strip (PdfSpec.pages_text 1 ?pages))] =>
               let H := fresh "Htruthy" in
               destruct (truthy (strip (PdfSpec.pages_text 1 pages))) eqn:H; cbn beta iota
           end.
  all: change (PdfSpec.pages_text 1 []) with (@nil N).
  all: change (strip []) with (@nil N).
  all: cbn [truthy negb exn_str].
  all: (split; [|split]); intros; try congruence;
    repeat match goal with
           | H : truthy ?x = true, H' : ?x = [] |- _ => rewrite H' in H; discriminate
           | H : truthy ?x = false, H' : ?x <> [] |- _ => apply truthy_false in H; contradiction
           end.
  all: try (eexists; split; [reflexivity|]; do 2 f_equal; apply pdf_metadata_eq).
  all: repeat match goal with
              | |- context [if truthy ?x then _ else _] => destruct (truthy x)
              end.
  all: eexists; split; [reflexivity|]; split; [reflexivity|];
    cbn [exn_str]; rewrite <- ?app_assoc; apply startswith_app.
Qed.

(** The error of [_extract_pdf_text] on a file without the PDF header. *)
Lemma pdf_refused (L : Libs) (fs : FileSystem) (file_path : str) :
  match fs !! file_path with
  | Some data => startswith data (blit "%PDF-") = false
  | None => True
  end ->
  _extract_pdf_text L fs file_path
  = Raise (Exn Exception
             match fs !! file_path with
             | None => lit "PDF file not found: " ++ file_path
             | Some [] => lit "PDF file is empty (0 bytes)"
             | Some _ => lit "File is not a valid PDF (missing PDF header)"
             end).
Proof.
  unfold _extract_pdf_text. destruct (fs !! file_path) as [data|]; [|reflexivity].
  intros Hheader. destruct data as [|b data]; [reflexivity|].
  change (len (b :: data) =? 0) with false. cbn beta iota.
  assert (Hhead : startswith (take 5 (b :: data)) (blit "%PDF-") = false).
  { etransitivity; [apply (startswith_take (blit "%PDF-"))|exact Hheader]. }
  by rewrite Hhead.
Qed.



(** ** What a successful extraction delivers *)

Lemma pdf_metadata_ok (method : str) (pages : Z) :
  method = lit "PyPDF2" \/ method = lit "pypdf" ->
  extraction_metadata (pdf_metadata method pages).
Proof.
  intros Hmethod. unfold pdf_metadata. split.
  - exists method. split; [apply lookup_insert_eq|].
    destruct Hmethod as [->| ->]; apply list_elem_of_In; simpl; auto.
  - payload_key_free.
Qed.

Lemma extract_pdf_ok (L : Libs) (fs : FileSystem) (file_path : str)
    (text : str) (metadata : gmap str pyval) :
  _extract_pdf_text L fs file_path = Ok (text, metadata) ->
  (exists data, fs !! file_path = Some data /\ data <> [])
  /\ strip text = text
  /\ extraction_metadata metadata.
Proof.
  intros Hrun.
  destruct (fs !! file_path) as [data|] eqn:Hfile.
  2:{ rewrite (pdf_refused L) in Hrun by (by rewrite Hfile). discriminate. }
  destruct (startswith data (blit "%PDF-")) eqn:Hheader.
  2:{ rewrite (pdf_refused L) in Hrun by (by rewrite Hfile). discriminate. }
  split.
  { exists data. split; [reflexivity|]. intros ->. discriminate. }
  destruct (pdf_text_cases L fs file_path data Hfile Hheader) as (H1 & H2 & H3).
  destruct (decide (strip (PdfSpec.attempt (PyPDF2_PdfReader L data)) = [])) as [Hb1|Hv1].
  - destruct (decide (strip (PdfSpec.attempt (pypdf_PdfReader L data)) = [])) as [Hb2|Hv2].
    + destruct (H3 Hb1 Hb2) as (e & He & _). congruence.
    + destruct (H2 Hb1 Hv2) as (pages & _ & Hok). rewrite Hok in Hrun.
      injection Hrun as <- <-. split; [apply strip_strip|].
      apply pdf_metadata_ok. by right.
  - destruct (H1 Hv1) as (pages & _ & Hok). rewrite Hok in Hrun.
    injection Hrun as <- <-. split; [apply strip_strip|].
    apply pdf_metadata_ok. by left.
Qed.

Lemma docx_reraise_raises {A} (e : exn) : exists e', @docx_reraise A e = Raise e'.
Proof. unfold docx_reraise. destruct (contains _ _); eauto. Qed.

Lemma extract_docx_ok (L : Libs) (fs : FileSystem) (file_path : str)
    (text : str) (metadata : gmap str pyval) :
  _extract_docx_text L fs file_path = Ok (text, metadata) ->
  (exists data, fs !! file_path = Some data /\ data <> [])
  /\ strip text = text
  /\ extraction_metadata metadata.
Proof.
  assert (Hraise : forall e, @docx_reraise (str * gmap str pyval) e <> Ok (text, metadata)).
  { intros e. destruct (@docx_reraise_raises (str * gmap str pyval) e) as [e' ->]. discriminate. }
  unfold _extract_docx_text.
  destruct (fs !! file_path) as [data|]; [|by intros ?%Hraise].
  destruct data as [|b data]; [by intros ?%Hraise|].
  change (len (b :: data) =? 0) with false. cbn beta iota.
  destruct (docx_Document L (b :: data)) as [doc|e]; [|by intros ?%Hraise].
  destruct (docx_collect doc) as [[t paragraph_count] table_count].
  destruct (negb (truthy (strip t))); [by intros ?%Hraise|].
  intros [= <- <-]. split; [by eauto|]. split; [apply strip_strip|]. split.
  - eexists. split; [apply lookup_insert_eq|]. apply list_elem_of_In. simpl. auto.
  - payload_key_free.
Qed.

Lemma txt_loop_ok (L : Libs) (file_path : str) (data : bytes) (last : str)
    (encodings : list str) (text : str) (metadata : gmap str pyval) :
  txt_loop L file_path data encodings last = Ok (text, metadata) ->
  strip text = text /\ extraction_metadata metadata.
Proof.
  induction encodings as [|encoding encodings IH]; [discriminate|].
  cbn [txt_loop]. destruct (open_read L encoding file_path data) as [t|e].
  - intros [= <- <-]. split; [apply strip_strip|]. split.
    + eexists. split; [apply lookup_insert_eq|]. apply list_elem_of_In. simpl. auto.
    + payload_key_free.
  - destruct (decide (exn_cls e = UnicodeDecodeError)); [exact IH|].
    destruct (bool_decide (encoding = last)); [discriminate|exact IH].
Qed.

Lemma extract_txt_ok (L : Libs) (fs : FileSystem) (file_path : str)
    (text : str) (metadata : gmap str pyval) :
  _extract_txt_text L fs file_path = Ok (text, metadata) ->
  (exists data, fs !! file_path = Some data /\ (data = [] -> text = []))
  /\ strip text = text
  /\ extraction_metadata metadata.
Proof.
  unfold _extract_txt_text.
  destruct (fs !! file_path) as [data|]; [|discriminate].
  destruct data as [|b data].
  - intros [= <- <-]. split; [by eauto|]. split; [reflexivity|]. split.
    + eexists. split; [apply lookup_insert_eq|]. apply list_elem_of_In. simpl. auto.
    + payload_key_free.
  - change (len (b :: data) =? 0) with false. cbn beta iota.
    intros H%txt_loop_ok. split; [|exact H]. eexists. split; [reflexivity|discriminate].
Qed.

(** Everything a successful [extract_text] guarantees. *)
Lemma extraction_success_shape (L : Libs) (self : DocumentProcessor)
    (fs : FileSystem) (file_path filename : str) :
  let r := extract_text L self fs file_path filename in
  r_success r = true ->
  (exists data,
     fs !! file_path = Some data /\ data <> []
     /\ len data <= max_file_size_mb self * 1024 * 1024)
  /\ r_file_type r ∈ [lit ".pdf"; lit ".docx"; lit ".txt"]
  /\ r_file_type r = str_lower L (path_suffix filename)
  /\ r_filename r = filename
  /\ strip (r_text r) = r_text r
  /\ r_text r <> []
  /\ r_error r = None
  /\ extraction_metadata (r_metadata r).
Proof.
  unfold extract_text.
  destruct (negb (validate_file_type _ _)); [discriminate|].
  destruct (validate_file_size fs file_path (max_file_size_mb self)) eqn:Hsize;
    [|discriminate].
  cbn [negb r_file_type].
  assert (Hlimit : forall data, fs !! file_path = Some data ->
            len data <= max_file_size_mb self * 1024 * 1024).
  { intros data Hdata. unfold validate_file_size, os_path_getsize in Hsize.
    rewrite Hdata in Hsize. by apply Z.leb_le. }
  assert (Hshape : forall (o : outcome (str * gmap str pyval)) ext,
            str_lower L (path_suffix filename) = ext ->
            ext ∈ [lit ".pdf"; lit ".docx"; lit ".txt"] ->
            (forall text metadata, o = Ok (text, metadata) ->
               (exists data, fs !! file_path = Some data /\ (data = [] -> text = []))
               /\ strip text = text /\ extraction_metadata metadata) ->
            let r :=
              match o with
              | Ok (text, metadata) =>
                  if truthy text && truthy (strip text)
                  then set_extracted
                         {| r_success := false; r_text := []; r_filename := filename;
                            r_file_type := str_lower L (path_suffix filename);
                            r_error := None; r_metadata := ∅ |} text metadata
                  else set_error
                         {| r_success := false; r_text := []; r_filename := filename;
                            r_file_type := str_lower L (path_suffix filename);
                            r_error := None; r_metadata := ∅ |}
                         (lit "No text could be extracted from the document. The file might be scanned, empty, or corrupted.")
              | Raise e =>
                  set_error
                    {| r_success := false; r_text := []; r_filename := filename;
                       r_file_type := str_lower L (path_suffix filename);
                       r_error := None; r_metadata := ∅ |} (exn_str e)
              end in
            r_success r = true ->
            (exists data,
               fs !! file_path = Some data /\ data <> []
               /\ len data <= max_file_size_mb self * 1024 * 1024)
            /\ r_file_type r ∈ [lit ".pdf"; lit ".docx"; lit ".txt"]
            /\ r_file_type r = str_lower L (path_suffix filename)
            /\ r_filename r = filename
            /\ strip (r_text r) = r_text r
            /\ r_text r <> []
            /\ r_error r = None
            /\ extraction_metadata (r_metadata r)).
  { intros o ext Hext Hin Hok. destruct o as [[text metadata]|e]; [|discriminate].
    destruct (Hok text metadata eq_refl) as ((data & Hdata & Hempty) & Hstrip & Hmeta).
    destruct (truthy text && truthy (strip text)) eqn:Htruthy; [|discriminate].
    cbn [set_extracted r_success r_file_type r_filename r_text r_error r_metadata].
    intros _. apply andb_true_iff in Htruthy as [Htext _]. apply truthy_true in Htext.
    split.
    { exists data. split; [exact Hdata|]. split; [|by apply Hlimit].
      intros Hnil. by apply Htext, Hempty. }
    rewrite Hext. split; [exact Hin|]. split; [reflexivity|]. split; [reflexivity|].
    split; [exact Hstrip|]. split; [exact Htext|]. split; [reflexivity|exact Hmeta]. }
  case_bool_decide as Hpdf.
  { apply (Hshape _ _ Hpdf); [apply list_elem_of_In; simpl; auto|].
    intros text metadata H%extract_pdf_ok.
    destruct H as ((data & Hdata & Hne) & H). split; [|exact H].
    exists data. split; [exact Hdata|]. intros ->. congruence. }
  case_bool_decide as Hdocx.
  { apply (Hshape _ _ Hdocx); [apply list_elem_of_In; simpl; auto|].
    intros text metadata H%extract_docx_ok.
    destruct H as ((data & Hdata & Hne) & H). split; [|exact H].
    exists data. split; [exact Hdata|]. intros ->. congruence. }
  case_bool_decide as Htxt; [|discriminate].
  apply (Hshape _ _ Htxt); [apply list_elem_of_In; simpl; auto|].
  intros text metadata H%extract_txt_ok. exact H.
Qed.

(** X13: a successful [extract_text] read a file that exists, is not empty and
    is within the size limit, under one of the three supported types (the
    lower-cased suffix of the file name); its text is not empty and has no
    leading or trailing white space, and its metadata name the extraction
    method and use none of the payload keys of [add_document]. *)
Theorem extract_text_success (L : Libs) (self : DocumentProcessor)
    (fs : FileSystem) (file_path filename : str) :
  let r := extract_text L self fs file_path filename in
  r_success r = true ->
  (exists data,
     fs !! file_path = Some data /\ data <> []
     /\ len data <= max_file_size_mb self * 1024 * 1024)
  /\ r_file_type r ∈ [lit ".pdf"; lit ".docx"; lit ".txt"]
  /\ r_file_type r = str_lower L (path_suffix filename)
  /\ r_filename r = filename
  /\ strip (r_text r) = r_text r
  /\ r_text r <> []
  /\ r_error r = None
  /\ extraction_metadata (r_metadata r).
Proof. apply extraction_success_shape. Qed.


(** ** One upload from extraction to the store *)

(** What [process_single_document] does, by the outcome of the extraction
    and of [add_document]. *)
Lemma process_single_document_run (L : Libs) (self : ResearchAssistant)
    (fs : FileSystem) (file_path filename : str) (s : State) :
  let r := extract_text L (doc_processor self) fs file_path filename in
  if r_success r then
    exists db s',
      add_document L (vector_db self) (r_text r)
        (upload_metadata self filename r (now_isoformat L (clock_calls s))) (tick s)
        = (Ok db, s')
      /\ exists line,
           process_single_document L self fs file_path filename s = (Ok line, s')
           /\ if a_success db then
                line = check_mark ++ lit " Successfully processed '" ++ filename
                       ++ lit "': " ++ str_of_int (a_chunks_added db)
                       ++ lit " chunks added (" ++ str_of_int (len (r_text r))
                       ++ lit " characters)"
              else
                exists error,
                  a_error db = Some error
                  /\ line = cross_mark ++ lit " Failed to add '" ++ filename
                            ++ lit "' to database: " ++ error
  else
    process_single_document L self fs file_path filename s
    = (Ok (cross_mark ++ lit " Failed to process '" ++ filename ++ lit "': "
           ++ format_optional (r_error r)), s).
Proof.
  intros r. pose proof (extraction_success_shape L (doc_processor self) fs file_path filename)
    as Hshape. fold r in Hshape. cbv zeta in Hshape.
  unfold process_single_document. fold r.
  destruct (r_success r) eqn:Hsucc; [|reflexivity].
  destruct (Hshape eq_refl) as (_ & _ & _ & _ & Hstrip & Htext & _).
  assert (Hlines : List.filter (fun line => truthy (strip line)) (splitlines (r_text r)) <> []).
  { apply splitlines_visible. by rewrite Hstrip. }
  cbn [negb].
  destruct (List.filter (fun line => truthy (strip line)) (splitlines (r_text r)))
    as [|line0 lines0]; [congruence|].
  cbn [List.map].
  unfold try_except, bind, datetime_now_isoformat, lift, ret.
  fold (tick s). fold (upload_metadata self filename r (now_isoformat L (clock_calls s))).
  destruct (add_document_run L (vector_db self) (r_text r)
              (upload_metadata self filename r (now_isoformat L (clock_calls s))) (tick s))
    as [(msg & s' & Hrun & _)|(chunks & stored & _ & _ & _ & _ & Hrun)];
    rewrite Hrun; eexists _, _; (split; [reflexivity|]);
    cbn [a_success a_error a_total_characters dict_item a_chunks_added add_failure];
    eexists; (split; [reflexivity|]); cbn [a_success add_failure]; eauto.
Qed.

(** ** What an upload stores *)

(** A successful [add_document] into a store that satisfies [store_ok]. *)
Lemma add_document_success_run (L : Libs) (self : VectorDatabase) (text : str)
    (metadata : DocMetadata) (s s' : State) (r : AddResult) :
  (forall j k, uuid4 L j = uuid4 L k -> j = k) ->
  store_ok L (collection_name self) s ->
  add_document L self text metadata s = (Ok r, s') ->
  a_success r = true ->
  exists stored chunks,
    client s !! collection_name self = Some stored
    /\ chunk_text text (default 500 (md_chunk_size metadata))
         (default 50 (md_chunk_overlap metadata)) = Ok chunks
    /\ chunks <> []
    /\ a_chunks_added r = len chunks
    /\ a_document_id r = Some (uuid4 L (uuid_calls s))
    /\ client s'
       = <[collection_name self :=
             stored ++ new_points L metadata (uuid4 L (uuid_calls s)) (len chunks)
                         (zip chunks (List.map (st_embed L) chunks)) 0
                         (S (uuid_calls s)) (clock_calls s)]> (client s).
Proof.
  intros Hinj Hok Hrun Hsucc.
  destruct (add_document_run L self text metadata s)
    as [(msg & s1 & Hrun' & _)|(chunks & stored & Hchunks & Hne & _ & Hstored & Hrun')];
    rewrite Hrun' in Hrun.
  { injection Hrun as <- _. discriminate. }
  injection Hrun as <- <-.
  destruct (Hok stored Hstored) as [Hnodup Hissued].
  destruct (new_points_appended L metadata (uuid4 L (uuid_calls s)) (len chunks)
              (zip chunks (List.map (st_embed L) chunks)) 0 (S (uuid_calls s))
              (uuid_calls s) (clock_calls s) stored Hinj ltac:(lia) Hnodup)
    as [Happ _].
  { intros p Hp. by destruct (Hissued p Hp) as [? _]. }
  exists stored, chunks. cbn [client a_chunks_added a_document_id].
  rewrite Happ. by repeat split.
Qed.

Lemma lookup_map {A B} (f : A -> B) (l : list A) (j : nat) :
  List.map f l !! j = f <$> l !! j.
Proof.
  revert j. induction l as [|x l IH]; intros [|j]; simpl; try reflexivity. apply IH.
Qed.



(** ** Invariants of the whole assistant *)

(** Every upload of a batch goes through [process_single_document]: a
    property of the state that each such call keeps is kept by the loop. *)
Lemma process_documents_loop_invariant (L : Libs) (self : ResearchAssistant)
    (fs : FileSystem) (P : State -> Prop) :
  (forall file_path filename s,
     P s -> P (process_single_document L self fs file_path filename s).2) ->
  forall (files : list Upload) (results : list str) (successful_uploads : Z) (s : State),
    P s -> P (process_documents_loop L self fs files results successful_uploads s).2.
Proof.
  intros Hstep files. induction files as [|file files IH]; intros results n s Hs.
  - exact Hs.
  - cbn [process_documents_loop]. unfold bind at 1.
    match goal with
    | |- context [try_except ?body ?handler s] =>
        assert (Hone : exists step s1,
                  try_except body handler s = (Ok step, s1) /\ P s1)
    end.
    { unfold try_except, bind, lift, raise, ret.
      destruct (resolve_upload fs file) as [[file_path filename]|e]; [|by eauto].
      destruct (os_path_getsize fs file_path) as [file_size|e]; [|by eauto].
      destruct (file_size =? 0); [by eauto|].
      pose proof (Hstep file_path filename s Hs) as Hs1.
      destruct (process_single_document_total L self fs file_path filename s)
        as (line & s1 & Hrun).
      rewrite Hrun in Hs1 |- *. by eauto. }
    destruct Hone as (step & s1 & -> & Hs1). by apply IH.
Qed.

Lemma process_documents_invariant (L : Libs) (self : ResearchAssistant)
    (fs : FileSystem) (P : State -> Prop) :
  (forall file_path filename s,
     P s -> P (process_single_document L self fs file_path filename s).2) ->
  forall (files : list Upload) (s : State),
    P s -> P (process_documents L self fs files s).2.
Proof.
  intros Hstep files s Hs. unfold process_documents.
  destruct files as [|file files]; [exact Hs|].
  pose proof (process_documents_loop_invariant L self fs P Hstep (file :: files) [] 0 s Hs)
    as Hloop.
  destruct (process_documents_loop_lines L self fs (file :: files) [] 0 s)
    as (lines & count & s' & Hrun & _).
  unfold bind, ret. rewrite Hrun in Hloop |- *. exact Hloop.
Qed.

Lemma process_single_document_store_ok (L : Libs) (self : ResearchAssistant)
    (fs : FileSystem) (file_path filename : str) (s : State) :
  (forall j k, uuid4 L j = uuid4 L k -> j = k) ->
  store_ok L (collection_name (vector_db self)) s ->
  store_ok L (collection_name (vector_db self))
    (process_single_document L self fs file_path filename s).2.
Proof.
  intros Hinj Hok.
  pose proof (process_single_document_run L self fs file_path filename s) as Hcases.
  pose proof (extraction_success_shape L (doc_processor self) fs file_path filename)
    as Hshape.
  cbv zeta in Hcases, Hshape.
  destruct (r_success (extract_text L (doc_processor self) fs file_path filename)).
  2:{ by rewrite Hcases. }
  destruct Hcases as (db & s' & Hadd & line & -> & _). cbn [snd].
  destruct (Hshape eq_refl) as (_ & _ & _ & _ & _ & _ & _ & _ & Hfree).
  match type of Hadd with
  | add_document L ?db0 ?text ?metadata ?s0 = _ =>
      pose proof (add_document_store_ok L db0 text metadata s0 Hinj) as Hkeep
  end.
  rewrite Hadd in Hkeep. apply Hkeep; [|exact Hok].
  cbn [upload_metadata md_extra_metadata default]. apply Hfree.
  apply list_elem_of_In. simpl. auto.
Qed.

Lemma process_single_document_frame (L : Libs) (self : ResearchAssistant)
    (fs : FileSystem) (file_path filename : str) (s : State) :
  let s' := (process_single_document L self fs file_path filename s).2 in
  conversation_history s' = conversation_history s
  /\ forall name, name <> collection_name (vector_db self) ->
       client s' !! name = client s !! name.
Proof.
  pose proof (process_single_document_run L self fs file_path filename s) as Hcases.
  cbv zeta in Hcases |- *.
  destruct (r_success (extract_text L (doc_processor self) fs file_path filename)).
  2:{ by rewrite Hcases. }
  destruct Hcases as (db & s' & Hadd & line & -> & _). cbn [snd].
  match type of Hadd with
  | add_document L ?db0 ?text ?metadata ?s0 = _ =>
      destruct (add_document_run L db0 text metadata s0)
        as [(msg & s1 & Hrun & Hc & Hh & _)|(chunks & stored & _ & _ & _ & _ & Hrun)]
  end; rewrite Hrun in Hadd; injection Hadd as _ <-.
  - rewrite Hc, Hh. by split.
  - cbn [client conversation_history tick]. split; [reflexivity|].
    intros name Hname. by rewrite lookup_insert_ne.
Qed.

(** A search, and so the retrieval of [generate_response], reads the store
    and issues no id. *)
Lemma search_similar_state (L : Libs) (self : VectorDatabase) (query : str)
    (limit : nat) (score_threshold : score)
    (filter_conditions : option (gmap str pyval)) (s : State) :
  let s' := (search_similar L self query limit score_threshold filter_conditions s).2 in
  client s' = client s /\ uuid_calls s' = uuid_calls s
  /\ conversation_history s' = conversation_history s.
Proof.
  unfold search_similar, try_except.
  destruct (negb (truthy (strip query))); [by repeat split|].
  unfold bind, encode, lift, ret.
  destruct (st_encode L [query]) as [[|v vs]|e]; cbn; [by repeat split| |by repeat split].
  destruct (client_search _ _ _ _ _ _ _) as [hits|e]; [|by repeat split].
  destruct (format_results hits []) as [res|e]; by repeat split.
Qed.

Lemma generate_response_state (L : Libs) (self : ResearchAssistant) (query : str)
    (history : option (list (gmap str str))) (s : State) :
  let s' := (generate_response L self query history s).2 in
  client s' = client s /\ uuid_calls s' = uuid_calls s.
Proof.
  pose proof (search_similar_state L (vector_db self) query 5 0%Qc None s) as Hsearch.
  cbv zeta in Hsearch. destruct Hsearch as (Hc & Hu & _).
  unfold generate_response, build_prompts, try_except, bind, lift, ret, history_append.
  destruct (search_similar L (vector_db self) query 5 0%Qc None s) as [[results|e] s1];
    cbn [snd] in Hc, Hu; [|by split].
  destruct (List.map sr_text results) as [|t ts].
  - destruct (chat_completions_create L _ _ _) as [choices|e]; [|by split].
    destruct (first_answer choices) as [answer|e]; by split.
  - destruct (context_strings (t :: ts)) as [parts|e]; [|by split].
    destruct (chat_completions_create L _ _ _) as [choices|e]; [|by split].
    destruct (first_answer choices) as [answer|e]; by split.
Qed.

Lemma store_ok_same_store (L : Libs) (name : str) (s s' : State) :
  client s' = client s -> uuid_calls s' = uuid_calls s ->
  store_ok L name s -> store_ok L name s'.
Proof. unfold store_ok. intros -> ->. auto. Qed.

Lemma filter_NoDup_fmap {A B} `{EqDecision B} (f : A -> B) (keep : A -> bool) (l : list A) :
  NoDup (f <$> l) -> NoDup (f <$> List.filter keep l).
Proof.
  induction l as [|x l IH]; [done|]. rewrite fmap_cons. intros Hnd.
  inversion Hnd as [|? ? Hx Hl]; subst. simpl. destruct (keep x); [|by apply IH].
  rewrite fmap_cons. constructor; [|by apply IH].
  intros Hin. apply Hx. apply list_elem_of_fmap in Hin as (y & -> & Hy).
  apply list_elem_of_In, List.filter_In in Hy as [Hy _].
  apply list_elem_of_fmap. exists y. split; [reflexivity|by apply list_elem_of_In].
Qed.

(** X16: the point ids of the collection stay pairwise different, and issued
    by the uuid source, under every operation: adding a document whose
    extra metadata has no [document_id] key, uploading any batch of files,
    answering a question, deleting a document and clearing the database.
    The only assumption is that the uuid source never repeats itself. *)
Theorem store_ok_invariant (L : Libs) (self : ResearchAssistant) (s : State) :
  (forall j k, uuid4 L j = uuid4 L k -> j = k) ->
  store_ok L (collection_name (vector_db self)) s ->
  (forall text metadata,
     default ∅ (md_extra_metadata metadata) !! lit "document_id" = None ->
     store_ok L (collection_name (vector_db self))
       (add_document L (vector_db self) text metadata s).2)
  /\ (forall fs files,
     store_ok L (collection_name (vector_db self))
       (process_documents L self fs files s).2)
  /\ (forall query history,
        store_ok L (collection_name (vector_db self))
          (generate_response L self query history s).2)
  /\ (forall document_id,
        store_ok L (collection_name (vector_db self))
          (delete_document (vector_db self) document_id s).2)
  /\ store_ok L (collection_name (vector_db self))
       (clear_database (vector_db self) s).2.
Proof.
  intros Hinj Hok. split; [|split; [|split; [|split]]].
  - intros text metadata Hfree. by apply add_document_store_ok.
  - intros fs files.
    apply (process_documents_invariant L self fs
             (store_ok L (collection_name (vector_db self)))); [|exact Hok].
    intros file_path filename s0 Hs0. by apply process_single_document_store_ok.
  - intros query history.
    pose proof (generate_response_state L self query history s) as [Hc Hu].
    by eapply store_ok_same_store.
  - intros document_id.
    pose proof (delete_document_run (vector_db self) document_id s) as Hdel.
    destruct (client s !! collection_name (vector_db self)) as [stored|] eqn:Hstored;
      rewrite Hdel; cbn [snd]; [|exact Hok].
    intros stored'. cbn [set_client client uuid_calls]. rewrite lookup_insert_eq.
    intros [= <-]. destruct (Hok stored Hstored) as [Hnodup Hissued]. split.
    + by apply filter_NoDup_fmap.
    + intros p Hp. apply list_elem_of_In, List.filter_In in Hp as [Hp _].
      by apply Hissued, list_elem_of_In.
  - rewrite clear_database_run. cbn [snd]. intros stored.
    cbn [set_client client]. rewrite lookup_insert_eq. intros [= <-]. split.
    + constructor.
    + intros p Hp. by apply elem_of_nil in Hp.
Qed.

(** X17: the two halves of the assistant keep apart.  Uploading files never
    touches the conversation history nor any other collection; answering a
    question never changes the store; deleting a document and clearing the
    database never touch the history. *)
Theorem operations_frame (L : Libs) (self : ResearchAssistant) (s : State) :
  (forall fs files,
     let s' := (process_documents L self fs files s).2 in
     conversation_history s' = conversation_history s
     /\ forall name, name <> collection_name (vector_db self) ->
          client s' !! name = client s !! name)
  /\ (forall query history,
        client (generate_response L self query history s).2 = client s)
  /\ (forall document_id,
        conversation_history (delete_document (vector_db self) document_id s).2
        = conversation_history s)
  /\ conversation_history (clear_database (vector_db self) s).2
     = conversation_history s.
Proof.
  split; [|split; [|split]].
  - intros fs files.
    apply (process_documents_invariant L self fs
             (fun s' => conversation_history s' = conversation_history s
                        /\ forall name, name <> collection_name (vector_db self) ->
                             client s' !! name = client s !! name)); [|by split].
    intros file_path filename s0 [Hh Hc].
    pose proof (process_single_document_frame L self fs file_path filename s0) as [Hh' Hc'].
    split; [congruence|]. intros name Hname. rewrite Hc' by exact Hname. by apply Hc.
  - intros query history. apply generate_response_state.
  - intros document_id.
    pose proof (delete_document_run (vector_db self) document_id s) as Hdel.
    destruct (client s !! collection_name (vector_db self)); by rewrite Hdel.
  - by rewrite clear_database_run.
Qed.

(** ** Retrieval returns the best matches *)

Lemma StronglySorted_lookup_lt {A} (R : relation A) (l : list A) (i j : nat) (x y : A) :
  StronglySorted R l -> l !! i = Some x -> l !! j = Some y -> (i < j)%nat -> R x y.
Proof.
  intros Hsorted. revert i j. induction Hsorted as [|a l Hl IH Ha]; intros i j Hi Hj Hlt.
  - discriminate.
  - destruct j as [|j]; [lia|]. simpl in Hj. destruct i as [|i].
    + simpl in Hi. injection Hi as <-.
      rewrite List.Forall_forall in Ha. apply Ha, list_elem_of_In.
      by eapply list_elem_of_lookup_2.
    + simpl in Hi. apply (IH i j); [assumption..|lia].
Qed.

(** The hits of the store for a search, before the cut at [limit]. *)
Lemma client_search_sorted (L : Libs) (query : str) (c : QdrantClient) (name : str)
    (limit : nat) (score_threshold : score)
    (filter_conditions : option (gmap str pyval)) (stored : list PointStruct) :
  c !! name = Some stored ->
  exists sorted,
    client_search (cosine L) c name (st_embed L query) limit
      match filter_conditions with
      | Some conds =>
          match map_to_list conds with
          | [] => None
          | conditions => Some conditions
          end
      | None => None
      end score_threshold
    = Ok (take limit sorted)
    /\ StronglySorted by_score_desc sorted
    /\ sorted ≡ₚ
       List.map (fun p => {| sp_id := p_id p;
                             sp_score := cosine L (st_embed L query) (p_vector p);
                             sp_payload := p_payload p |})
         (List.filter (qualifies L query score_threshold filter_conditions) stored).
Proof.
  intros Hstored. unfold client_search. rewrite Hstored.
  eexists. split; [reflexivity|].
  split; [apply StronglySorted_merge_sort; apply _|].
  rewrite merge_sort_Permutation, filter_map_swap.
  cbn [sp_score].
  assert (Heq : forall (f g : PointStruct -> bool) (h : PointStruct -> bool) l,
            (forall p, f p = g p) ->
            List.filter h (List.filter f l)
            = List.filter (fun p => g p && h p) l).
  { intros f g h l Hfg. induction l as [|p l IH]; [reflexivity|]. simpl.
    rewrite Hfg. destruct (g p); simpl; [|exact IH].
    destruct (h p); by rewrite IH. }
  unfold qualifies.
  rewrite (Heq _ (fun p => filter_matches (map_to_list (default ∅ filter_conditions))
                             (p_payload p))); [reflexivity|].
  intros p. destruct filter_conditions as [conds|].
  - change (default ∅ (Some conds)) with conds.
    destruct (map_to_list conds); reflexivity.
  - change (default ∅ (@None (gmap str pyval))) with (∅ : gmap str pyval).
    rewrite map_to_list_empty. reflexivity.
Qed.

Lemma search_similar_best (L : Libs) (self : VectorDatabase) (query : str)
    (limit : nat) (score_threshold : score)
    (filter_conditions : option (gmap str pyval)) (s : State)
    (stored : list PointStruct) :
  strip query <> [] ->
  st_failure L [query] = None ->
  client s !! collection_name self = Some stored ->
  (forall p, p ∈ stored ->
     qualifies L query score_threshold filter_conditions p = true ->
     is_Some (p_payload p !! lit "text")) ->
  exists results s',
    search_similar L self query limit score_threshold filter_conditions s
      = (Ok results, s')
    /\ length results
       = Nat.min limit
           (length (List.filter (qualifies L query score_threshold filter_conditions)
                      stored))
    /\ forall p, p ∈ stored ->
         qualifies L query score_threshold filter_conditions p = true ->
         (exists r, r ∈ results
                    /\ result_of_point (cosine L) (st_embed L query) p r)
         \/ ((limit < length (List.filter
                                 (qualifies L query score_threshold filter_conditions)
                                 stored))%nat
             /\ forall r, r ∈ results ->
                  (cosine L (st_embed L query) (p_vector p) <= sr_score r)%Qc).
Proof.
  intros Hquery Hencode Hstored Htext.
  destruct (client_search_sorted L query (client s) (collection_name self) limit
              score_threshold filter_conditions stored Hstored)
    as (sorted & Hsearch & Hsorted & Hperm).
  set (mk := fun p => {| sp_id := p_id p;
                         sp_score := cosine L (st_embed L query) (p_vector p);
                         sp_payload := p_payload p |}) in *.
  set (good := List.filter (qualifies L query score_threshold filter_conditions) stored) in *.
  assert (Hhits : forall h, h ∈ sorted -> exists p, p ∈ stored
            /\ qualifies L query score_threshold filter_conditions p = true /\ h = mk p).
  { intros h Hh. rewrite Hperm in Hh.
    apply list_elem_of_In, List.in_map_iff in Hh as (p & <- & Hp).
    apply List.filter_In in Hp as [Hp Hq]. exists p. split; [by apply list_elem_of_In|done]. }
  destruct (format_results_total (take limit sorted) []) as [results Hfmt].
  { intros h Hh. apply elem_of_take in Hh as (i & Hh & _).
    apply list_elem_of_lookup_2, Hhits in Hh as (p & Hp & Hq & ->). by apply Htext. }
  pose proof (format_results_fields _ _ _ Hfmt) as (new & Hnew & Hfields).
  cbn [app] in Hnew. subst new.
  exists results. eexists. split.
  { unfold search_similar, try_except, bind, lift, ret, encode, st_encode.
    apply truthy_true in Hquery. rewrite Hquery, Hencode. cbn [negb List.map client].
    rewrite Hsearch, Hfmt. reflexivity. }
  assert (Hlen : length results = Nat.min limit (length good)).
  { apply Forall2_length in Hfields as <-.
    rewrite length_take, Hperm, length_map. reflexivity. }
  split; [exact Hlen|].
  intros p Hp Hq.
  assert (Hin : mk p ∈ sorted).
  { rewrite Hperm. apply list_elem_of_In, List.in_map, List.filter_In.
    split; [by apply list_elem_of_In|exact Hq]. }
  apply list_elem_of_lookup in Hin as [i Hi].
  destruct (decide (i < limit)%nat) as [Hlt|Hge].
  - left. assert (Htake : take limit sorted !! i = Some (mk p)).
    { by rewrite lookup_take_lt. }
    destruct (Forall2_lookup_l _ _ _ _ _ Hfields Htake) as (r & Hr & Hfld).
    exists r. split; [by eapply list_elem_of_lookup_2|].
    destruct Hfld as (Ht & Hs & Hrest). split; [exact Ht|]. split; [exact Hs|exact Hrest].
  - right. split.
    + apply lookup_lt_Some in Hi.
      rewrite Hperm, length_map in Hi. fold good in Hi. lia.
    + intros r Hr. apply list_elem_of_lookup in Hr as [j Hj].
      destruct (Forall2_lookup_r _ _ _ _ _ Hfields Hj) as (h & Hh & _ & Hs & _).
      apply lookup_take_Some in Hh as [Hh Hjl]. rewrite Hs.
      apply (StronglySorted_lookup_lt by_score_desc sorted j i h (mk p) Hsorted Hh Hi).
      lia.
Qed.

(** X18: retrieval is complete.  For a query that is not blank, with the
    embedder at work, filter keys that are plain field names (no dot,
    bracket or other path syntax of the store) and a text in every
    qualifying point, [search_similar] returns as many results as there are
    qualifying points, up to [limit]; every qualifying point is shown by a
    result, unless there are more than [limit] of them and it scores no
    higher than every result returned.  So the results are the [limit] best
    matches. *)
Theorem search_similar_finds_best (L : Libs) (self : VectorDatabase) (query : str)
    (limit : nat) (score_threshold : score)
    (filter_conditions : option (gmap str pyval)) (s : State)
    (stored : list PointStruct) :
  strip query <> [] ->
  st_failure L [query] = None ->
  (forall conds key,
     filter_conditions = Some conds -> is_Some (conds !! key) ->
     plain_key key = true) ->
  client s !! collection_name self = Some stored ->
  (forall p, p ∈ stored ->
     qualifies L query score_threshold filter_conditions p = true ->
     is_Some (p_payload p !! lit "text")) ->
  exists results s',
    search_similar L self query limit score_threshold filter_conditions s
      = (Ok results, s')
    /\ length results
       = Nat.min limit
           (length (List.filter (qualifies L query score_threshold filter_conditions)
                      stored))
    /\ forall p, p ∈ stored ->
         qualifies L query score_threshold filter_conditions p = true ->
         (exists r, r ∈ results
                    /\ result_of_point (cosine L) (st_embed L query) p r)
         \/ ((limit < length (List.filter
                                 (qualifies L query score_threshold filter_conditions)
                                 stored))%nat
             /\ forall r, r ∈ results ->
                  (cosine L (st_embed L query) (p_vector p) <= sr_score r)%Qc).
Proof. intros Hquery Hembed _. by apply search_similar_best. Qed.

(** ** Round trip: a stored document is found again *)

Lemma add_document_id_success (L : Libs) (self : VectorDatabase) (text : str)
    (metadata : DocMetadata) (s s' : State) (r : AddResult) :
  add_document L self text metadata s = (Ok r, s') ->
  is_Some (a_document_id r) -> a_success r = true.
Proof.
  intros Hrun [d Hd].
  destruct (add_document_run L self text metadata s)
    as [(msg & s1 & Hrun' & _)|(chunks & stored & _ & _ & _ & _ & Hrun')];
    rewrite Hrun' in Hrun; injection Hrun as <- _; [discriminate|reflexivity].
Qed.

(** X19: searching under the document id that [add_document] returned, with
    room for all its chunks and a threshold that no score misses, returns
    exactly the chunks of that document: as many results as chunks were
    added, all of that document, and every chunk as the text of a result. *)
Theorem add_then_search_by_document (L : Libs) (self : VectorDatabase)
    (text : str) (metadata : DocMetadata) (s s' : State) (r : AddResult)
    (document_id query : str) (limit : nat) (score_threshold : score) :
  (forall j k, uuid4 L j = uuid4 L k -> j = k) ->
  (forall k, k ∈ payload_keys -> default ∅ (md_extra_metadata metadata) !! k = None) ->
  store_ok L (collection_name self) s ->
  add_document L self text metadata s = (Ok r, s') ->
  a_document_id r = Some document_id ->
  strip query <> [] ->
  st_failure L [query] = None ->
  a_chunks_added r <= Z.of_nat limit ->
  (forall v, (score_threshold <= cosine L (st_embed L query) v)%Qc) ->
  exists results s'' chunks,
    search_similar L self query limit score_threshold
      (Some {[ lit "document_id" := VStr document_id ]}) s' = (Ok results, s'')
    /\ chunk_text text (default 500 (md_chunk_size metadata))
         (default 50 (md_chunk_overlap metadata)) = Ok chunks
    /\ len results = a_chunks_added r
    /\ (forall r0, r0 ∈ results -> sr_document_id r0 = VStr document_id)
    /\ (forall c, c ∈ chunks -> exists r0, r0 ∈ results /\ sr_text r0 = VStr c).
Proof.
  intros Hinj Hfree Hok Hrun Hid Hquery Hencode Hlimit Hthr.
  assert (Hsucc : a_success r = true).
  { eapply add_document_id_success; [exact Hrun|by rewrite Hid]. }
  destruct (add_document_success_run L self text metadata s s' r Hinj Hok Hrun Hsucc)
    as (stored & chunks & Hstored & Hchunks & Hne & Hadded & Hid' & Hclient).
  rewrite Hid in Hid'. injection Hid' as ->.
  set (points := new_points L metadata (uuid4 L (uuid_calls s)) (len chunks)
                   (zip chunks (List.map (st_embed L) chunks)) 0
                   (S (uuid_calls s)) (clock_calls s)) in *.
  set (conds := Some ({[ lit "document_id" := VStr (uuid4 L (uuid_calls s)) ]}
                        : gmap str pyval)).
  assert (Hqual : forall p,
            qualifies L query score_threshold conds p
            = of_document (uuid4 L (uuid_calls s)) p).
  { intros p. unfold qualifies, conds. cbn [default]. unfold id.
    rewrite map_to_list_singleton, filter_matches_document_id.
    rewrite (bool_decide_eq_true_2 _ (Hthr (p_vector p))). apply andb_true_r. }
  assert (Hnew : forall p, p ∈ points ->
            of_document (uuid4 L (uuid_calls s)) p = true
            /\ exists c, c ∈ chunks /\ p_payload p !! lit "text" = Some (VStr c)).
  { intros p Hp. unfold points in Hp.
    apply new_points_elem in Hp as (j & chunk & embedding & Hj & _ & _ & Hpayload).
    destruct (make_payload_fixed chunk (0 + Z.of_nat j) (uuid4 L (uuid_calls s)) metadata
                (now_isoformat L (clock_calls s + j)) (len chunks) Hfree)
      as (Htext & _ & Hdoc & _).
    split; [unfold of_document; rewrite Hpayload; by apply bool_decide_eq_true|].
    rewrite Hpayload.
    exists chunk. split; [|exact Htext].
    apply lookup_zip_with_Some in Hj as (c & v & [= -> ->] & Hc & _).
    by eapply list_elem_of_lookup_2. }
  assert (Hold : forall p, p ∈ stored -> of_document (uuid4 L (uuid_calls s)) p = false).
  { intros p Hp. apply bool_decide_eq_false. intros Hd.
    destruct (Hok stored Hstored) as [_ Hissued]. destruct (Hissued p Hp) as [_ Hdoc].
    destruct (Hdoc _ Hd) as (k & Hk & Heq). apply Hinj in Heq. lia. }
  assert (Hgood : List.filter (qualifies L query score_threshold conds) (stored ++ points)
                  = points).
  { rewrite List.filter_app, (filter_none _ stored), (filter_all _ points); [reflexivity|..].
    - intros p Hp. rewrite Hqual. by apply Hnew.
    - intros p Hp. rewrite Hqual. by apply Hold. }
  assert (Hlen : length points = length chunks).
  { unfold points, new_points.
    by rewrite length_imap, length_zip, length_map, Nat.min_id. }
  assert (Hstored' : client s' !! collection_name self = Some (stored ++ points)).
  { rewrite Hclient. apply lookup_insert_eq. }
  destruct (search_similar_best L self query limit score_threshold conds s'
              (stored ++ points) Hquery Hencode Hstored')
    as (results & s'' & Hsearch & Hcount & Hbest).
  { intros p Hp Hq. rewrite Hqual in Hq. apply elem_of_app in Hp as [Hp|Hp].
    - rewrite Hold in Hq by exact Hp. discriminate.
    - destruct (Hnew p Hp) as (_ & c & _ & ->). by eexists. }
  rewrite Hgood in Hcount, Hbest.
  exists results, s'', chunks. split; [exact Hsearch|]. split; [exact Hchunks|].
  split.
  { unfold len in *. rewrite Hcount, Hlen. lia. }
  split.
  - intros r0 Hr0.
    destruct (search_similar_hits _ _ _ _ _ _ _ _ _ _ Hsearch Hr0)
      as (stored0 & p & _ & _ & (_ & _ & _ & Hdoc & _) & _ & Hconds).
    rewrite Hdoc, (Hconds _ (lit "document_id") (VStr (uuid4 L (uuid_calls s))) eq_refl).
    + reflexivity.
    + apply lookup_singleton_eq.
  - intros c Hc. apply list_elem_of_lookup in Hc as [j Hj].
    set (p := {| p_id := uuid4 L (S (uuid_calls s) + j);
                 p_vector := st_embed L c;
                 p_payload := make_payload c (0 + Z.of_nat j) (uuid4 L (uuid_calls s))
                                metadata (now_isoformat L (clock_calls s + j))
                                (len chunks) |}).
    assert (Hp : p ∈ points).
    { apply list_elem_of_lookup. exists j. unfold points, new_points.
      rewrite list_lookup_imap.
      assert (Hz : zip chunks (List.map (st_embed L) chunks) !! j = Some (c, st_embed L c)).
      { apply lookup_zip_with_Some. exists c, (st_embed L c).
        split; [reflexivity|]. split; [exact Hj|]. by rewrite lookup_map, Hj. }
      by rewrite Hz. }
    destruct (Hbest p) as [(r0 & Hr0 & Htext & _)|[Hmore _]].
    + apply elem_of_app. by right.
    + rewrite Hqual. by apply Hnew.
    + exists r0. split; [exact Hr0|].
      destruct (make_payload_fixed c (0 + Z.of_nat j) (uuid4 L (uuid_calls s)) metadata
                  (now_isoformat L (clock_calls s + j)) (len chunks) Hfree)
        as (Hc & _).
      cbn [p p_payload] in Htext. rewrite Hc in Htext. by injection Htext.
    + unfold len in *. lia.
Qed.

(** ** The two lists of supported formats *)

(** X20: [DocumentProcessor.is_supported_format] and the validator of
    [utils/config.py] that [extract_text] consults keep separate lists of
    extensions; for a processor as [__init__] builds it they decide alike on
    every file name. *)
Theorem format_checks_agree (lower : str -> str) (max_file_size_mb : Z)
    (filename : str) :
  lower [] = [] ->
  is_supported_format lower (DocumentProcessor_init max_file_size_mb) filename
  = validate_file_type lower filename.
Proof.
  intros Hlower. unfold is_supported_format, validate_file_type.
  destruct filename as [|c filename]; [|reflexivity].
  cbn [truthy negb]. change (path_suffix []) with (@nil N). rewrite Hlower.
  symmetry. apply bool_decide_eq_false. intros Hin.
  apply list_elem_of_In in Hin. simpl in Hin.
  repeat (destruct Hin as [Hin|Hin]; [discriminate|]). destruct Hin.
Qed.

(** ** Uploads that cannot be read *)

Lemma process_documents_loop_unreadable (L : Libs) (self : ResearchAssistant)
    (fs : FileSystem) (files : list Upload) :
  Forall (fun file => forall path data,
            upload_path file = Some path -> fs !! path = Some data -> data = []) files ->
  forall (results : list str) (successful_uploads : Z) (s : State),
    process_documents_loop L self fs files results successful_uploads s
    = (Ok (results ++ List.map (unreadable_line fs) files, successful_uploads), s).
Proof.
  induction 1 as [|file files Hfile _ IH]; intros results n s.
  - cbn. by rewrite app_nil_r.
  - cbn [process_documents_loop List.map]. unfold bind at 1.
    match goal with
    | |- context [try_except ?body ?handler s] =>
        assert (Hone : try_except body handler s
                       = (Ok (results ++ [unreadable_line fs file], n), s))
    end.
    { unfold try_except, bind, lift, raise, ret, unreadable_line, resolve_upload,
        os_path_exists, os_path_getsize.
      destruct file as [path|name|repr]; cbn [upload_path upload_label mbind option_bind];
        try reflexivity.
      - destruct (fs !! path) as [data|] eqn:Hdata.
        + pose proof (Hfile path data eq_refl Hdata) as ->.
          rewrite bool_decide_eq_true_2 by eauto. cbn beta iota. rewrite Hdata.
          reflexivity.
        + rewrite bool_decide_eq_false_2 by (intros [? ?]; discriminate). reflexivity.
      - destruct (fs !! name) as [data|] eqn:Hdata.
        + pose proof (Hfile name data eq_refl Hdata) as ->.
          rewrite bool_decide_eq_true_2 by eauto. cbn beta iota. rewrite Hdata.
          reflexivity.
        + rewrite bool_decide_eq_false_2 by (intros [? ?]; discriminate). reflexivity. }
    rewrite Hone. cbn [fst snd]. rewrite IH, <- app_assoc. reflexivity.
Qed.

(** X21: a batch in which every upload is missing, empty or not a file at all
    changes nothing: no file reaches the extraction, the state is as before,
    every upload gets its error line in order, and the summary reports that
    no file was processed, whatever the uploads are called. *)
Theorem process_documents_unreadable (L : Libs) (self : ResearchAssistant)
    (fs : FileSystem) (files : list Upload) (s : State) :
  files <> [] ->
  Forall (fun file => forall path data,
            upload_path file = Some path -> fs !! path = Some data -> data = []) files ->
  process_documents L self fs files s
  = (Ok (join nl (List.map (unreadable_line fs) files)
         ++ summary_text 0 (len files)), s).
Proof.
  intros Hne Hall. unfold process_documents.
  destruct files as [|file files]; [congruence|].
  unfold bind, ret. by rewrite process_documents_loop_unreadable.
Qed.

(** ** Without the collection *)

(** X22: when the collection does not exist no operation raises and none
    creates it: deleting a document answers [False], the statistics are all
    zero, every search returns no result and every [add_document] reports
    failure; the store stays as it is. *)
Theorem missing_collection (L : Libs) (self : VectorDatabase) (s : State) :
  client s !! collection_name self = None ->
  (forall document_id, delete_document self document_id s = (Ok false, s))
  /\ get_document_stats self s = (Ok empty_stats, s)
  /\ (forall query limit score_threshold filter_conditions,
        exists s',
          search_similar L self query limit score_threshold filter_conditions s
            = (Ok [], s')
          /\ client s' = client s)
  /\ (forall text metadata,
        exists r s',
          add_document L self text metadata s = (Ok r, s')
          /\ a_success r = false
          /\ client s' = client s).
Proof.
  intros Hmissing. split; [|split; [|split]].
  - intros document_id. by apply delete_document_without_collection.
  - by apply get_document_stats_without_collection.
  - intros query limit score_threshold filter_conditions.
    unfold search_similar, try_except.
    destruct (negb (truthy (strip query))); [by exists s|].
    unfold bind, encode, lift, ret.
    destruct (st_encode L [query]) as [[|v vs]|e]; cbn; [by eexists| |by eexists].
    unfold client_search. rewrite Hmissing. by eexists.
  - intros text metadata.
    destruct (add_document_run L self text metadata s)
      as [(msg & s' & Hrun & Hc & _)|(chunks & stored & _ & _ & _ & Hstored & _)].
    + by exists (add_failure msg), s'.
    + congruence.
Qed.

(** ** One upload, case by case *)

(** X23: [process_single_document] never raises and has three outcomes only.
    A failed extraction is reported with its error and changes nothing.
    After a successful extraction the clock is read once and the text goes
    to [add_document] with the file name, the type, that time, the
    configured chunking and the extraction metadata; the status line
    reports the chunks and characters added, or the error of
    [add_document].  The message about a file that appears to be empty, and
    the handler of unexpected exceptions, are never reached. *)
Theorem process_single_document_outcomes (L : Libs) (self : ResearchAssistant)
    (fs : FileSystem) (file_path filename : str) (s : State) :
  let r := extract_text L (doc_processor self) fs file_path filename in
  if r_success r then
    exists db s',
      add_document L (vector_db self) (r_text r)
        (upload_metadata self filename r (now_isoformat L (clock_calls s))) (tick s)
        = (Ok db, s')
      /\ exists line,
           process_single_document L self fs file_path filename s = (Ok line, s')
           /\ if a_success db then
                line = check_mark ++ lit " Successfully processed '" ++ filename
                       ++ lit "': " ++ str_of_int (a_chunks_added db)
                       ++ lit " chunks added (" ++ str_of_int (len (r_text r))
                       ++ lit " characters)"
              else
                exists error,
                  a_error db = Some error
                  /\ line = cross_mark ++ lit " Failed to add '" ++ filename
                            ++ lit "' to database: " ++ error
  else
    process_single_document L self fs file_path filename s
    = (Ok (cross_mark ++ lit " Failed to process '" ++ filename ++ lit "': "
           ++ format_optional (r_error r)), s).
Proof. apply process_single_document_run. Qed.

(** ** The further theorems at concrete inputs *)

Lemma ids_injective (j k : nat) :
  uuid4 Demo.libs_with_ids j = uuid4 Demo.libs_with_ids k -> j = k.
Proof.
  cbn [uuid4 Demo.libs_with_ids]. intros H. apply (f_equal length) in H.
  rewrite !length_replicate in H. lia.
Qed.

Lemma initial_store_ok (L : Libs) : store_ok L (lit "documents") Demo.initial_state.
Proof.
  intros stored. cbn [Demo.initial_state client]. rewrite lookup_singleton_eq.
  intros [= <-]. split; [constructor|]. intros p Hp. by apply elem_of_nil in Hp.
Qed.

Lemma sample_metadata_free (k : str) :
  k ∈ payload_keys -> default ∅ (md_extra_metadata Demo.sample_metadata) !! k = None.
Proof.
  intros Hk. apply list_elem_of_In in Hk. simpl in Hk.
  destruct Hk as [<-|[<-|[<-|[<-|[<-|[<-|[<-|[]]]]]]]]; vm_compute; reflexivity.
Qed.

Lemma loaded_state_points :
  client Demo.loaded_state !! lit "documents" = Some Demo.loaded_points.
Proof. vm_compute. reflexivity. Qed.

Lemma similarity_nonnegative (a b : vector) : (Q2Qc 0 <= Demo.similarity a b)%Qc.
Proof. unfold Demo.similarity. case_bool_decide; vm_compute; discriminate. Qed.

(** The sample text added to the empty demo store. *)
Lemma add_document_appends_witness :
  exists r s' stored points,
    add_document Demo.libs_with_ids (vector_db Demo.assistant) (lit "a b c")
      Demo.sample_metadata Demo.initial_state = (Ok r, s')
    /\ a_success r = true
    /\ client Demo.initial_state !! lit "documents" = Some stored
    /\ client s' = <[lit "documents" := stored ++ points]> (client Demo.initial_state)
    /\ len points = a_chunks_added r.
Proof.
  assert (Hrun : exists r s',
            add_document Demo.libs_with_ids (vector_db Demo.assistant) (lit "a b c")
              Demo.sample_metadata Demo.initial_state = (Ok r, s')
            /\ a_success r = true).
  { eexists _, _. split; vm_compute; reflexivity. }
  destruct Hrun as (r & s' & Hrun & Hsucc).
  destruct (add_document_appends Demo.libs_with_ids (vector_db Demo.assistant)
              (lit "a b c") Demo.sample_metadata Demo.initial_state s' r
              ids_injective (initial_store_ok _) Hrun Hsucc)
    as (stored & points & chunks & H1 & H2 & _ & H4 & _).
  exists r, s', stored, points.
  split; [exact Hrun|]. split; [exact Hsucc|]. split; [exact H1|].
  split; [exact H2|exact H4].
Defined.

(** The sample text added and deleted again. *)
Lemma add_then_delete_restores_store_witness :
  exists r s' document_id s'',
    add_document Demo.libs_with_ids (vector_db Demo.assistant) (lit "a b c")
      Demo.sample_metadata Demo.initial_state = (Ok r, s')
    /\ a_document_id r = Some document_id
    /\ delete_document (vector_db Demo.assistant) document_id s' = (Ok true, s'')
    /\ client s'' = client Demo.initial_state.
Proof.
  assert (Hrun : exists r s' document_id,
            add_document Demo.libs_with_ids (vector_db Demo.assistant) (lit "a b c")
              Demo.sample_metadata Demo.initial_state = (Ok r, s')
            /\ a_document_id r = Some document_id).
  { eexists _, _, _. split; vm_compute; reflexivity. }
  destruct Hrun as (r & s' & document_id & Hrun & Hid).
  destruct (add_then_delete_restores_store Demo.libs_with_ids (vector_db Demo.assistant)
              (lit "a b c") Demo.sample_metadata Demo.initial_state s' r document_id
              ids_injective
              (sample_metadata_free (lit "document_id")
                 ltac:(apply list_elem_of_In; simpl; auto))
              (initial_store_ok _) Hrun Hid)
    as (s'' & Hdel & Hclient).
  exists r, s', document_id, s''. by repeat split.
Defined.

(** A search among the two sample points, for text files only. *)
Lemma search_similar_respects_filter_witness :
  exists results s',
    search_similar Demo.libs_with_ids (vector_db Demo.assistant) (lit "a b") 5
      (Q2Qc 0) (Some {[ lit "file_type" := VStr (lit ".txt") ]}) Demo.loaded_state
    = (Ok results, s')
    /\ length results = 2%nat
    /\ forall r, r ∈ results -> sr_file_type r = VStr (lit ".txt").
Proof.
  assert (Hrun : exists results s',
            search_similar Demo.libs_with_ids (vector_db Demo.assistant) (lit "a b") 5
              (Q2Qc 0) (Some {[ lit "file_type" := VStr (lit ".txt") ]}) Demo.loaded_state
            = (Ok results, s')
            /\ length results = 2%nat).
  { eexists _, _. split; vm_compute; reflexivity. }
  destruct Hrun as (results & s' & Hrun & Hlen).
  exists results, s'. split; [exact Hrun|]. split; [exact Hlen|].
  intros r Hr.
  destruct (search_similar_respects_filter Demo.libs_with_ids (vector_db Demo.assistant)
              (lit "a b") 5 (Q2Qc 0) {[ lit "file_type" := VStr (lit ".txt") ]}
              Demo.loaded_state s' results Hrun r Hr)
    as (_ & _ & _ & _ & Htype & _).
  apply Htype. apply lookup_singleton_eq.
Defined.

(** The sample document deleted from the loaded store. *)
Lemma delete_document_isolates_witness :
  client Demo.loaded_state !! lit "documents" = Some Demo.loaded_points
  /\ replicate 1 35%N <> lit "unknown"
  /\ exists s',
       delete_document (vector_db Demo.assistant) (replicate 1 35%N) Demo.loaded_state
       = (Ok true, s')
       /\ client s' !! lit "documents" = Some [].
Proof.
  assert (Hne : replicate 1 35%N <> lit "unknown") by (vm_compute; discriminate).
  split; [exact loaded_state_points|]. split; [exact Hne|].
  destruct (delete_document_isolates Demo.libs_with_ids (vector_db Demo.assistant)
              (replicate 1 35%N) Demo.loaded_state Demo.loaded_points
              loaded_state_points Hne)
    as (s' & Hdel & Hcoll & _).
  exists s'. split; [exact Hdel|].
  etransitivity; [exact Hcoll|]. vm_compute. reflexivity.
Defined.

(** The statistics of the loaded store: one document of two chunks. *)
Lemma get_document_stats_counts_witness :
  client Demo.loaded_state !! lit "documents" = Some Demo.loaded_points
  /\ exists st,
       get_document_stats (vector_db Demo.assistant) Demo.loaded_state
       = (Ok st, Demo.loaded_state)
       /\ total_vectors st = 2
       /\ total_chunks st = 2
       /\ sum_chunks (documents st) = 2.
Proof.
  split; [exact loaded_state_points|].
  destruct (get_document_stats_counts (vector_db Demo.assistant) Demo.loaded_state
              Demo.loaded_points loaded_state_points)
    as (st & docs & Hrun & Hv & Hc & _ & _ & _ & Hsum & _).
  exists st. split; [exact Hrun|]. split; [exact Hv|]. split; [exact Hc|].
  rewrite Hsum. exact Hc.
Defined.

(** The sample text added to the empty store, then the statistics. *)
Lemma add_document_shows_in_stats_witness :
  exists r s' st st' e,
    add_document Demo.libs_with_ids (vector_db Demo.assistant) (lit "a b c")
      Demo.sample_metadata Demo.initial_state = (Ok r, s')
    /\ a_success r = true
    /\ get_document_stats (vector_db Demo.assistant) Demo.initial_state
       = (Ok st, Demo.initial_state)
    /\ get_document_stats (vector_db Demo.assistant) s' = (Ok st', s')
    /\ documents st' ≡ₚ e :: documents st
    /\ d_name e = VStr (lit "notes.txt")
    /\ d_chunks e = a_chunks_added r.
Proof.
  assert (Hrun : exists r s',
            add_document Demo.libs_with_ids (vector_db Demo.assistant) (lit "a b c")
              Demo.sample_metadata Demo.initial_state = (Ok r, s')
            /\ a_success r = true
            /\ len (@nil PointStruct) + a_chunks_added r <= 1000).
  { eexists _, _. split; [vm_compute; reflexivity|]. split; [reflexivity|].
    vm_compute. discriminate. }
  destruct Hrun as (r & s' & Hrun & Hsucc & Hbound).
  destruct (add_document_shows_in_stats Demo.libs_with_ids (vector_db Demo.assistant)
              (lit "a b c") Demo.sample_metadata Demo.initial_state s' r []
              ids_injective ltac:(vm_compute; discriminate) sample_metadata_free
              (initial_store_ok _) ltac:(reflexivity) Hrun Hsucc Hbound)
    as (st & st' & e & H1 & H2 & H3 & H4 & _ & H6 & _).
  exists r, s', st, st', e.
  split; [exact Hrun|]. split; [exact Hsucc|]. split; [exact H1|]. split; [exact H2|].
  split; [exact H3|]. split; [exact H4|exact H6].
Defined.

(** Three words in chunks of two. *)
Lemma chunk_text_chunks_sound_witness :
  exists chunks,
    chunk_text (lit "a b c") 2 0 = Ok chunks
    /\ Forall (chunk_of (split (lit "a b c")) 2) chunks.
Proof.
  assert (Hrun : exists chunks, chunk_text (lit "a b c") 2 0 = Ok chunks).
  { eexists. vm_compute. reflexivity. }
  destruct Hrun as (chunks & Hrun). exists chunks. split; [exact Hrun|].
  exact (chunk_text_chunks_sound (lit "a b c") 2 0 chunks Hrun).
Defined.



(** The text file of the demo files. *)
Lemma extract_text_success_witness :
  let r := extract_text Demo.libs (DocumentProcessor_init 50) Demo.files
             (lit "/tmp/notes.txt") (lit "notes.txt") in
  r_success r = true
  /\ strip (r_text r) = r_text r
  /\ extraction_metadata (r_metadata r).
Proof.
  intros r. assert (Hsucc : r_success r = true) by (vm_compute; reflexivity).
  split; [exact Hsucc|].
  destruct (extract_text_success Demo.libs (DocumentProcessor_init 50) Demo.files
              (lit "/tmp/notes.txt") (lit "notes.txt") Hsucc)
    as (_ & _ & _ & _ & Hstrip & _ & _ & Hmeta).
  split; [exact Hstrip|exact Hmeta].
Defined.



(** The demo store after a batch with a broken PDF. *)
Lemma store_ok_invariant_witness :
  store_ok Demo.libs_with_ids (lit "documents")
    (process_documents Demo.libs_with_ids Demo.assistant Demo.files
       [UploadPath (lit "/tmp/notes.txt"); UploadPath (lit "/tmp/broken.pdf")]
       Demo.initial_state).2.
Proof.
  apply (proj1 (proj2 (store_ok_invariant Demo.libs_with_ids Demo.assistant
                         Demo.initial_state ids_injective (initial_store_ok _)))).
Defined.

(** The best match for a query among the two sample points, searched with a
    filter on the file type. *)
Lemma search_similar_finds_best_witness :
  strip (lit "a b") <> []
  /\ plain_key (lit "file_type") = true
  /\ exists results s',
       search_similar Demo.libs_with_ids (vector_db Demo.assistant) (lit "a b") 1
         (Q2Qc 0) (Some {[ lit "file_type" := VStr (lit ".txt") ]})
         Demo.loaded_state = (Ok results, s')
       /\ length results = 1%nat.
Proof.
  assert (Hquery : strip (lit "a b") <> []) by (vm_compute; discriminate).
  assert (Hplain : plain_key (lit "file_type") = true) by (vm_compute; reflexivity).
  split; [exact Hquery|]. split; [exact Hplain|].
  destruct (search_similar_finds_best Demo.libs_with_ids (vector_db Demo.assistant)
              (lit "a b") 1 (Q2Qc 0) (Some {[ lit "file_type" := VStr (lit ".txt") ]})
              Demo.loaded_state Demo.loaded_points Hquery eq_refl)
    as (results & s' & Hrun & Hlen & _).
  { intros conds key [= <-] [v Hv].
    apply lookup_singleton_Some in Hv as [<- _]. exact Hplain. }
  { exact loaded_state_points. }
  { intros p Hp _. apply list_elem_of_In in Hp. simpl in Hp.
    destruct Hp as [<-|[<-|[]]]; eexists; vm_compute; reflexivity. }
  exists results, s'. split; [exact Hrun|]. rewrite Hlen. vm_compute. reflexivity.
Defined.

(** The sample text added and found again under its document id. *)
Lemma add_then_search_by_document_witness :
  exists r s' document_id results s'',
    add_document Demo.libs_with_ids (vector_db Demo.assistant) (lit "a b c")
      Demo.sample_metadata Demo.initial_state = (Ok r, s')
    /\ a_document_id r = Some document_id
    /\ search_similar Demo.libs_with_ids (vector_db Demo.assistant) (lit "a b") 5
         (Q2Qc 0) (Some {[ lit "document_id" := VStr document_id ]}) s'
       = (Ok results, s'')
    /\ len results = a_chunks_added r.
Proof.
  assert (Hrun : exists r s' document_id,
            add_document Demo.libs_with_ids (vector_db Demo.assistant) (lit "a b c")
              Demo.sample_metadata Demo.initial_state = (Ok r, s')
            /\ a_document_id r = Some document_id
            /\ a_chunks_added r <= Z.of_nat 5).
  { eexists _, _, _. split; [vm_compute; reflexivity|]. split; [reflexivity|].
    vm_compute. discriminate. }
  destruct Hrun as (r & s' & document_id & Hrun & Hid & Hlimit).
  destruct (add_then_search_by_document Demo.libs_with_ids (vector_db Demo.assistant)
              (lit "a b c") Demo.sample_metadata Demo.initial_state s' r document_id
              (lit "a b") 5 (Q2Qc 0) ids_injective sample_metadata_free
              (initial_store_ok _) Hrun Hid ltac:(vm_compute; discriminate) eq_refl Hlimit
              (similarity_nonnegative _))
    as (results & s'' & chunks & Hsearch & _ & Hlen & _).
  exists r, s', document_id, results, s''. by repeat split.
Defined.

(** The two format checks on a name in upper case. *)
Lemma format_checks_agree_witness :
  Demo.lower [] = []
  /\ is_supported_format Demo.lower (DocumentProcessor_init 50) (lit "REPORT.PDF")
     = validate_file_type Demo.lower (lit "REPORT.PDF").
Proof.
  split; [reflexivity|].
  apply (format_checks_agree Demo.lower 50 (lit "REPORT.PDF")). reflexivity.
Defined.

(** An empty file, a missing file and an upload that is not a file. *)
Lemma process_documents_unreadable_witness :
  let files := [UploadPath (lit "/tmp/empty.txt"); UploadObject (lit "/tmp/missing.pdf");
                UploadOther (lit "42")] in
  files <> []
  /\ process_documents Demo.libs Demo.assistant Demo.files files Demo.initial_state
     = (Ok (join nl (List.map (unreadable_line Demo.files) files)
            ++ summary_text 0 3), Demo.initial_state).
Proof.
  intros files. assert (Hne : files <> []) by discriminate.
  split; [exact Hne|].
  apply (process_documents_unreadable Demo.libs Demo.assistant Demo.files files
           Demo.initial_state Hne).
  repeat constructor; intros path data [= <-]; vm_compute; congruence.
Defined.

(** A client without any collection. *)
Lemma missing_collection_witness :
  client Demo.blank_state !! lit "documents" = None
  /\ get_document_stats (vector_db Demo.assistant) Demo.blank_state
     = (Ok empty_stats, Demo.blank_state).
Proof.
  assert (Hmissing : client Demo.blank_state !! lit "documents" = None) by reflexivity.
  split; [exact Hmissing|].
  exact (proj1 (proj2 (missing_collection Demo.libs (vector_db Demo.assistant)
                         Demo.blank_state Hmissing))).
Defined.
